(** * Session handling of the admin dashboard: token store, refresh hook,
      HTTP interceptor and auth store

    Shallow embedding of
      - src/services/tokenService.ts      (module [tokenService])
      - src/services/authService.ts       (module [authService])
      - the axios client and its two interceptors (module [httpClient])
      - the zustand auth store            (module [authStore])
      - the useTokenManager hook          (module [useTokenManager])
      - the TokenManager component's listener (module [TokenManager])

    Conventions.
    - JavaScript numbers that the code handles are millisecond time stamps
      and second counts; they are modelled as exact integers ([Z]) together
      with [NaN], which is faithful within the safe-integer range of a
      double: statements that depend on it assume [safe_integer].
    - Strings are sequences of bytes, the UTF-8 form of the text.
    - [localStorage] is a finite map from strings to strings; every
      [setItem] and [removeItem] is also recorded in a log.  The auth store
      is persisted: each of its updates writes its snapshot under
      ['auth-storage'].
    - The body of a response is never [null].
    - [Date.now()] is the field [Date_now] of the world; it is constant
      during a synchronous run and advances while a network call is
      outstanding.
    - An [async] function is a resumption: it runs until it awaits the
      network, at which point it is suspended with the world it leaves
      behind, and it is resumed later with the reply and the world as it is
      then.  Anything may happen to the world in between.  An [await] of
      something that does not wait for the network goes on at once.
    - The axios instance calls itself from its response interceptor; the
      model does so with fuel, and [request_fuel_enough] shows that two
      units are enough.
    - A value captured by a closure is a parameter of the function that
      closes over it: [isAuthenticated] in [useTokenManager]. *)

From Stdlib Require Import ZArith String Ascii List Lia Bool.
From Stdlib Require Import DecimalString DecimalPos DecimalZ.
From stdpp Require Import gmap strings.

Local Open Scope string_scope.
Local Open Scope Z_scope.

(** ** JavaScript values *)

(** A JavaScript number as this code meets it: an integer or NaN.
    Fractions are not modelled.  The arithmetic below is exact and
    [toString] prints in decimal, which is what JavaScript does on the safe
    integers, [2^53 - 1] and below in absolute value: beyond them a double
    rounds, and from [1e21] on it prints with an exponent.  A statement
    that reads a printed number back, or computes with one, assumes
    [safe_integer] of the values involved. *)
Inductive number : Type :=
| NaN : number
| Int : Z -> number.

(** [Number.MAX_SAFE_INTEGER] *)
Definition MAX_SAFE_INTEGER : Z := 9007199254740991.

(** [Number.isSafeInteger(z)] *)
Definition safe_integer (z : Z) : Prop :=
  - MAX_SAFE_INTEGER <= z <= MAX_SAFE_INTEGER.

Definition number_add (a b : number) : number :=
  match a, b with
  | Int x, Int y => Int (x + y)
  | _, _ => NaN
  end.

Definition number_sub (a b : number) : number :=
  match a, b with
  | Int x, Int y => Int (x - y)
  | _, _ => NaN
  end.

Definition number_mul (a b : number) : number :=
  match a, b with
  | Int x, Int y => Int (x * y)
  | _, _ => NaN
  end.

(** [a >= b]: false as soon as one side is NaN. *)
Definition number_ge (a b : number) : bool :=
  match a, b with
  | Int x, Int y => x >=? y
  | _, _ => false
  end.

(** [Math.max(a, b)]: NaN as soon as one side is NaN. *)
Definition Math_max (a b : number) : number :=
  match a, b with
  | Int x, Int y => Int (Z.max x y)
  | _, _ => NaN
  end.

(** [n.toString()], for NaN and the safe integers. *)
Definition toString (n : number) : string :=
  match n with
  | NaN => "NaN"
  | Int z => NilEmpty.string_of_int (Z.to_int z)
  end.

(** Truthiness of a [string | null]: null and the empty string are falsy. *)
Definition truthy (v : option string) : bool :=
  match v with
  | None => false
  | Some EmptyString => false
  | Some (String _ _) => true
  end.

(** [String(v)] for a [string | undefined], as [setItem] coerces its value. *)
Definition js_String (v : option string) : string :=
  match v with
  | None => "undefined"
  | Some s => s
  end.

(** [s.includes(sub)]. *)
Fixpoint includes (s sub : string) : bool :=
  String.prefix sub s ||
  match s with
  | EmptyString => false
  | String _ s' => includes s' sub
  end.

(** *** parseInt *)

(** White space and line terminators of ECMAScript (WhiteSpace and
    LineTerminator), on the UTF-8 form of the text: the ASCII ones, then
    U+00A0 in two bytes and the others in three. *)
Definition is_whitespace (c : ascii) : bool :=
  let n := N_of_ascii c in
  ((9 <=? n) && (n <=? 13))%N || (n =? 32)%N.

Definition is_ws3 (c1 c2 c3 : ascii) : bool :=
  let a := N_of_ascii c1 in
  let b := N_of_ascii c2 in
  let c := N_of_ascii c3 in
  (((a =? 225) && (b =? 154) && (c =? 128))                     (* U+1680 *)
   || ((a =? 226) && (b =? 128) && (128 <=? c) && (c <=? 138))  (* U+2000-200A *)
   || ((a =? 226) && (b =? 128) && ((c =? 168) || (c =? 169) || (c =? 175)))
                                                (* U+2028, U+2029, U+202F *)
   || ((a =? 226) && (b =? 129) && (c =? 159))                  (* U+205F *)
   || ((a =? 227) && (b =? 128) && (c =? 128))                  (* U+3000 *)
   || ((a =? 239) && (b =? 187) && (c =? 191)))%N.              (* U+FEFF *)

Fixpoint trimStart (s : string) : string :=
  match s with
  | EmptyString => s
  | String c1 s1 =>
      if is_whitespace c1 then trimStart s1
      else
        match s1 with
        | EmptyString => s
        | String c2 s2 =>
            if ((N_of_ascii c1 =? 194) && (N_of_ascii c2 =? 160))%N  (* U+00A0 *)
            then trimStart s2
            else
              match s2 with
              | EmptyString => s
              | String c3 s3 => if is_ws3 c1 c2 c3 then trimStart s3 else s
              end
        end
  end.

(** Value of a character as a digit of the given radix (10 or 16). *)
Definition digit_value (radix : Z) (c : ascii) : option Z :=
  let n := Z.of_N (N_of_ascii c) in
  let v :=
    if (48 <=? n) && (n <=? 57) then Some (n - 48)
    else if (97 <=? n) && (n <=? 102) then Some (n - 87)
    else if (65 <=? n) && (n <=? 70) then Some (n - 55)
    else None in
  match v with
  | Some d => if d <? radix then Some d else None
  | None => None
  end.

(** The longest prefix of digits, accumulated from the left; [acc] is NaN
    until a first digit has been read. *)
Fixpoint parse_digits (radix : Z) (s : string) (acc : number) : number :=
  match s with
  | EmptyString => acc
  | String c s' =>
      match digit_value radix c with
      | Some d =>
          let a := match acc with NaN => 0 | Int a => a end in
          parse_digits radix s' (Int (radix * a + d))
      | None => acc
      end
  end.

Definition number_neg (n : number) : number :=
  match n with
  | NaN => NaN
  | Int z => Int (- z)
  end.

(** [parseInt(s)] without a radix: leading white space and line terminators
    are stripped (as by [trimStart]), a sign is read, [0x]/[0X] selects base
    16, and the longest prefix of digits is the value; no digit at all gives
    NaN. *)
Definition parse_unsigned (s : string) : number :=
  match s with
  | String "0" (String "x" s') => parse_digits 16 s' NaN
  | String "0" (String "X" s') => parse_digits 16 s' NaN
  | _ => parse_digits 10 s NaN
  end.

Definition parseInt (s : string) : number :=
  match trimStart s with
  | String "-" s' => number_neg (parse_unsigned s')
  | String "+" s' => parse_unsigned s'
  | s' => parse_unsigned s'
  end.

(** ** Requests, replies and errors *)

Inductive Body : Type :=
| NoBody
| RefreshBody (refreshToken : string)
| LoginBody (email password : string)
| OtherBody (payload : string).

(** An axios request config.  [_retry] is the flag the response interceptor
    puts on a config it has handled once. *)
Record Request : Type := mkRequest {
  method : string;
  url : string;
  Authorization : option string;
  data : Body;
  _retry : bool
}.

Definition set_Authorization (h : string) (c : Request) : Request :=
  {| method := method c; url := url c; Authorization := Some h;
     data := data c; _retry := _retry c |}.

Definition set_retry (b : bool) (c : Request) : Request :=
  {| method := method c; url := url c; Authorization := Authorization c;
     data := data c; _retry := b |}.

(** The token triple of a refresh or login response
    (interface RefreshTokenResponse; [tokenType] is never read). *)
Module Tokens.
Record t : Type := mk {
  accessToken : string;
  refreshToken : string;
  expiresIn : Z
}.
End Tokens.

(** The JSON body of a response, as far as this code reads it.  A body
    here is never [null]: reading a property of it does not throw.  It
    has the three token fields (a refresh response), or a user and
    possibly tokens (a login response), or none of these. *)
Inductive Data : Type :=
| TokenData (t : Tokens.t)
| LoginData (user : string) (tokens : option Tokens.t)
| OtherData (payload : string).

(** Property reads on a response body; a missing property is undefined
    ([None]), and undefined in arithmetic is NaN. *)
Definition data_accessToken (d : Data) : option string :=
  match d with TokenData t => Some (Tokens.accessToken t) | _ => None end.

Definition data_refreshToken (d : Data) : option string :=
  match d with TokenData t => Some (Tokens.refreshToken t) | _ => None end.

Definition data_expiresIn (d : Data) : number :=
  match d with TokenData t => Int (Tokens.expiresIn t) | _ => NaN end.

Definition data_tokens (d : Data) : option Tokens.t :=
  match d with LoginData _ ts => ts | _ => None end.

(** What the network gives back for one call: an HTTP answer, or none
    (time-out, connection refused) with axios' error code and message. *)
Inductive Reply : Type :=
| Answer (status : Z) (body : Data)
| NoAnswer (code message : string).

Record Response : Type := mkResponse {
  status : Z;
  response_data : Data;
  response_config : Request
}.

Record AxiosError : Type := mkAxiosError {
  config : Request;
  response_status : option Z;
  code : option string;
  message : string
}.

Inductive JsError : Type :=
| AxiosErr (e : AxiosError)
| PlainErr (msg : string).

(** [error.response?.status] *)
Definition error_status (e : JsError) : option Z :=
  match e with
  | AxiosErr a => response_status a
  | PlainErr _ => None
  end.

Definition error_code (e : JsError) : option string :=
  match e with
  | AxiosErr a => code a
  | PlainErr _ => None
  end.

Definition error_message (e : JsError) : string :=
  match e with
  | AxiosErr a => message a
  | PlainErr m => m
  end.

Definition status_is (e : JsError) (s : Z) : bool :=
  match error_status e with
  | Some s' => s' =? s
  | None => false
  end.

(** ** The world *)

Inductive LoadingState : Type := IDLE | LOADING | SUCCESS | ERROR.

(** State of the zustand auth store. *)
Record AuthState : Type := mkAuthState {
  user : option string;
  token : option string;
  isAuthenticated : bool;
  loadingState : LoadingState;
  error : option string
}.

(** The refs of one mounted useTokenManager. *)
Record HookRefs : Type := mkHookRefs {
  lastActivityRef : Z;
  refreshTimeoutRef : option positive;
  inactivityTimeoutRef : option positive;
  isRefreshingRef : bool
}.

(** What a pending timer will run.  The refresh callback is a closure: it
    carries the [isAuthenticated] of the render that created it. *)
Inductive TimerCallback : Type :=
| RefreshCallback (captured_isAuthenticated : bool)
| InactivityCallback.

Record Timer : Type := mkTimer {
  callback : TimerCallback;
  delay : number
}.

Inductive StorageOp : Type :=
| SetItem (key value : string)
| RemoveItem (key : string).

Record World : Type := mkWorld {
  localStorage : gmap string string;
  storage_log : list StorageOp;     (* every setItem/removeItem, oldest first *)
  Date_now : Z;
  net_log : list Request;           (* every request put on the wire *)
  window_events : list string;      (* every CustomEvent dispatched *)
  toasts : list string;             (* titles of the toasts shown *)
  store : AuthState;
  refs : HookRefs;
  timers : gmap positive Timer;     (* timers armed and not yet fired *)
  next_timer : positive
}.

Definition with_localStorage (m : gmap string string) (ops : list StorageOp)
    (w : World) : World :=
  {| localStorage := m; storage_log := storage_log w ++ ops;
     Date_now := Date_now w; net_log := net_log w;
     window_events := window_events w; toasts := toasts w; store := store w;
     refs := refs w; timers := timers w; next_timer := next_timer w |}.

Definition with_Date_now (t : Z) (w : World) : World :=
  {| localStorage := localStorage w; storage_log := storage_log w;
     Date_now := t; net_log := net_log w;
     window_events := window_events w; toasts := toasts w; store := store w;
     refs := refs w; timers := timers w; next_timer := next_timer w |}.

Definition with_net_log (l : list Request) (w : World) : World :=
  {| localStorage := localStorage w; storage_log := storage_log w;
     Date_now := Date_now w; net_log := l;
     window_events := window_events w; toasts := toasts w; store := store w;
     refs := refs w; timers := timers w; next_timer := next_timer w |}.

Definition with_window_events (l : list string) (w : World) : World :=
  {| localStorage := localStorage w; storage_log := storage_log w;
     Date_now := Date_now w; net_log := net_log w;
     window_events := l; toasts := toasts w; store := store w;
     refs := refs w; timers := timers w; next_timer := next_timer w |}.

Definition with_toasts (l : list string) (w : World) : World :=
  {| localStorage := localStorage w; storage_log := storage_log w;
     Date_now := Date_now w; net_log := net_log w;
     window_events := window_events w; toasts := l; store := store w;
     refs := refs w; timers := timers w; next_timer := next_timer w |}.

Definition with_store (a : AuthState) (w : World) : World :=
  {| localStorage := localStorage w; storage_log := storage_log w;
     Date_now := Date_now w; net_log := net_log w;
     window_events := window_events w; toasts := toasts w; store := a;
     refs := refs w; timers := timers w; next_timer := next_timer w |}.

Definition with_refs (r : HookRefs) (w : World) : World :=
  {| localStorage := localStorage w; storage_log := storage_log w;
     Date_now := Date_now w; net_log := net_log w;
     window_events := window_events w; toasts := toasts w; store := store w;
     refs := r; timers := timers w; next_timer := next_timer w |}.

Definition with_timers (m : gmap positive Timer) (n : positive) (w : World)
    : World :=
  {| localStorage := localStorage w; storage_log := storage_log w;
     Date_now := Date_now w; net_log := net_log w;
     window_events := window_events w; toasts := toasts w; store := store w;
     refs := refs w; timers := m; next_timer := n |}.

(** ** Asynchronous computations *)

Inductive Outcome (A : Type) : Type :=
| Returned (a : A)
| Thrown (e : JsError)
| Diverged.                          (* the model ran out of fuel *)
Arguments Returned {A} a.
Arguments Thrown {A} e.
Arguments Diverged {A}.

(** A computation has finished in a world, or it waits for the reply to a
    request it has sent; [Await w req k] leaves the world [w] behind, and
    [k] is resumed with the reply and with the world as it is by then. *)
Inductive Step (A : Type) : Type :=
| Done (r : Outcome A) (w : World)
| Await (w : World) (req : Request) (k : Reply -> World -> Step A).
Arguments Done {A} r w.
Arguments Await {A} w req k.

Definition Proc (A : Type) : Type := World -> Step A.

Fixpoint step_bind {A B : Type} (s : Step A) (f : A -> Proc B) : Step B :=
  match s with
  | Done (Returned a) w => f a w
  | Done (Thrown e) w => Done (Thrown e) w
  | Done Diverged w => Done Diverged w
  | Await w req k => Await w req (fun rep w' => step_bind (k rep w') f)
  end.

(** [try { s } catch (e) { h e }] *)
Fixpoint step_catch {A : Type} (s : Step A) (h : JsError -> Proc A) : Step A :=
  match s with
  | Done (Thrown e) w => h e w
  | Done r w => Done r w
  | Await w req k => Await w req (fun rep w' => step_catch (k rep w') h)
  end.

(** [try { s } finally { f }], for a finaliser that only updates state. *)
Fixpoint step_finally {A : Type} (s : Step A) (f : World -> World) : Step A :=
  match s with
  | Done r w => Done r (f w)
  | Await w req k => Await w req (fun rep w' => step_finally (k rep w') f)
  end.

Definition ret {A : Type} (a : A) : Proc A := fun w => Done (Returned a) w.
Definition throw {A : Type} (e : JsError) : Proc A := fun w => Done (Thrown e) w.
Definition diverge {A : Type} : Proc A := fun w => Done Diverged w.
Definition bind {A B : Type} (m : Proc A) (f : A -> Proc B) : Proc B :=
  fun w => step_bind (m w) f.
Definition try_catch {A : Type} (m : Proc A) (h : JsError -> Proc A) : Proc A :=
  fun w => step_catch (m w) h.
Definition try_finally {A : Type} (m : Proc A) (f : World -> World) : Proc A :=
  fun w => step_finally (m w) f.
Definition gets {A : Type} (f : World -> A) : Proc A :=
  fun w => Done (Returned (f w)) w.
Definition modify (f : World -> World) : Proc unit :=
  fun w => Done (Returned tt) (f w).

#[global] Instance Proc_ret : MRet Proc := @ret.
#[global] Instance Proc_bind : MBind Proc := fun A B f m => bind m f.

(** *** The browser *)

Definition getItem (k : string) : Proc (option string) :=
  gets (fun w => localStorage w !! k).

Definition setItem (k v : string) : Proc unit :=
  modify (fun w => with_localStorage (<[k := v]> (localStorage w)) [SetItem k v] w).

Definition removeItem (k : string) : Proc unit :=
  modify (fun w => with_localStorage (delete k (localStorage w)) [RemoveItem k] w).

Definition Date_now_ : Proc number := gets (fun w => Int (Date_now w)).

Definition dispatchEvent (name : string) : Proc unit :=
  modify (fun w => with_window_events (window_events w ++ [name]) w).

Definition toast (title : string) : Proc unit :=
  modify (fun w => with_toasts (toasts w ++ [title]) w).

Definition setTimeout (cb : TimerCallback) (ms : number) : Proc positive :=
  fun w =>
    let id := next_timer w in
    Done (Returned id)
         (with_timers (<[id := mkTimer cb ms]> (timers w)) (Pos.succ id) w).

Definition clearTimeout (id : positive) : Proc unit :=
  modify (fun w => with_timers (delete id (timers w)) (next_timer w) w).

(** Putting a request on the wire: it is logged, and the caller is
    suspended until the reply comes. *)
Definition send (req : Request) : Proc Reply :=
  fun w => Await (with_net_log (net_log w ++ [req]) w) req
                 (fun rep w' => Done (Returned rep) w').

(** The state a synchronous block leaves behind, for use as a finaliser. *)
Definition exec (m : Proc unit) (w : World) : World :=
  match m w with
  | Done _ w' => w'
  | Await w' _ _ => w'
  end.

(** ** api/httpClient: the axios instance and its interceptors *)

Module httpClient.

(** axios' [settle]: a status in [200, 300) resolves, any other status
    and the absence of a response reject with an AxiosError. *)
Definition bad_status_code (st : Z) : option string :=
  if st / 100 =? 4 then Some "ERR_BAD_REQUEST"
  else if st / 100 =? 5 then Some "ERR_BAD_RESPONSE"
  else None.

Definition settle (cfg : Request) (rep : Reply) : Response + AxiosError :=
  match rep with
  | Answer st d =>
      if (200 <=? st) && (st <? 300) then inl (mkResponse st d cfg)
      else inr (mkAxiosError cfg (Some st) (bad_status_code st)
                  ("Request failed with status code " +:+ toString (Int st)))
  | NoAnswer c m => inr (mkAxiosError cfg None (Some c) m)
  end.

(** Request interceptor: attach the stored access token. *)
Definition request_interceptor (cfg : Request) : Proc Request :=
  token ← getItem "accessToken";
  if truthy token
  then mret (set_Authorization ("Bearer " +:+ js_String token) cfg)
  else mret cfg.

(** How the [try] block of the response interceptor is left when it does
    not throw: by [return httpClient(originalRequest)], or by falling
    out of it. *)
Inductive TryExit : Type :=
| Replay (cfg : Request)
| FellThrough.

Definition with_config (cfg : Request) (e : AxiosError) : AxiosError :=
  {| config := cfg; response_status := response_status e;
     code := code e; message := message e |}.

(** Response interceptor, rejection branch.  [client] is the axios
    instance itself.  [originalRequest] is [error.config], the same
    object, so setting [_retry] on it shows in the error that is
    rejected.  The replay is returned from inside [try] without [await]:
    its rejection is not caught by the [catch] of this function. *)
Definition response_error_interceptor
    (client : Request -> Proc Response) (error : AxiosError) : Proc Response :=
  let originalRequest := config error in
  if (status_is (AxiosErr error) 401 || status_is (AxiosErr error) 403)
     && negb (_retry originalRequest)
  then
    let originalRequest := set_retry true originalRequest in
    let error := with_config originalRequest error in
    if includes (url originalRequest) "/auth/" then throw (AxiosErr error)
    else
      exit ← try_catch
        (refreshToken ← getItem "refreshToken";
         if negb (truthy refreshToken)
         then throw (PlainErr "No refresh token available")
         else
           refreshResponse ←
             client (mkRequest "post" "/auth/tokens/refresh" None
                       (RefreshBody (js_String refreshToken)) false);
           let d := response_data refreshResponse in
           if truthy (data_accessToken d) then
             setItem "accessToken" (js_String (data_accessToken d));;
             setItem "refreshToken" (js_String (data_refreshToken d));;
             t ← Date_now_;
             setItem "tokenExpiry"
               (toString (number_add t (number_mul (data_expiresIn d) (Int 1000))));;
             mret (Replay (set_Authorization
                             ("Bearer " +:+ js_String (data_accessToken d))
                             originalRequest))
           else mret FellThrough)
        (fun refreshError =>
           removeItem "accessToken";;
           removeItem "refreshToken";;
           removeItem "tokenExpiry";;
           dispatchEvent "auth:session-expired";;
           throw (AxiosErr error));
      match exit with
      | Replay cfg => client cfg
      | FellThrough => throw (AxiosErr error)
      end
  else throw (AxiosErr error).

(** One call of the axios instance: request interceptor, the wire,
    settle, response interceptor.  The interceptor calls the instance
    again, hence the fuel. *)
Fixpoint request (fuel : nat) (cfg : Request) : Proc Response :=
  match fuel with
  | O => diverge
  | S n =>
      cfg' ← request_interceptor cfg;
      rep ← send cfg';
      match settle cfg' rep with
      | inl response => mret response
      | inr error => response_error_interceptor (request n) error
      end
  end.

Definition post (fuel : nat) (u : string) (d : Body) : Proc Response :=
  request fuel (mkRequest "post" u None d false).

Definition delete (fuel : nat) (u : string) : Proc Response :=
  request fuel (mkRequest "delete" u None NoBody false).

Definition get (fuel : nat) (u : string) : Proc Response :=
  request fuel (mkRequest "get" u None NoBody false).

Definition put (fuel : nat) (u : string) (d : Body) : Proc Response :=
  request fuel (mkRequest "put" u None d false).

End httpClient.

(** ** services/tokenService.ts *)

Module tokenService.

Definition refreshAccessToken (fuel : nat) (refreshToken : string) : Proc Data :=
  response ← httpClient.post fuel "/auth/tokens/refresh" (RefreshBody refreshToken);
  mret (response_data response).

Definition isTokenExpired : Proc bool :=
  expiry ← getItem "tokenExpiry";
  if negb (truthy expiry) then mret true
  else
    t ← Date_now_;
    mret (number_ge t (parseInt (js_String expiry))).

Definition getTimeUntilExpiry : Proc number :=
  expiry ← getItem "tokenExpiry";
  if negb (truthy expiry) then mret (Int 0)
  else
    t ← Date_now_;
    let timeLeft := number_sub (parseInt (js_String expiry)) t in
    mret (Math_max (Int 0) timeLeft).

Definition storeTokens (accessToken refreshToken : string) (expiresIn : number)
    : Proc unit :=
  setItem "accessToken" accessToken;;
  setItem "refreshToken" refreshToken;;
  t ← Date_now_;
  setItem "tokenExpiry" (toString (number_add t (number_mul expiresIn (Int 1000)))).

Definition clearTokens : Proc unit :=
  removeItem "accessToken";;
  removeItem "refreshToken";;
  removeItem "tokenExpiry".

Definition validateToken (fuel : nat) : Proc Data :=
  response ← httpClient.get fuel "/auth/tokens/validate";
  mret (response_data response).

Definition revokeAllTokens (fuel : nat) : Proc unit :=
  httpClient.delete fuel "/auth/tokens/revoke-all";;
  mret tt.

Definition revokeSession (fuel : nat) : Proc unit :=
  httpClient.delete fuel "/auth/tokens/revoke-session";;
  mret tt.

End tokenService.

(** ** services/authService.ts *)

Module authService.

Definition login_error_message (error : JsError) : string :=
  if status_is error 401 then "Invalid email or password"
  else if status_is error 422 then "Invalid request format"
  else if match error_status error with Some s => 500 <=? s | None => false end
  then "Server error. Please try again later."
  else if bool_decide (error_code error = Some "ECONNABORTED")
  then "Request timeout. Please check your connection."
  else if bool_decide (error_code error = Some "ERR_NETWORK")
  then "Network error. Please check CORS settings on the server."
  else if truthy (Some (error_message error)) then error_message error
  else "Login failed".

Definition login (fuel : nat) (email password : string) : Proc Data :=
  try_catch
    (response ← httpClient.post fuel "/auth/login" (LoginBody email password);
     match data_tokens (response_data response) with
     | Some tokens =>
         setItem "accessToken" (Tokens.accessToken tokens);;
         setItem "refreshToken" (Tokens.refreshToken tokens);;
         t ← Date_now_;
         setItem "tokenExpiry"
           (toString (number_add t (Int (Tokens.expiresIn tokens * 1000))));;
         mret (response_data response)
     | None => mret (response_data response)
     end)
    (fun error => throw (PlainErr (login_error_message error))).

Definition logout : Proc unit :=
  removeItem "accessToken";;
  removeItem "refreshToken";;
  removeItem "tokenExpiry".

(** Returns the new access token, or null. *)
Definition refreshToken (fuel : nat) : Proc (option string) :=
  try_catch
    (refreshToken ← getItem "refreshToken";
     if negb (truthy refreshToken)
     then throw (PlainErr "No refresh token available")
     else
       response ← httpClient.post fuel "/auth/tokens/refresh"
                    (RefreshBody (js_String refreshToken));
       let d := response_data response in
       if truthy (data_accessToken d) then
         setItem "accessToken" (js_String (data_accessToken d));;
         setItem "refreshToken" (js_String (data_refreshToken d));;
         t ← Date_now_;
         setItem "tokenExpiry"
           (toString (number_add t (number_mul (data_expiresIn d) (Int 1000))));;
         mret (data_accessToken d)
       else mret None)
    (fun error =>
       (* Clear tokens on refresh failure *)
       removeItem "accessToken";;
       removeItem "refreshToken";;
       removeItem "tokenExpiry";;
       mret None).

Definition enhancedLogout (fuel : nat) (revokeAll : bool) : Proc unit :=
  try_finally
    (try_catch
       (if revokeAll
        then httpClient.delete fuel "/auth/tokens/revoke-all";; mret tt
        else httpClient.delete fuel "/auth/tokens/revoke-session";; mret tt)
       (fun error => mret tt))
    (exec (removeItem "accessToken";;
           removeItem "refreshToken";;
           removeItem "tokenExpiry")).

End authService.

(** ** stores/authStore: the zustand store *)

Module authStore.

(** The store is created with zustand's [persist] middleware, under the
    name ['auth-storage'] and with [partialize] keeping [user], [token]
    and [isAuthenticated]: after every [set] the middleware writes
    [JSON.stringify({state, version: 0})] of that part of the state to
    localStorage.  The user object is a string in this model, and is
    persisted as that string. *)
Definition hex_lower (n : N) : ascii :=
  if (n <? 10)%N then ascii_of_N (48 + n) else ascii_of_N (87 + n).

(** [JSON.stringify] of a string, without the enclosing quotes. *)
Definition json_escape_char (c : ascii) : string :=
  let n := N_of_ascii c in
  let backslash := ascii_of_N 92 in
  if (n =? 34)%N then String backslash (String c EmptyString)
  else if (n =? 92)%N then String backslash (String c EmptyString)
  else if (n =? 8)%N then String backslash "b"
  else if (n =? 9)%N then String backslash "t"
  else if (n =? 10)%N then String backslash "n"
  else if (n =? 12)%N then String backslash "f"
  else if (n =? 13)%N then String backslash "r"
  else if (n <? 32)%N
  then String backslash
         ("u00" +:+ String (hex_lower (n / 16))
                      (String (hex_lower (n mod 16)) EmptyString))
  else String c EmptyString.

Fixpoint json_escape (s : string) : string :=
  match s with
  | EmptyString => EmptyString
  | String c s' => json_escape_char c +:+ json_escape s'
  end.

Definition json_string (s : string) : string :=
  String (ascii_of_N 34) (json_escape s +:+ String (ascii_of_N 34) EmptyString).

Definition json_nullable (v : option string) : string :=
  match v with
  | Some s => json_string s
  | None => "null"
  end.

Definition persisted (s : AuthState) : string :=
  "{" +:+ json_string "state" +:+ ":{"
  +:+ json_string "user" +:+ ":" +:+ json_nullable (user s) +:+ ","
  +:+ json_string "token" +:+ ":" +:+ json_nullable (token s) +:+ ","
  +:+ json_string "isAuthenticated" +:+ ":"
  +:+ (if isAuthenticated s then "true" else "false")
  +:+ "}," +:+ json_string "version" +:+ ":0}".

(** [set(partial)]: the state is updated, then persisted. *)
Definition set (f : AuthState -> AuthState) : Proc unit :=
  modify (fun w => with_store (f (store w)) w);;
  s ← gets store;
  setItem "auth-storage" (persisted s).

Definition logged_out : AuthState :=
  {| user := None; token := None; isAuthenticated := false;
     loadingState := IDLE; error := None |}.

(** [login].  The response is taken apart by destructuring and the user is
    mapped field by field, which succeeds on a response with a user; then
    [tokens.accessToken] is read, which throws a TypeError on a response
    without tokens.  The [catch] treats it like any other Error; its
    message is not modelled beyond being one. *)
Definition login (fuel : nat) (email password : string) : Proc unit :=
  try_catch
    (set (fun s => {| user := user s; token := token s;
                      isAuthenticated := isAuthenticated s;
                      loadingState := LOADING; error := None |});;
     response ← authService.login fuel email password;
     match response with
     | LoginData apiUser (Some tokens) =>
         set (fun _ => {| user := Some apiUser;
                          token := Some (Tokens.accessToken tokens);
                          isAuthenticated := true;
                          loadingState := SUCCESS; error := None |})
     | _ => throw (PlainErr "Cannot read properties of undefined")
     end)
    (fun error =>
       set (fun _ => {| user := None; token := None; isAuthenticated := false;
                        loadingState := ERROR;
                        error := Some (error_message error) |});;
       throw error).

Definition logout : Proc unit :=
  removeItem "accessToken";;
  removeItem "refreshToken";;
  removeItem "tokenExpiry";;
  set (fun _ => logged_out).

(** Mock implementation: no request is made. *)
Definition refreshToken : Proc unit :=
  try_catch
    (refreshToken ← getItem "refreshToken";
     if negb (truthy refreshToken)
     then throw (PlainErr "No refresh token available")
     else
       t ← Date_now_;
       let newToken := "mock-jwt-token-" +:+ toString t in
       setItem "accessToken" newToken;;
       t' ← Date_now_;
       setItem "tokenExpiry" (toString (number_add t' (Int (3600 * 1000))));;
       set (fun s => {| user := user s; token := Some newToken;
                        isAuthenticated := isAuthenticated s;
                        loadingState := loadingState s; error := error s |}))
    (fun error => logout;; throw error).

End authStore.

(** ** hooks/useTokenManager *)

Module useTokenManager.

Definition INACTIVITY_TIMEOUT : Z := 15 * 60 * 1000.
Definition TOKEN_REFRESH_BUFFER : Z := 2 * 60 * 1000.

Definition set_lastActivityRef (t : Z) (w : World) : World :=
  with_refs {| lastActivityRef := t;
               refreshTimeoutRef := refreshTimeoutRef (refs w);
               inactivityTimeoutRef := inactivityTimeoutRef (refs w);
               isRefreshingRef := isRefreshingRef (refs w) |} w.

Definition set_refreshTimeoutRef (id : positive) (w : World) : World :=
  with_refs {| lastActivityRef := lastActivityRef (refs w);
               refreshTimeoutRef := Some id;
               inactivityTimeoutRef := inactivityTimeoutRef (refs w);
               isRefreshingRef := isRefreshingRef (refs w) |} w.

Definition set_inactivityTimeoutRef (id : positive) (w : World) : World :=
  with_refs {| lastActivityRef := lastActivityRef (refs w);
               refreshTimeoutRef := refreshTimeoutRef (refs w);
               inactivityTimeoutRef := Some id;
               isRefreshingRef := isRefreshingRef (refs w) |} w.

Definition set_isRefreshingRef (b : bool) (w : World) : World :=
  with_refs {| lastActivityRef := lastActivityRef (refs w);
               refreshTimeoutRef := refreshTimeoutRef (refs w);
               inactivityTimeoutRef := inactivityTimeoutRef (refs w);
               isRefreshingRef := b |} w.

(** [if (ref.current) clearTimeout(ref.current)]; a timer id is never 0. *)
Definition clear_if_set (ref : option positive) : Proc unit :=
  match ref with
  | Some id => clearTimeout id
  | None => mret tt
  end.

Definition updateActivity : Proc unit :=
  t ← gets Date_now;
  modify (set_lastActivityRef t);;
  ref ← gets (fun w => inactivityTimeoutRef (refs w));
  clear_if_set ref;;
  id ← setTimeout InactivityCallback (Int INACTIVITY_TIMEOUT);
  modify (set_inactivityTimeoutRef id).

Definition performTokenRefresh (fuel : nat) : Proc bool :=
  refreshing ← gets (fun w => isRefreshingRef (refs w));
  if refreshing : bool then mret false
  else
    modify (set_isRefreshingRef true);;
    try_finally
      (try_catch
         (refreshToken ← getItem "refreshToken";
          if negb (truthy refreshToken)
          then throw (PlainErr "No refresh token available")
          else
            response ← tokenService.refreshAccessToken fuel (js_String refreshToken);
            tokenService.storeTokens
              (js_String (data_accessToken response))
              (js_String (data_refreshToken response))
              (data_expiresIn response);;
            mret true)
         (fun error =>
            (* Check if refresh token is invalid (401/403) *)
            if status_is error 401 || status_is error 403 then
              toast "Session Expired";;
              authStore.logout;;
              mret false
            else mret false))
      (set_isRefreshingRef false).

(** [isAuthenticated] is the value the enclosing render read from the
    store; the callback handed to [setTimeout] closes over the same
    value and calls this very function again. *)
Definition scheduleTokenRefresh (isAuthenticated : bool) : Proc unit :=
  ref ← gets (fun w => refreshTimeoutRef (refs w));
  clear_if_set ref;;
  if negb isAuthenticated then mret tt
  else
    timeUntilExpiry ← tokenService.getTimeUntilExpiry;
    let refreshTime :=
      Math_max (Int 0) (number_sub timeUntilExpiry (Int TOKEN_REFRESH_BUFFER)) in
    id ← setTimeout (RefreshCallback isAuthenticated) refreshTime;
    modify (set_refreshTimeoutRef id).

(** The function handed to [setTimeout] by [scheduleTokenRefresh]. *)
Definition refresh_timer_fired (fuel : nat) (isAuthenticated : bool) : Proc unit :=
  performTokenRefresh fuel;;
  scheduleTokenRefresh isAuthenticated.   (* Schedule next refresh *)

Definition handleActivity (fuel : nat) (isAuthenticated : bool) : Proc unit :=
  updateActivity;;
  if negb isAuthenticated then mret tt
  else
    expired ← tokenService.isTokenExpired;
    if expired : bool then
      refreshed ← performTokenRefresh fuel;
      if refreshed : bool then scheduleTokenRefresh isAuthenticated else mret tt
    else mret tt.

(** The effect of the hook, run after a render that saw [isAuthenticated]. *)
Definition effect (isAuthenticated : bool) : Proc unit :=
  if negb isAuthenticated then
    r ← gets (fun w => refreshTimeoutRef (refs w));
    clear_if_set r;;
    i ← gets (fun w => inactivityTimeoutRef (refs w));
    clear_if_set i
  else
    updateActivity;;
    scheduleTokenRefresh isAuthenticated.

(** Its clean-up, for a render that had mounted the listeners. *)
Definition effect_cleanup : Proc unit :=
  r ← gets (fun w => refreshTimeoutRef (refs w));
  clear_if_set r;;
  i ← gets (fun w => inactivityTimeoutRef (refs w));
  clear_if_set i.

End useTokenManager.

(** ** components/TokenManager: the listener for the interceptor's event *)

Module TokenManager.

Definition handleSessionExpired : Proc unit :=
  toast "Session Expired";;
  authStore.logout.

End TokenManager.

(** ** components/auth/ProtectedRoute *)

Module ProtectedRoute.

(** What the component renders: a redirect that remembers where the user
    was, or its children. *)
Inductive Rendered : Type :=
| Navigate (to from : string) (replace : bool)
| Children.

(** [redirectTo] defaults to ['/login'] when the prop is not given. *)
Definition render (redirectTo : option string) (location : string) : Proc Rendered :=
  isAuthenticated ← gets (fun w => isAuthenticated (store w));
  if negb isAuthenticated
  then mret (Navigate (match redirectTo with Some r => r | None => "/login" end)
                      location true)
  else mret Children.

End ProtectedRoute.

(** ** URLSearchParams, as the approval service uses it

    Strings are sequences of bytes, the UTF-8 encoding of the text; the
    serialiser is the application/x-www-form-urlencoded byte serialiser. *)

Module URLSearchParams.

Definition t : Type := list (string * string).

Definition append (k v : string) (q : t) : t := (q ++ [(k, v)])%list.

(** Bytes left as they are: [*], [-], [.], [_], digits and letters. *)
Definition is_unreserved (c : ascii) : bool :=
  let n := N_of_ascii c in
  ((n =? 42) || (n =? 45) || (n =? 46) || (n =? 95)
   || ((48 <=? n) && (n <=? 57))
   || ((65 <=? n) && (n <=? 90))
   || ((97 <=? n) && (n <=? 122)))%N.

Definition hex_digit (n : N) : ascii :=
  if (n <? 10)%N then ascii_of_N (48 + n) else ascii_of_N (55 + n).

Definition encode_byte (c : ascii) : string :=
  let n := N_of_ascii c in
  if is_unreserved c then String c EmptyString
  else if (n =? 32)%N then "+"
  else String "%" (String (hex_digit (n / 16)) (String (hex_digit (n mod 16)) EmptyString)).

Fixpoint encode (s : string) : string :=
  match s with
  | EmptyString => EmptyString
  | String c s' => encode_byte c +:+ encode s'
  end.

Definition serialize_pair (p : string * string) : string :=
  encode (fst p) +:+ "=" +:+ encode (snd p).

(** [q.toString()] *)
Fixpoint toString (q : t) : string :=
  match q with
  | [] => EmptyString
  | [p] => serialize_pair p
  | p :: q' => serialize_pair p +:+ "&" +:+ toString q'
  end.

End URLSearchParams.

(** [s.trim()]: white space and line terminators are stripped from both
    ends. *)
Fixpoint trimEnd (s : string) : string :=
  match s with
  | EmptyString => s
  | String c s' =>
      match trimStart s with
      | EmptyString => EmptyString
      | _ => String c (trimEnd s')
      end
  end.

Definition trim (s : string) : string := trimEnd (trimStart s).

(** ** services/approvalService: class ApprovalService *)

Module ApprovalService.

Record ApprovalParams : Type := mkApprovalParams {
  page : option number;
  limit : option number;
  role : option string;
  onboardingStatus : option string;
  isActive : option bool;
  search : option string;
  region : option string;
  nzbnApprovalStatus : option string
}.

(** Truthiness of a [number | undefined]: undefined, 0 and NaN are falsy. *)
Definition number_truthy (n : option number) : bool :=
  match n with
  | Some (Int z) => negb (z =? 0)
  | _ => false
  end.

Definition number_toString (n : option number) : string :=
  match n with
  | Some x => toString x
  | None => "undefined"
  end.

Definition bool_toString (b : option bool) : string :=
  match b with
  | Some true => "true"
  | Some false => "false"
  | None => "undefined"
  end.

(** [if (c) queryParams.append(k, v)] *)
Definition append_if (c : bool) (k v : string) (q : URLSearchParams.t)
    : URLSearchParams.t :=
  if c then URLSearchParams.append k v q else q.

(** Truthiness of [s && s.trim()]. *)
Definition nonblank (s : option string) : bool :=
  truthy s && truthy (Some (trim (js_String s))).

Definition defined {A : Type} (o : option A) : bool :=
  match o with Some _ => true | None => false end.

(** The query of [getPendingApprovals]; the status filter is commented
    out in the source. *)
Definition pendingQuery (params : ApprovalParams) : URLSearchParams.t :=
  let q := [] in
  let q := append_if (number_truthy (page params)) "page" (number_toString (page params)) q in
  let q := append_if (number_truthy (limit params)) "limit" (number_toString (limit params)) q in
  let q := append_if (truthy (role params)) "role" (js_String (role params)) q in
  let q := append_if (truthy (onboardingStatus params)) "onboardingStatus"
             (js_String (onboardingStatus params)) q in
  let q := append_if (defined (isActive params)) "isActive" (bool_toString (isActive params)) q in
  let q := append_if (truthy (search params)) "search" (js_String (search params)) q in
  let q := append_if (truthy (region params)) "region" (js_String (region params)) q in
  q.

(** The query of [getApprovalHistory]. *)
Definition historyQuery (params : ApprovalParams) : URLSearchParams.t :=
  let q := [] in
  let q := append_if (number_truthy (page params)) "page" (number_toString (page params)) q in
  let q := append_if (number_truthy (limit params)) "limit" (number_toString (limit params)) q in
  let q := append_if (nonblank (role params)) "role" (js_String (role params)) q in
  let q := append_if (nonblank (onboardingStatus params)) "onboardingStatus"
             (js_String (onboardingStatus params)) q in
  let q := append_if (defined (isActive params)) "isActive" (bool_toString (isActive params)) q in
  let q := append_if (nonblank (search params)) "search" (js_String (search params)) q in
  let q := append_if (nonblank (region params)) "region" (js_String (region params)) q in
  let q := append_if (nonblank (nzbnApprovalStatus params)) "nzbnApprovalStatus"
             (js_String (nzbnApprovalStatus params)) q in
  q.

(** [`${path}${qs ? `?${qs}` : ''}`] *)
Definition with_query (path : string) (q : URLSearchParams.t) : string :=
  if truthy (Some (URLSearchParams.toString q))
  then path +:+ "?" +:+ URLSearchParams.toString q
  else path.

Definition pendingUrl (params : ApprovalParams) : string :=
  with_query "/admin/users/nzbn-approvals/pending" (pendingQuery params).

Definition historyUrl (params : ApprovalParams) : string :=
  with_query "/admin/users/nzbn-approvals/history" (historyQuery params).

Definition getPendingApprovals (fuel : nat) (params : ApprovalParams) : Proc Data :=
  response ← httpClient.get fuel (pendingUrl params);
  mret (response_data response).

Definition getApprovalHistory (fuel : nat) (params : ApprovalParams) : Proc Data :=
  response ← httpClient.get fuel (historyUrl params);
  mret (response_data response).

(** The body of the approval request: [{ status }], with [reason] added
    when it is truthy. *)
Record ApprovalBody : Type := mkApprovalBody {
  body_status : string;
  body_reason : option string
}.

Definition approvalBody (status : string) (reason : option string) : ApprovalBody :=
  let requestBody := mkApprovalBody status None in
  if truthy reason then mkApprovalBody (body_status requestBody) reason
  else requestBody.

Section WithSerializer.

(** axios' JSON transform of the body. *)
Variable stringify : ApprovalBody -> string.

Definition updateNzbnApproval (fuel : nat) (userId status : string)
    (reason : option string) : Proc Data :=
  response ← httpClient.put fuel
               ("/admin/users/" +:+ userId +:+ "/nzbn-approval")
               (OtherBody (stringify (approvalBody status reason)));
  mret (response_data response).

(** [reason] defaults to ["NZBN verified successfully"] when the argument
    is not given. *)
Definition approveUser (fuel : nat) (userId : string) (reason : option string)
    : Proc Data :=
  updateNzbnApproval fuel userId "approved"
    (Some (match reason with Some r => r | None => "NZBN verified successfully" end)).

Definition rejectUser (fuel : nat) (userId reason : string) : Proc Data :=
  updateNzbnApproval fuel userId "rejected" (Some reason).

End WithSerializer.

End ApprovalService.

(** ** The event loop *)

(** A pending timer fires: it leaves the table and its callback runs. *)
Definition fire_timer (fuel : nat) (id : positive) : Proc unit :=
  t ← gets (fun w => timers w !! id);
  match t with
  | None => mret tt
  | Some tm =>
      modify (fun w => with_timers (delete id (timers w)) (next_timer w) w);;
      match callback tm with
      | RefreshCallback a => useTokenManager.refresh_timer_fired fuel a
      | InactivityCallback => mret tt
      end
  end.

(** One answer of the network: the reply and the time it took. *)
Record NetAnswer : Type := mkNetAnswer {
  elapsed : N;
  reply : Reply
}.

Inductive RunResult (A : Type) : Type :=
| Finished (r : Outcome A) (w : World) (rest : list NetAnswer)
| Pending (w : World) (req : Request).
Arguments Finished {A} r w rest.
Arguments Pending {A} w req.

Definition tick (dt : N) (w : World) : World :=
  with_Date_now (Date_now w + Z.of_N dt) w.

(** Running a computation with nothing else going on: each request is
    answered by the next answer of the script; when the script is
    exhausted the computation stays pending. *)
Fixpoint run {A : Type} (s : Step A) (script : list NetAnswer) : RunResult A :=
  match s with
  | Done r w => Finished r w script
  | Await w req k =>
      match script with
      | [] => Pending w req
      | a :: rest => run (k (reply a) (tick (elapsed a) w)) rest
      end
  end.

(** Access to the pieces of a step, for interleaved executions. *)
Definition outcome {A : Type} (s : Step A) : option (Outcome A) :=
  match s with
  | Done r _ => Some r
  | Await _ _ _ => None
  end.

Definition world_of {A : Type} (s : Step A) : World :=
  match s with
  | Done _ w => w
  | Await w _ _ => w
  end.

Definition awaited {A : Type} (s : Step A) : option Request :=
  match s with
  | Done _ _ => None
  | Await _ req _ => Some req
  end.

(** Resume a suspended computation with a reply, in the world [w']. *)
Definition resume {A : Type} (s : Step A) (rep : Reply) (w' : World) : Step A :=
  match s with
  | Done r w => Done r w
  | Await _ _ k => k rep w'
  end.

(** * Properties *)

(** ** Vocabulary of the statements *)

(** The request as it leaves the request interceptor in world [w]. *)
Definition attach_token (w : World) (cfg : Request) : Request :=
  if truthy (localStorage w !! "accessToken")
  then set_Authorization ("Bearer " +:+ js_String (localStorage w !! "accessToken")) cfg
  else cfg.

(** The call to the refresh endpoint issued from world [w]. *)
Definition refresh_request (w : World) : Request :=
  attach_token w (mkRequest "post" "/auth/tokens/refresh" None
                    (RefreshBody (js_String (localStorage w !! "refreshToken")))
                    false).

Definition is_2xx (st : Z) : bool := (200 <=? st) && (st <? 300).
Definition is_401_403 (st : Z) : bool := (st =? 401) || (st =? 403).

(** The error as the response interceptor rejects it when it does not
    attempt a refresh: a first 401/403 has had [_retry] set on its config. *)
Definition mark_retry (e : AxiosError) : AxiosError :=
  if (status_is (AxiosErr e) 401 || status_is (AxiosErr e) 403)
     && negb (_retry (config e))
  then httpClient.with_config (set_retry true (config e)) e
  else e.

(** The AxiosError axios builds for a reply that does not resolve. *)
Definition rejection (cfg : Request) (rep : Reply) : AxiosError :=
  match rep with
  | Answer st d =>
      mkAxiosError cfg (Some st) (httpClient.bad_status_code st)
        ("Request failed with status code " +:+ toString (Int st))
  | NoAnswer c m => mkAxiosError cfg None (Some c) m
  end.

Definition resolves (rep : Reply) : bool :=
  match rep with
  | Answer st _ => is_2xx st
  | NoAnswer _ _ => false
  end.

(** The refresh request was refused with 401 or 403. *)
Definition refused (rep : Reply) : bool :=
  match rep with
  | Answer st _ => negb (is_2xx st) && is_401_403 st
  | NoAnswer _ _ => false
  end.

Definition reply_data (rep : Reply) : Data :=
  match rep with
  | Answer _ d => d
  | NoAnswer _ _ => OtherData ""
  end.

(** The world after the three writes of [storeTokens] / after the three
    removals / after the store's logout. *)
Definition stored (a r : string) (e : number) (w : World) : World :=
  exec (tokenService.storeTokens a r e) w.

Definition stored_data (d : Data) (w : World) : World :=
  stored (js_String (data_accessToken d)) (js_String (data_refreshToken d))
         (data_expiresIn d) w.

Definition cleared (w : World) : World := exec tokenService.clearTokens w.

Definition logged_out (w : World) : World := exec authStore.logout w.

(** How a suspended [performTokenRefresh] finishes, given the reply and the
    world it is resumed in. *)
Definition refresh_resolution (rep : Reply) (w : World) : Step bool :=
  if resolves rep then
    Done (Returned true)
         (useTokenManager.set_isRefreshingRef false (stored_data (reply_data rep) w))
  else if refused rep then
    Done (Returned false)
         (useTokenManager.set_isRefreshingRef false
            (logged_out (exec (toast "Session Expired") w)))
  else Done (Returned false) (useTokenManager.set_isRefreshingRef false w).

(** The three persisted credential fields. *)
Definition credential_triple (w : World)
    : option string * option string * option string :=
  (localStorage w !! "accessToken",
   localStorage w !! "refreshToken",
   localStorage w !! "tokenExpiry").

Definition op_key (o : StorageOp) : string :=
  match o with
  | SetItem k _ => k
  | RemoveItem k => k
  end.

(** One of the three keys of the persisted credential state. *)
Definition credential_key (k : string) : bool :=
  String.eqb k "accessToken" || String.eqb k "refreshToken"
  || String.eqb k "tokenExpiry".

(** The operations on the three credential keys among some storage
    operations, in their order.  The auth store's own snapshot, which
    [persist] writes under ['auth-storage'], is not among them. *)
Definition credential_ops (ops : list StorageOp) : list StorageOp :=
  List.filter (fun o => credential_key (op_key o)) ops.

(** Does a sequence of storage operations write the key? *)
Definition touches (k : string) (ops : list StorageOp) : bool :=
  existsb (fun o => String.eqb (op_key o) k) ops.

(** The three credential keys are written by the operations all or none. *)
Definition all_or_nothing (ops : list StorageOp) : bool :=
  Bool.eqb (touches "accessToken" ops) (touches "refreshToken" ops)
  && Bool.eqb (touches "refreshToken" ops) (touches "tokenExpiry" ops).

(** The operations are a sequence of whole writes of the triple: each is
    the three [setItem]s, access token, refresh token and expiry in a row,
    or the three [removeItem]s in a row. *)
Inductive written_together : list StorageOp -> Prop :=
| wt_nothing : written_together []
| wt_store (ops : list StorageOp) (a r e : string) :
    written_together ops ->
    written_together
      (ops ++ [SetItem "accessToken" a; SetItem "refreshToken" r;
               SetItem "tokenExpiry" e])
| wt_remove (ops : list StorageOp) :
    written_together ops ->
    written_together
      (ops ++ [RemoveItem "accessToken"; RemoveItem "refreshToken";
               RemoveItem "tokenExpiry"]).

(** Number of calls to the refresh endpoint among some requests. *)
Definition refresh_calls (l : list Request) : nat :=
  length (filter (fun r => url r = "/auth/tokens/refresh") l).

(** A signed-in session, used for the concrete executions below. *)
Definition demo_world : World :=
  {| localStorage :=
       <["accessToken" := "a0"]>
         (<["refreshToken" := "r0"]> (<["tokenExpiry" := "5000"]> ∅));
     storage_log := [];
     Date_now := 1000;
     net_log := [];
     window_events := [];
     toasts := [];
     store := {| user := Some "admin"; token := Some "a0";
                 isAuthenticated := true; loadingState := SUCCESS;
                 error := None |};
     refs := {| lastActivityRef := 0; refreshTimeoutRef := None;
                inactivityTimeoutRef := None; isRefreshingRef := false |};
     timers := ∅;
     next_timer := 1 |}.

(** The same session with the refresh token missing from storage. *)
Definition demo_world_no_refresh_token : World :=
  with_localStorage (delete "refreshToken" (localStorage demo_world)) [] demo_world.

Definition demo_tokens : Data := TokenData (Tokens.mk "a1" "r1" 3600).

(** The world after the interceptor has given up on a refresh. *)
Definition session_expired (w : World) : World :=
  exec (dispatchEvent "auth:session-expired") (cleared w).

(** The request the interceptor replays after a refresh that returned the
    access token [a]. *)
Definition replay_of (cfg : Request) (a : string) : Request :=
  set_Authorization ("Bearer " +:+ a) (set_retry true cfg).

Definition demo_request : Request :=
  mkRequest "get" "/admin/users" None NoBody false.

(** The world after [scheduleTokenRefresh] has armed a timer, [d] being
    the time until expiry it has read. *)
Definition armed (captured : bool) (d : number) (w : World) : World :=
  let w0 := exec (useTokenManager.clear_if_set (refreshTimeoutRef (refs w))) w in
  useTokenManager.set_refreshTimeoutRef (next_timer w)
    (with_timers
       (<[next_timer w :=
            mkTimer (RefreshCallback captured)
              (Math_max (Int 0)
                 (number_sub d (Int useTokenManager.TOKEN_REFRESH_BUFFER)))]>
          (timers w0))
       (Pos.succ (next_timer w)) w0).

(** The operations on the three credential keys in the storage log of [w]
    extend [base] by whole writes of the triple. *)
Definition ext (base : list StorageOp) (w : World) : Prop :=
  exists ops,
    credential_ops (storage_log w) = (base ++ ops)%list /\ written_together ops.

(** Every point at which a computation pauses or finishes satisfies [ext],
    provided nothing else writes the three keys while it is suspended. *)
Fixpoint writes_ok {A : Type} (base : list StorageOp) (s : Step A) : Prop :=
  match s with
  | Done _ w => ext base w
  | Await w _ k =>
      ext base w
      /\ forall rep w',
           credential_ops (storage_log w') = credential_ops (storage_log w) ->
           writes_ok base (k rep w')
  end.

Definition final_world {A : Type} (r : RunResult A) : World :=
  match r with
  | Finished _ w _ => w
  | Pending w _ => w
  end.

(** Run from [w] against any script, the computation has written the three
    fields together or not at all when it stops. *)
Definition writes_atomically {A : Type} (w : World) (s : Step A) : Prop :=
  forall script,
    ext (credential_ops (storage_log w)) (final_world (run s script)).

(** *** Vocabulary of the further statements *)

(** The world after [updateActivity]. *)
Definition active (w : World) : World := exec useTokenManager.updateActivity w.

(** The requests put on the wire between two worlds. *)
Definition sent (w w' : World) : list Request :=
  drop (length (net_log w)) (net_log w').

Fixpoint count_char (c : ascii) (s : string) : nat :=
  match s with
  | EmptyString => O
  | String c' s' => (if Ascii.eqb c c' then 1 else 0) + count_char c s'
  end.

(** The keys of a query, in the order they were appended. *)
Definition keys (q : URLSearchParams.t) : list string := map fst q.

(** [getPendingApprovals()] called without filters. *)
Definition no_params : ApprovalService.ApprovalParams :=
  ApprovalService.mkApprovalParams None None None None None None None None.

(** The world after one request has been sent and answered: it differs
    from [w] by the network log and the clock only. *)
Definition after_one_call (req : Request) (dt : N) (w : World) : World :=
  tick dt (with_net_log (net_log w ++ [attach_token w req]) w).

(** The part of the world the hook's timers live in. *)
Definition timer_view (w : World)
    : gmap positive Timer * positive * option positive * option positive :=
  (timers w, next_timer w, refreshTimeoutRef (refs w), inactivityTimeoutRef (refs w)).

(** Every pending timer has an id that has been handed out, and is the
    timer the ref of its kind points to. *)
Definition timers_tracked (w : World) : Prop :=
  forall id tm,
    timers w !! id = Some tm ->
    (id < next_timer w)%positive
    /\ match callback tm with
       | RefreshCallback _ => refreshTimeoutRef (refs w) = Some id
       | InactivityCallback => inactivityTimeoutRef (refs w) = Some id
       end.

(** [P] holds wherever the computation pauses and where it finishes,
    whatever happens while it is suspended, as long as [P] holds of the
    world it is resumed in. *)
Fixpoint always {A : Type} (P : World -> Prop) (s : Step A) : Prop :=
  match s with
  | Done _ w => P w
  | Await w _ k => P w /\ forall rep w', P w' -> always P (k rep w')
  end.

(** Does the string end with the character?  The empty string counts. *)
Fixpoint ends_with (c : ascii) (s : string) : bool :=
  match s with
  | EmptyString => true
  | String a EmptyString => Ascii.eqb a c
  | String _ s' => ends_with c s'
  end.

(** ** Evaluation *)

Arguments toString : simpl never.
Arguments parseInt : simpl never.
Arguments includes : simpl never.
Arguments String.append : simpl never.
Arguments httpClient.request : simpl never.
Arguments authStore.persisted : simpl never.

Ltac proc :=
  repeat (progress (
    unfold mbind, Proc_bind, mret, Proc_ret, bind, ret, throw, diverge, gets,
      modify, try_catch, try_finally, getItem, setItem, removeItem, Date_now_,
      dispatchEvent, toast, clearTimeout, send;
    simpl)).

(** *** Numbers and strings *)

Lemma parse_digits_step (c : ascii) (s : string) (acc d : Z) :
  digit_value 10 c = Some d ->
  parse_digits 10 (String c s) (Int acc) = parse_digits 10 s (Int (10 * acc + d)).
Proof. intro H. simpl. rewrite H. reflexivity. Qed.

Lemma parse_digits_acc (d : Decimal.uint) (p : positive) :
  parse_digits 10 (NilEmpty.string_of_uint d) (Int (Z.pos p))
  = Int (Z.pos (Pos.of_uint_acc d p)).
Proof.
  revert p; induction d; intro p; [reflexivity | ..];
    cbn [NilEmpty.string_of_uint Pos.of_uint_acc];
    erewrite parse_digits_step by (cbv; reflexivity);
    rewrite <- IHd; f_equal; f_equal; lia.
Qed.

Lemma parse_digits_zero (d : Decimal.uint) :
  parse_digits 10 (NilEmpty.string_of_uint d) (Int 0)
  = Int (Z.of_N (Pos.of_uint d)).
Proof.
  induction d; [reflexivity | ..];
    cbn [NilEmpty.string_of_uint Pos.of_uint];
    erewrite parse_digits_step by (cbv; reflexivity);
    [exact IHd | cbn [Z.of_N]; rewrite <- parse_digits_acc; reflexivity ..].
Qed.

Lemma parse_unsigned_uint (d : Decimal.uint) :
  d <> Decimal.Nil ->
  parse_unsigned (NilEmpty.string_of_uint d) = Int (Z.of_N (Pos.of_uint d)).
Proof.
  intro Hd. rewrite <- parse_digits_zero.
  destruct d; try congruence; try reflexivity.
  destruct d; reflexivity.
Qed.

(** A string that starts with an ASCII character other than white space
    has nothing to strip at its start. *)
Lemma trimStart_ascii (c : ascii) (s : string) :
  is_whitespace c = false -> (N_of_ascii c <? 128)%N = true ->
  trimStart (String c s) = String c s.
Proof.
  intros Hw Hc. apply N.ltb_lt in Hc.
  assert (H194 : (N_of_ascii c =? 194)%N = false) by (apply N.eqb_neq; lia).
  assert (H3 : forall c2 c3, is_ws3 c c2 c3 = false).
  { intros c2 c3. unfold is_ws3.
    replace (N_of_ascii c =? 225)%N with false by (symmetry; apply N.eqb_neq; lia).
    replace (N_of_ascii c =? 226)%N with false by (symmetry; apply N.eqb_neq; lia).
    replace (N_of_ascii c =? 227)%N with false by (symmetry; apply N.eqb_neq; lia).
    replace (N_of_ascii c =? 239)%N with false by (symmetry; apply N.eqb_neq; lia).
    reflexivity. }
  destruct s as [|c2 [|c3 s3]].
  - change (trimStart (String c ""))
      with (if is_whitespace c then trimStart "" else String c "").
    rewrite Hw. reflexivity.
  - change (trimStart (String c (String c2 "")))
      with (if is_whitespace c then trimStart (String c2 "")
            else if ((N_of_ascii c =? 194) && (N_of_ascii c2 =? 160))%N
                 then trimStart "" else String c (String c2 "")).
    rewrite Hw, H194. reflexivity.
  - change (trimStart (String c (String c2 (String c3 s3))))
      with (if is_whitespace c then trimStart (String c2 (String c3 s3))
            else if ((N_of_ascii c =? 194) && (N_of_ascii c2 =? 160))%N
                 then trimStart (String c3 s3)
                 else if is_ws3 c c2 c3 then trimStart s3
                      else String c (String c2 (String c3 s3))).
    rewrite Hw, H194, H3. reflexivity.
Qed.

(** Reading back a time stamp that was written with [toString]. *)
Lemma parseInt_toString (z : Z) : parseInt (toString (Int z)) = Int z.
Proof.
  destruct z as [|p|p]; [reflexivity | ..];
    pose proof (DecimalPos.Unsigned.to_uint_nonnil p) as Hn;
    pose proof (DecimalPos.Unsigned.of_to p) as Hp;
    unfold toString; cbn [Z.to_int NilEmpty.string_of_int].
  - transitivity (parse_unsigned (NilEmpty.string_of_uint (Pos.to_uint p))).
    + destruct (Pos.to_uint p); try congruence;
        cbn [NilEmpty.string_of_uint]; unfold parseInt;
        rewrite trimStart_ascii by reflexivity; reflexivity.
    + rewrite parse_unsigned_uint, Hp by assumption. reflexivity.
  - transitivity (number_neg (parse_unsigned (NilEmpty.string_of_uint (Pos.to_uint p)))).
    + unfold parseInt. rewrite trimStart_ascii by reflexivity. reflexivity.
    + rewrite parse_unsigned_uint, Hp by assumption. reflexivity.
Qed.

(** A number never prints as the empty string. *)
Lemma toString_truthy (n : number) : truthy (Some (toString n)) = true.
Proof.
  destruct n as [|[|p|p]]; try reflexivity.
  pose proof (DecimalPos.Unsigned.to_uint_nonnil p) as Hn.
  unfold toString; cbn [Z.to_int NilEmpty.string_of_int].
  destruct (Pos.to_uint p); try congruence; reflexivity.
Qed.


(** The builtins on a few inputs. *)
Example parseInt_examples :
  parseInt "1700000000000" = Int 1700000000000
  /\ parseInt "  42px" = Int 42
  /\ parseInt "-17" = Int (-17)
  /\ parseInt "+5" = Int 5
  /\ parseInt "12.5" = Int 12
  /\ parseInt "0x1A" = Int 26
  /\ parseInt "abc" = NaN
  /\ parseInt "" = NaN
  /\ parseInt "NaN" = NaN
  /\ parseInt (String (ascii_of_N 194) (String (ascii_of_N 160) "5000")) = Int 5000
  /\ parseInt (String (ascii_of_N 239) (String (ascii_of_N 187)
                 (String (ascii_of_N 191) " 7"))) = Int 7.
Proof. vm_compute. repeat split; reflexivity. Qed.

Example toString_examples :
  toString (Int 0) = "0"
  /\ toString (Int 3601000) = "3601000"
  /\ toString (Int (-5)) = "-5"
  /\ toString NaN = "NaN".
Proof. vm_compute. repeat split; reflexivity. Qed.

Example includes_examples :
  includes "/auth/tokens/refresh" "/auth/" = true
  /\ includes "/auth/login" "/auth/" = true
  /\ includes "/admin/users" "/auth/" = false
  /\ includes "/authors" "/auth/" = false.
Proof. vm_compute. repeat split; reflexivity. Qed.

(** A garbled expiry reads as NaN, and every comparison with NaN is
    false: the token is then reported as not expired. *)
Example isTokenExpired_garbled :
  let w := with_localStorage (<["tokenExpiry" := "soon"]> (localStorage demo_world))
             [] demo_world in
  outcome (tokenService.isTokenExpired w) = Some (Returned false).
Proof. vm_compute. reflexivity. Qed.

(** *** The request interceptor *)

Lemma request_S (n : nat) (cfg : Request) :
  httpClient.request (S n) cfg
  = (cfg' ← httpClient.request_interceptor cfg;
     rep ← send cfg';
     match httpClient.settle cfg' rep with
     | inl response => mret response
     | inr error => httpClient.response_error_interceptor (httpClient.request n) error
     end).
Proof. reflexivity. Qed.

Lemma request_interceptor_eq (cfg : Request) (w : World) :
  httpClient.request_interceptor cfg w = Done (Returned (attach_token w cfg)) w.
Proof.
  unfold httpClient.request_interceptor, attach_token. proc.
  destruct (truthy (localStorage w !! "accessToken")); reflexivity.
Qed.

Lemma attach_token_url (w : World) (cfg : Request) :
  url (attach_token w cfg) = url cfg.
Proof. unfold attach_token; destruct (truthy _); reflexivity. Qed.

Lemma attach_token_retry (w : World) (cfg : Request) :
  _retry (attach_token w cfg) = _retry cfg.
Proof. unfold attach_token; destruct (truthy _); reflexivity. Qed.

Lemma settle_eq (cfg : Request) (rep : Reply) :
  httpClient.settle cfg rep
  = if resolves rep
    then inl (mkResponse (match rep with Answer st _ => st | _ => 0 end)
                         (reply_data rep) cfg)
    else inr (rejection cfg rep).
Proof.
  destruct rep as [st d | c m]; simpl; [|reflexivity].
  unfold is_2xx. destruct ((200 <=? st) && (st <? 300)); reflexivity.
Qed.

(** *** The response interceptor where it does not refresh *)

Lemma interceptor_auth_endpoint (client : Request -> Proc Response)
    (e : AxiosError) (w : World) :
  includes (url (config e)) "/auth/" = true ->
  httpClient.response_error_interceptor client e w
  = Done (Thrown (AxiosErr (mark_retry e))) w.
Proof.
  intro Hurl. unfold httpClient.response_error_interceptor, mark_retry.
  destruct ((status_is (AxiosErr e) 401 || status_is (AxiosErr e) 403)
            && negb (_retry (config e))); simpl.
  - rewrite Hurl. reflexivity.
  - reflexivity.
Qed.

Lemma interceptor_retried (client : Request -> Proc Response)
    (e : AxiosError) (w : World) :
  _retry (config e) = true ->
  httpClient.response_error_interceptor client e w = Done (Thrown (AxiosErr e)) w.
Proof.
  intro Hr. unfold httpClient.response_error_interceptor.
  rewrite Hr, andb_false_r. reflexivity.
Qed.

Lemma interceptor_other_status (client : Request -> Proc Response)
    (e : AxiosError) (w : World) :
  status_is (AxiosErr e) 401 || status_is (AxiosErr e) 403 = false ->
  httpClient.response_error_interceptor client e w = Done (Thrown (AxiosErr e)) w.
Proof.
  intro Hs. unfold httpClient.response_error_interceptor.
  rewrite Hs. reflexivity.
Qed.

Lemma status_is_mark_retry (e : AxiosError) (s : Z) :
  status_is (AxiosErr (mark_retry e)) s = status_is (AxiosErr e) s.
Proof. unfold mark_retry. destruct (_ && _); reflexivity. Qed.

Lemma status_is_rejection (cfg : Request) (rep : Reply) :
  resolves rep = false ->
  status_is (AxiosErr (rejection cfg rep)) 401
  || status_is (AxiosErr (rejection cfg rep)) 403 = refused rep.
Proof.
  destruct rep as [st d | c m]; simpl; [|reflexivity].
  intros ->. reflexivity.
Qed.

(** A call to an endpoint under [/auth/] is one request on the wire and
    nothing else, whatever the reply. *)
Lemma request_auth_endpoint (n : nat) (cfg : Request) (w : World) :
  includes (url cfg) "/auth/" = true ->
  exists k,
    httpClient.request (S n) cfg w
    = Await (with_net_log (net_log w ++ [attach_token w cfg]) w)
            (attach_token w cfg) k
    /\ forall rep w',
         k rep w'
         = if resolves rep
           then Done (Returned (mkResponse
                                  (match rep with Answer st _ => st | _ => 0 end)
                                  (reply_data rep) (attach_token w cfg))) w'
           else Done (Thrown (AxiosErr
                                (mark_retry (rejection (attach_token w cfg) rep)))) w'.
Proof.
  intro Hurl. rewrite request_S. proc.
  rewrite request_interceptor_eq. proc.
  eexists; split; [reflexivity|].
  intros rep w'. cbn beta. rewrite settle_eq.
  destruct (resolves rep); [reflexivity|].
  apply interceptor_auth_endpoint.
  destruct rep; simpl; rewrite attach_token_url; exact Hurl.
Qed.

(** *** The three-field writes *)

Lemma storeTokens_eq (a r : string) (e : number) (w : World) :
  tokenService.storeTokens a r e w = Done (Returned tt) (stored a r e w).
Proof. reflexivity. Qed.

Lemma authStore_logout_eq (w : World) :
  authStore.logout w = Done (Returned tt) (logged_out w).
Proof. reflexivity. Qed.

Lemma stored_triple (a r : string) (e : number) (w : World) :
  credential_triple (stored a r e w)
  = (Some a, Some r,
     Some (toString (number_add (Int (Date_now w)) (number_mul e (Int 1000))))).
Proof.
  unfold credential_triple, stored, exec, tokenService.storeTokens. proc.
  rewrite lookup_insert_ne by done. rewrite lookup_insert_ne by done.
  rewrite lookup_insert_eq.
  rewrite lookup_insert_ne by done. rewrite lookup_insert_eq.
  rewrite lookup_insert_eq. reflexivity.
Qed.

Lemma logged_out_triple (w : World) :
  credential_triple (logged_out w) = (None, None, None).
Proof.
  unfold credential_triple, logged_out, exec, authStore.logout, authStore.set. proc.
  rewrite !lookup_insert_ne by done.
  rewrite !lookup_delete_eq.
  rewrite lookup_delete_ne by done. rewrite lookup_delete_ne by done.
  rewrite lookup_delete_eq.
  rewrite lookup_delete_ne by done. rewrite lookup_delete_eq.
  reflexivity.
Qed.

(** *** performTokenRefresh *)

(** With the guard free and a refresh token in storage, the call sends one
    request to the refresh endpoint and is suspended; it finishes as
    [refresh_resolution] says. *)
Lemma performTokenRefresh_begin (n : nat) (w : World) :
  isRefreshingRef (refs w) = false ->
  truthy (localStorage w !! "refreshToken") = true ->
  exists k,
    useTokenManager.performTokenRefresh (S n) w
    = Await (with_net_log (net_log w ++ [refresh_request w])
               (useTokenManager.set_isRefreshingRef true w))
            (refresh_request w) k
    /\ forall rep w', k rep w' = refresh_resolution rep w'.
Proof.
  intros Href Htok.
  unfold useTokenManager.performTokenRefresh, tokenService.refreshAccessToken,
    httpClient.post.
  proc. rewrite Href. proc. rewrite Htok. simpl.
  destruct (request_auth_endpoint n
              (mkRequest "post" "/auth/tokens/refresh" None
                 (RefreshBody (js_String (localStorage w !! "refreshToken"))) false)
              (useTokenManager.set_isRefreshingRef true w) eq_refl)
    as (k & Hk & Hres).
  rewrite Hk. simpl.
  eexists. split; [reflexivity|].
  intros rep w'. cbn beta. rewrite Hres. unfold refresh_resolution.
  destruct (resolves rep) eqn:Hr; simpl.
  - reflexivity.
  - rewrite !status_is_mark_retry.
    rewrite (status_is_rejection _ _ Hr).
    destruct (refused rep); reflexivity.
Qed.

(** With the guard taken the call returns false at once. *)
Lemma performTokenRefresh_busy (fuel : nat) (w : World) :
  isRefreshingRef (refs w) = true ->
  useTokenManager.performTokenRefresh fuel w = Done (Returned false) w.
Proof.
  intro Href. unfold useTokenManager.performTokenRefresh. proc.
  rewrite Href. reflexivity.
Qed.

(** Without a refresh token the call returns false at once, too. *)
Lemma performTokenRefresh_no_token (fuel : nat) (w : World) :
  isRefreshingRef (refs w) = false ->
  truthy (localStorage w !! "refreshToken") = false ->
  useTokenManager.performTokenRefresh fuel w
  = Done (Returned false)
         (useTokenManager.set_isRefreshingRef false
            (useTokenManager.set_isRefreshingRef true w)).
Proof.
  intros Href Htok. unfold useTokenManager.performTokenRefresh. proc.
  rewrite Href. proc. rewrite Htok. reflexivity.
Qed.

(** The resolution sends nothing and frees the guard. *)
Lemma refresh_resolution_done (rep : Reply) (w : World) :
  exists w',
    refresh_resolution rep w = Done (Returned (resolves rep)) w'
    /\ net_log w' = net_log w
    /\ isRefreshingRef (refs w') = false.
Proof.
  unfold refresh_resolution.
  destruct (resolves rep); [|destruct (refused rep)];
    eexists; (split; [reflexivity|]); split; reflexivity.
Qed.

(** ** Single flight *)

(** C1, as stated, fails: in a signed-in session a first refresh is sent
    and is outstanding, a second call is made, and the server then accepts
    the refresh.  One request went to the refresh endpoint, the second
    caller got false, the first got true: the callers do not receive the
    same outcome. *)
Lemma C1_counterexample :
  let first := useTokenManager.performTokenRefresh 2 demo_world in
  let second := useTokenManager.performTokenRefresh 2 (world_of first) in
  let first' := resume first (Answer 200 demo_tokens) (world_of second) in
  awaited first = Some (refresh_request demo_world)
  /\ refresh_calls (net_log (world_of first')) = 1%nat
  /\ outcome second = Some (Returned false)
  /\ outcome first' = Some (Returned true)
  /\ ~ (outcome second = outcome first').
Proof.
  vm_compute. repeat split; try reflexivity. discriminate.
Qed.

(** C1, amended.  When a second [performTokenRefresh] begins while a first
    one is outstanding, exactly one request goes to the refresh endpoint:
    the first call sends it, the second sends nothing and returns false at
    once without touching the world, and the first call later finishes
    without a further request, with true if the reply resolves and false
    otherwise. *)
Theorem C1_single_flight_guard (fuel : nat) (w : World) :
  (1 <= fuel)%nat ->
  isRefreshingRef (refs w) = false ->
  truthy (localStorage w !! "refreshToken") = true ->
  exists w1 k,
    useTokenManager.performTokenRefresh fuel w = Await w1 (refresh_request w) k
    /\ url (refresh_request w) = "/auth/tokens/refresh"
    /\ net_log w1 = (net_log w ++ [refresh_request w])%list
    /\ isRefreshingRef (refs w1) = true
    /\ (forall w2, isRefreshingRef (refs w2) = true ->
          useTokenManager.performTokenRefresh fuel w2 = Done (Returned false) w2)
    /\ (forall rep w3, exists w4,
          k rep w3 = Done (Returned (resolves rep)) w4
          /\ net_log w4 = net_log w3
          /\ isRefreshingRef (refs w4) = false).
Proof.
  intros Hfuel Href Htok.
  destruct fuel as [|n]; [lia|].
  destruct (performTokenRefresh_begin n w Href Htok) as (k & Hk & Hres).
  eexists _, k. split; [exact Hk|].
  split; [apply attach_token_url|].
  split; [reflexivity|]. split; [reflexivity|].
  split.
  - intros w2 H2. apply performTokenRefresh_busy, H2.
  - intros rep w3. rewrite Hres. apply refresh_resolution_done.
Qed.

Lemma C1_single_flight_guard_witness :
  exists w1 k,
    useTokenManager.performTokenRefresh 2 demo_world
    = Await w1 (refresh_request demo_world) k
    /\ url (refresh_request demo_world) = "/auth/tokens/refresh"
    /\ net_log w1 = (net_log demo_world ++ [refresh_request demo_world])%list
    /\ isRefreshingRef (refs w1) = true
    /\ (forall w2, isRefreshingRef (refs w2) = true ->
          useTokenManager.performTokenRefresh 2 w2 = Done (Returned false) w2)
    /\ (forall rep w3, exists w4,
          k rep w3 = Done (Returned (resolves rep)) w4
          /\ net_log w4 = net_log w3
          /\ isRefreshingRef (refs w4) = false).
Proof.
  apply (C1_single_flight_guard 2 demo_world); [lia | reflexivity | reflexivity].
Defined.

(** The refresh made by the response interceptor does not look at the
    guard: while the hook's refresh is outstanding, a request answered 401
    makes the interceptor send a second call to the refresh endpoint. *)
Lemma interceptor_does_not_share_the_guard :
  let first := useTokenManager.performTokenRefresh 2 demo_world in
  let r := run (httpClient.request 2 demo_request (world_of first))
               [mkNetAnswer 5 (Answer 401 (OtherData ""))] in
  isRefreshingRef (refs (world_of first)) = true
  /\ refresh_calls (net_log (world_of first)) = 1%nat
  /\ refresh_calls (net_log (final_world r)) = 2%nat.
Proof. vm_compute. repeat split; reflexivity. Qed.

(** ** Logout while a refresh is in flight *)

(** C4, as stated, fails: a refresh is in flight, the user logs out (the
    three fields are gone), the server then accepts the refresh, and the
    credential store holds the new triple. *)
Lemma C4_counterexample :
  let first := useTokenManager.performTokenRefresh 2 demo_world in
  let after_logout := logged_out (world_of first) in
  let first' := resume first (Answer 200 demo_tokens) after_logout in
  awaited first = Some (refresh_request demo_world)
  /\ credential_triple after_logout = (None, None, None)
  /\ outcome first' = Some (Returned true)
  /\ credential_triple (world_of first') = (Some "a1", Some "r1", Some "3601000")
  /\ ~ (credential_triple (world_of first') = (None, None, None)).
Proof.
  vm_compute. repeat split; try reflexivity. discriminate.
Qed.

(** C4, amended.  A logout while a refresh is in flight does not cancel
    it: the call completes, and when the reply resolves it stores the new
    triple unconditionally, so the credential store is populated again;
    the auth store stays signed out. *)
Theorem C4_refresh_after_logout_repopulates (fuel : nat) (w : World) :
  (1 <= fuel)%nat ->
  isRefreshingRef (refs w) = false ->
  truthy (localStorage w !! "refreshToken") = true ->
  exists w1 k,
    useTokenManager.performTokenRefresh fuel w = Await w1 (refresh_request w) k
    /\ forall w2 st d,
         is_2xx st = true ->
         credential_triple (logged_out w2) = (None, None, None)
         /\ exists w3,
              k (Answer st d) (logged_out w2) = Done (Returned true) w3
              /\ credential_triple w3
                 = (Some (js_String (data_accessToken d)),
                    Some (js_String (data_refreshToken d)),
                    Some (toString (number_add (Int (Date_now w2))
                                      (number_mul (data_expiresIn d) (Int 1000)))))
              /\ isAuthenticated (store w3) = false.
Proof.
  intros Hfuel Href Htok.
  destruct fuel as [|n]; [lia|].
  destruct (performTokenRefresh_begin n w Href Htok) as (k & Hk & Hres).
  eexists _, k. split; [exact Hk|].
  intros w2 st d Hst. split; [apply logged_out_triple|].
  rewrite Hres. unfold refresh_resolution. simpl resolves. rewrite Hst.
  eexists. split; [reflexivity|]. split; [|reflexivity].
  change (credential_triple (useTokenManager.set_isRefreshingRef false ?x))
    with (credential_triple x).
  unfold stored_data. simpl reply_data. rewrite stored_triple. reflexivity.
Qed.

Lemma C4_refresh_after_logout_repopulates_witness :
  exists w1 k,
    useTokenManager.performTokenRefresh 2 demo_world
    = Await w1 (refresh_request demo_world) k
    /\ forall w2 st d,
         is_2xx st = true ->
         credential_triple (logged_out w2) = (None, None, None)
         /\ exists w3,
              k (Answer st d) (logged_out w2) = Done (Returned true) w3
              /\ credential_triple w3
                 = (Some (js_String (data_accessToken d)),
                    Some (js_String (data_refreshToken d)),
                    Some (toString (number_add (Int (Date_now w2))
                                      (number_mul (data_expiresIn d) (Int 1000)))))
              /\ isAuthenticated (store w3) = false.
Proof.
  apply (C4_refresh_after_logout_repopulates 2 demo_world);
    [lia | reflexivity | reflexivity].
Defined.

(** ** Refresh without a refresh token *)

Lemma cleared_triple (w : World) :
  credential_triple (cleared w) = (None, None, None).
Proof.
  unfold credential_triple, cleared, exec, tokenService.clearTokens. proc.
  rewrite !lookup_delete_eq.
  rewrite lookup_delete_ne by done. rewrite lookup_delete_ne by done.
  rewrite lookup_delete_eq.
  rewrite lookup_delete_ne by done. rewrite lookup_delete_eq.
  reflexivity.
Qed.

Lemma authService_refreshToken_no_token (fuel : nat) (w : World) :
  truthy (localStorage w !! "refreshToken") = false ->
  authService.refreshToken fuel w = Done (Returned None) (cleared w).
Proof.
  intro Htok. unfold authService.refreshToken. proc.
  rewrite Htok. reflexivity.
Qed.

(** C6, as stated, fails: the session is signed in, the refresh token is
    missing from storage, and the hook's refresh is called.  It returns
    false without any request, but the access token and the expiry stay
    in storage, the auth store stays signed in and nothing is signalled:
    the failure is not handled as an authentication failure. *)
Lemma C6_counterexample :
  let s := useTokenManager.performTokenRefresh 2 demo_world_no_refresh_token in
  localStorage demo_world_no_refresh_token !! "refreshToken" = None
  /\ outcome s = Some (Returned false)
  /\ net_log (world_of s) = []
  /\ credential_triple (world_of s) = (Some "a0", None, Some "5000")
  /\ isAuthenticated (store (world_of s)) = true
  /\ toasts (world_of s) = []
  /\ window_events (world_of s) = []
  /\ ~ (credential_triple (world_of s) = (None, None, None)).
Proof.
  vm_compute. repeat split; try reflexivity. discriminate.
Qed.

(** C6, amended.  Made while no refresh token is stored, a refresh fails
    at once and sends nothing.  [performTokenRefresh] returns false and
    leaves storage, the auth store and the signals as they were (no 401 or
    403 is involved, so it does not log out); [authService.refreshToken]
    returns null and removes the three stored fields. *)
Theorem C6_no_refresh_token (fuel : nat) (w : World) :
  truthy (localStorage w !! "refreshToken") = false ->
  (exists w',
     useTokenManager.performTokenRefresh fuel w = Done (Returned false) w'
     /\ net_log w' = net_log w
     /\ localStorage w' = localStorage w
     /\ storage_log w' = storage_log w
     /\ store w' = store w
     /\ toasts w' = toasts w
     /\ window_events w' = window_events w)
  /\ (exists w',
        authService.refreshToken fuel w = Done (Returned None) w'
        /\ net_log w' = net_log w
        /\ credential_triple w' = (None, None, None)).
Proof.
  intro Htok. split.
  - destruct (isRefreshingRef (refs w)) eqn:Href.
    + rewrite (performTokenRefresh_busy fuel w Href).
      eexists; split; [reflexivity|]. repeat split.
    + rewrite (performTokenRefresh_no_token fuel w Href Htok).
      eexists; split; [reflexivity|]. repeat split.
  - rewrite (authService_refreshToken_no_token fuel w Htok).
    eexists; split; [reflexivity|]. split; [reflexivity|].
    apply cleared_triple.
Qed.

Lemma C6_no_refresh_token_witness :
  (exists w',
     useTokenManager.performTokenRefresh 2 demo_world_no_refresh_token
     = Done (Returned false) w'
     /\ net_log w' = net_log demo_world_no_refresh_token
     /\ localStorage w' = localStorage demo_world_no_refresh_token
     /\ storage_log w' = storage_log demo_world_no_refresh_token
     /\ store w' = store demo_world_no_refresh_token
     /\ toasts w' = toasts demo_world_no_refresh_token
     /\ window_events w' = window_events demo_world_no_refresh_token)
  /\ (exists w',
        authService.refreshToken 2 demo_world_no_refresh_token
        = Done (Returned None) w'
        /\ net_log w' = net_log demo_world_no_refresh_token
        /\ credential_triple w' = (None, None, None)).
Proof.
  apply (C6_no_refresh_token 2 demo_world_no_refresh_token). reflexivity.
Defined.

(** *** The axios instance, one call *)

(** Every call puts the intercepted request on the wire; a reply that
    resolves is returned, any other goes to the response interceptor. *)
Lemma request_begin (n : nat) (cfg : Request) (w : World) :
  exists k,
    httpClient.request (S n) cfg w
    = Await (with_net_log (net_log w ++ [attach_token w cfg]) w)
            (attach_token w cfg) k
    /\ forall rep w',
         k rep w'
         = if resolves rep
           then Done (Returned (mkResponse
                                  (match rep with Answer st _ => st | _ => 0 end)
                                  (reply_data rep) (attach_token w cfg))) w'
           else httpClient.response_error_interceptor (httpClient.request n)
                  (rejection (attach_token w cfg) rep) w'.
Proof.
  rewrite request_S. proc.
  rewrite request_interceptor_eq. proc.
  eexists; split; [reflexivity|].
  intros rep w'. cbn beta. rewrite settle_eq.
  destruct (resolves rep); reflexivity.
Qed.

(** The response interceptor on a first 401/403 of a request that is not
    under [/auth/], when no refresh token is stored. *)
Lemma interceptor_no_token (client : Request -> Proc Response)
    (e : AxiosError) (w : World) :
  status_is (AxiosErr e) 401 || status_is (AxiosErr e) 403 = true ->
  _retry (config e) = false ->
  includes (url (config e)) "/auth/" = false ->
  truthy (localStorage w !! "refreshToken") = false ->
  httpClient.response_error_interceptor client e w
  = Done (Thrown (AxiosErr (mark_retry e))) (session_expired w).
Proof.
  intros Hs Hr Hu Htok.
  unfold httpClient.response_error_interceptor, mark_retry.
  rewrite Hs, Hr. simpl. rewrite Hu. proc. rewrite Htok. reflexivity.
Qed.

(** The same with a refresh token in storage: one call to the refresh
    endpoint; then the replay, or the rejection of the original error. *)
Lemma interceptor_refresh (n : nat) (e : AxiosError) (w : World) :
  status_is (AxiosErr e) 401 || status_is (AxiosErr e) 403 = true ->
  _retry (config e) = false ->
  includes (url (config e)) "/auth/" = false ->
  truthy (localStorage w !! "refreshToken") = true ->
  exists k,
    httpClient.response_error_interceptor (httpClient.request (S n)) e w
    = Await (with_net_log (net_log w ++ [refresh_request w]) w)
            (refresh_request w) k
    /\ forall rep w',
         k rep w'
         = if resolves rep then
             if truthy (data_accessToken (reply_data rep)) then
               httpClient.request (S n)
                 (replay_of (config e) (js_String (data_accessToken (reply_data rep))))
                 (stored_data (reply_data rep) w')
             else Done (Thrown (AxiosErr (mark_retry e))) w'
           else Done (Thrown (AxiosErr (mark_retry e))) (session_expired w').
Proof.
  intros Hs Hr Hu Htok.
  unfold httpClient.response_error_interceptor, mark_retry.
  rewrite Hs, Hr. simpl andb. cbv iota. cbn [url set_retry]. rewrite Hu.
  proc. rewrite Htok. simpl.
  destruct (request_auth_endpoint n
              (mkRequest "post" "/auth/tokens/refresh" None
                 (RefreshBody (js_String (localStorage w !! "refreshToken"))) false)
              w eq_refl) as (k & Hk & Hres).
  rewrite Hk. simpl.
  eexists; split; [reflexivity|].
  intros rep w'. cbn beta. rewrite Hres.
  destruct (resolves rep); simpl; [|reflexivity].
  destruct (truthy (data_accessToken (reply_data rep))); reflexivity.
Qed.

(** A replayed request is sent once more and is not retried again. *)
Lemma request_retried (n : nat) (cfg : Request) (w : World) :
  _retry cfg = true ->
  exists k,
    httpClient.request (S n) cfg w
    = Await (with_net_log (net_log w ++ [attach_token w cfg]) w)
            (attach_token w cfg) k
    /\ forall rep w',
         k rep w'
         = if resolves rep
           then Done (Returned (mkResponse
                                  (match rep with Answer st _ => st | _ => 0 end)
                                  (reply_data rep) (attach_token w cfg))) w'
           else Done (Thrown (AxiosErr (rejection (attach_token w cfg) rep))) w'.
Proof.
  intro Hr. destruct (request_begin n cfg w) as (k & Hk & Hres).
  exists k; split; [exact Hk|].
  intros rep w'. rewrite Hres. destruct (resolves rep); [reflexivity|].
  apply interceptor_retried.
  destruct rep; simpl; rewrite attach_token_retry; exact Hr.
Qed.

(** *** The fuel *)

(** Two units of fuel are enough for any call of the axios instance: the
    interceptor calls the instance only for the refresh request, which is
    under [/auth/], and for the replay, which is flagged as retried, and
    neither is retried.  With more fuel the run is the same, and it never
    ends for want of fuel. *)
Lemma request_fuel_enough (n : nat) (cfg : Request) (w : World)
    (script : list NetAnswer) :
  run (httpClient.request (S (S n)) cfg w) script
  = run (httpClient.request 2 cfg w) script
  /\ forall w' rest,
       run (httpClient.request 2 cfg w) script <> Finished Diverged w' rest.
Proof.
  destruct (request_begin (S n) cfg w) as (k & Hk & Hk').
  destruct (request_begin 1 cfg w) as (k0 & Hk0 & Hk0').
  rewrite Hk, Hk0. destruct script as [|a s]; [split; [reflexivity|discriminate]|].
  cbn [run]. rewrite Hk', Hk0'.
  destruct (resolves (reply a)); [split; [reflexivity|discriminate]|].
  set (e := rejection (attach_token w cfg) (reply a)).
  set (w1 := tick (elapsed a) (with_net_log (net_log w ++ [attach_token w cfg]) w)).
  destruct (status_is (AxiosErr e) 401 || status_is (AxiosErr e) 403) eqn:Hs;
    [|rewrite !interceptor_other_status by exact Hs;
      split; [reflexivity|discriminate]].
  destruct (_retry (config e)) eqn:Hr;
    [rewrite !interceptor_retried by exact Hr;
     split; [reflexivity|discriminate]|].
  destruct (includes (url (config e)) "/auth/") eqn:Hu;
    [rewrite !interceptor_auth_endpoint by exact Hu;
     split; [reflexivity|discriminate]|].
  destruct (truthy (localStorage w1 !! "refreshToken")) eqn:Htok;
    [|rewrite !(interceptor_no_token _ e w1 Hs Hr Hu Htok);
      split; [reflexivity|discriminate]].
  destruct (interceptor_refresh n e w1 Hs Hr Hu Htok) as (k1 & Hk1 & Hk1').
  destruct (interceptor_refresh 0 e w1 Hs Hr Hu Htok) as (k2 & Hk2 & Hk2').
  rewrite Hk1, Hk2. destruct s as [|a1 s]; [split; [reflexivity|discriminate]|].
  cbn [run]. rewrite Hk1', Hk2'.
  destruct (resolves (reply a1)); [|split; [reflexivity|discriminate]].
  destruct (truthy (data_accessToken (reply_data (reply a1))));
    [|split; [reflexivity|discriminate]].
  match goal with |- context [httpClient.request 1 ?c ?w3] =>
    destruct (request_retried n c w3 eq_refl) as (k3 & Hk3 & Hk3');
    destruct (request_retried 0 c w3 eq_refl) as (k4 & Hk4 & Hk4')
  end.
  rewrite Hk3, Hk4. destruct s as [|a2 s]; [split; [reflexivity|discriminate]|].
  cbn [run]. rewrite Hk3', Hk4'.
  destruct (resolves (reply a2)); split; (reflexivity || discriminate).
Qed.

Lemma is_401_403_not_2xx (st : Z) : is_401_403 st = true -> is_2xx st = false.
Proof.
  unfold is_401_403, is_2xx. intro H.
  apply orb_true_iff in H. apply andb_false_iff.
  destruct H as [H|H]; apply Z.eqb_eq in H; subst; right; reflexivity.
Qed.

Lemma status_is_rejection_answer (cfg : Request) (st : Z) (d : Data) :
  status_is (AxiosErr (rejection cfg (Answer st d))) 401
  || status_is (AxiosErr (rejection cfg (Answer st d))) 403 = is_401_403 st.
Proof. reflexivity. Qed.

(** *** authService.refreshToken *)

Lemma authService_refreshToken_begin (n : nat) (w : World) :
  truthy (localStorage w !! "refreshToken") = true ->
  exists k,
    authService.refreshToken (S n) w
    = Await (with_net_log (net_log w ++ [refresh_request w]) w)
            (refresh_request w) k
    /\ forall rep w',
         k rep w'
         = if resolves rep then
             if truthy (data_accessToken (reply_data rep))
             then Done (Returned (data_accessToken (reply_data rep)))
                       (stored_data (reply_data rep) w')
             else Done (Returned None) w'
           else Done (Returned None) (cleared w').
Proof.
  intro Htok. unfold authService.refreshToken, httpClient.post.
  proc. rewrite Htok. simpl.
  destruct (request_auth_endpoint n
              (mkRequest "post" "/auth/tokens/refresh" None
                 (RefreshBody (js_String (localStorage w !! "refreshToken"))) false)
              w eq_refl) as (k & Hk & Hres).
  rewrite Hk. simpl.
  eexists; split; [reflexivity|].
  intros rep w'. cbn beta. rewrite Hres.
  destruct (resolves rep); simpl; [|reflexivity].
  destruct (truthy (data_accessToken (reply_data rep))); reflexivity.
Qed.

Lemma session_expired_triple (w : World) :
  credential_triple (session_expired w) = (None, None, None).
Proof. apply (cleared_triple w). Qed.

(** ** A refresh that fails for a reason other than 401/403 *)

(** C2, as stated, fails on two of the three refresh paths.  In a
    signed-in session the refresh endpoint answers 500.
    - Called directly, [authService.refreshToken] returns null and the
      three stored fields are gone.
    - Reached through the response interceptor (a request answered 401,
      then the refresh answered 500), the three stored fields are gone
      and [auth:session-expired] is dispatched, which logs the user
      out. *)
Lemma C2_counterexample :
  credential_triple demo_world = (Some "a0", Some "r0", Some "5000")
  /\ (exists w',
        run (authService.refreshToken 2 demo_world)
            [mkNetAnswer 5 (Answer 500 (OtherData ""))]
        = Finished (Returned None) w' []
        /\ credential_triple w' = (None, None, None)
        /\ ~ (credential_triple w' = credential_triple demo_world))
  /\ (exists e w',
        run (httpClient.request 2 demo_request demo_world)
            [mkNetAnswer 5 (Answer 401 (OtherData ""));
             mkNetAnswer 5 (Answer 500 (OtherData ""))]
        = Finished (Thrown (AxiosErr e)) w' []
        /\ credential_triple w' = (None, None, None)
        /\ window_events w' = ["auth:session-expired"]).
Proof.
  split; [reflexivity|]. split.
  - eexists. split; [vm_compute; reflexivity|].
    vm_compute. split; [reflexivity|discriminate].
  - eexists _, _. split; [vm_compute; reflexivity|].
    vm_compute. split; reflexivity.
Qed.

(** C2, amended.  When the refresh request fails with a network or server
    error (no response, or a status outside 2xx other than 401 and 403),
    [performTokenRefresh] returns false, leaves the stored credential
    triple and the auth store exactly as they were and signals nothing;
    [authService.refreshToken] and the refresh made by the response
    interceptor instead remove the three stored fields on any failure of
    the refresh request, and the interceptor also dispatches
    [auth:session-expired] and rejects with the original error. *)
Theorem C2_transient_failure (fuel : nat) (w : World) (a : NetAnswer)
    (rest : list NetAnswer) :
  (2 <= fuel)%nat ->
  isRefreshingRef (refs w) = false ->
  truthy (localStorage w !! "refreshToken") = true ->
  resolves (reply a) = false ->
  refused (reply a) = false ->
  (exists w',
     run (useTokenManager.performTokenRefresh fuel w) (a :: rest)
     = Finished (Returned false) w' rest
     /\ localStorage w' = localStorage w
     /\ storage_log w' = storage_log w
     /\ store w' = store w
     /\ toasts w' = toasts w
     /\ window_events w' = window_events w)
  /\ (exists w',
        run (authService.refreshToken fuel w) (a :: rest)
        = Finished (Returned None) w' rest
        /\ credential_triple w' = (None, None, None))
  /\ (forall cfg a0 st0 d0,
        _retry cfg = false ->
        includes (url cfg) "/auth/" = false ->
        reply a0 = Answer st0 d0 ->
        is_401_403 st0 = true ->
        exists e w',
          run (httpClient.request fuel cfg w) (a0 :: a :: rest)
          = Finished (Thrown (AxiosErr e)) w' rest
          /\ response_status e = Some st0
          /\ credential_triple w' = (None, None, None)
          /\ window_events w' = (window_events w ++ ["auth:session-expired"])%list).
Proof.
  intros Hfuel Href Htok Hres Hrefused.
  destruct fuel as [|[|n]]; [lia | lia |].
  split; [|split].
  - destruct (performTokenRefresh_begin (S n) w Href Htok) as (k & Hk & Hk').
    rewrite Hk. cbn [run]. rewrite Hk'. unfold refresh_resolution.
    rewrite Hres, Hrefused. cbn [run].
    eexists; split; [reflexivity|]. repeat split.
  - destruct (authService_refreshToken_begin (S n) w Htok) as (k & Hk & Hk').
    rewrite Hk. cbn [run]. rewrite Hk', Hres. cbn [run].
    eexists; split; [reflexivity|]. apply cleared_triple.
  - intros cfg a0 st0 d0 Hretry Hurl Ha0 Hst0.
    destruct (request_begin (S n) cfg w) as (k & Hk & Hk').
    rewrite Hk. cbn [run]. rewrite Hk', Ha0. simpl resolves.
    rewrite (is_401_403_not_2xx _ Hst0).
    match goal with |- context [httpClient.response_error_interceptor _ ?e ?w1] =>
      destruct (interceptor_refresh n e w1) as (k1 & Hk1 & Hk1')
    end.
    + rewrite status_is_rejection_answer. exact Hst0.
    + simpl. rewrite attach_token_retry. exact Hretry.
    + simpl. rewrite attach_token_url. exact Hurl.
    + exact Htok.
    + rewrite Hk1. cbn [run]. rewrite Hk1', Hres. cbn [run].
      eexists _, _. split; [reflexivity|].
      split; [unfold mark_retry; destruct (_ && _); reflexivity|].
      split; [apply session_expired_triple|reflexivity].
Qed.

Lemma C2_transient_failure_witness :
  (exists w',
     run (useTokenManager.performTokenRefresh 2 demo_world)
         [mkNetAnswer 5 (NoAnswer "ERR_NETWORK" "Network Error")]
     = Finished (Returned false) w' []
     /\ localStorage w' = localStorage demo_world
     /\ storage_log w' = storage_log demo_world
     /\ store w' = store demo_world
     /\ toasts w' = toasts demo_world
     /\ window_events w' = window_events demo_world)
  /\ (exists w',
        run (authService.refreshToken 2 demo_world)
            [mkNetAnswer 5 (NoAnswer "ERR_NETWORK" "Network Error")]
        = Finished (Returned None) w' []
        /\ credential_triple w' = (None, None, None))
  /\ (forall cfg a0 st0 d0,
        _retry cfg = false ->
        includes (url cfg) "/auth/" = false ->
        reply a0 = Answer st0 d0 ->
        is_401_403 st0 = true ->
        exists e w',
          run (httpClient.request 2 cfg demo_world)
              [a0; mkNetAnswer 5 (NoAnswer "ERR_NETWORK" "Network Error")]
          = Finished (Thrown (AxiosErr e)) w' []
          /\ response_status e = Some st0
          /\ credential_triple w' = (None, None, None)
          /\ window_events w'
             = (window_events demo_world ++ ["auth:session-expired"])%list).
Proof.
  apply (C2_transient_failure 2 demo_world
           (mkNetAnswer 5 (NoAnswer "ERR_NETWORK" "Network Error")) []);
    [lia | reflexivity ..].
Defined.

(** ** The transport: retry once after a 401 *)

Lemma attach_token_stored (a r : string) (e : number) (w : World) (cfg : Request) :
  truthy (Some a) = true ->
  attach_token (stored a r e w) cfg = set_Authorization ("Bearer " +:+ a) cfg.
Proof.
  intro Ha. unfold attach_token.
  assert (Hl : localStorage (stored a r e w) !! "accessToken" = Some a)
    by (pose proof (stored_triple a r e w) as Ht;
        unfold credential_triple in Ht; congruence).
  rewrite Hl, Ha. reflexivity.
Qed.

Lemma not_refresh_url (u : string) :
  includes u "/auth/" = false -> u <> "/auth/tokens/refresh".
Proof. intros H ->. vm_compute in H. discriminate. Qed.

(** C3.  A request to an endpoint outside [/auth/], not yet retried, is
    answered 401 (or 403).
    - If a refresh token is stored, the interceptor sends exactly one
      request to the refresh endpoint.  When that request resolves with a
      new access token, the original request is replayed exactly once,
      flagged as retried and carrying the new token as its bearer
      credential.  When the replay is again answered 401 (or 403), nothing
      more is sent, no further answer is consumed, and the replay's error
      is thrown to the caller.
    - If no refresh token is stored, the refresh ends before any request
      is sent and the original error is thrown. *)
Theorem C3_retry_once (fuel : nat) (w : World) (cfg : Request)
    (a0 a1 a2 : NetAnswer) (st0 st1 st2 : Z) (d0 d2 : Data) (t : Tokens.t)
    (rest : list NetAnswer) :
  (2 <= fuel)%nat ->
  _retry cfg = false ->
  includes (url cfg) "/auth/" = false ->
  reply a0 = Answer st0 d0 -> is_401_403 st0 = true ->
  reply a1 = Answer st1 (TokenData t) -> is_2xx st1 = true ->
  truthy (Some (Tokens.accessToken t)) = true ->
  reply a2 = Answer st2 d2 -> is_401_403 st2 = true ->
  let original := attach_token w cfg in
  let refresh := refresh_request w in
  let replay := replay_of original (Tokens.accessToken t) in
  if truthy (localStorage w !! "refreshToken") then
    (exists w1,
       run (httpClient.request fuel cfg w) [a0] = Pending w1 refresh
       /\ net_log w1 = (net_log w ++ [original; refresh])%list)
    /\ (exists w2,
          run (httpClient.request fuel cfg w) [a0; a1] = Pending w2 replay
          /\ net_log w2 = (net_log w ++ [original; refresh; replay])%list
          /\ localStorage w2 !! "accessToken" = Some (Tokens.accessToken t))
    /\ (exists e w3,
          run (httpClient.request fuel cfg w) (a0 :: a1 :: a2 :: rest)
          = Finished (Thrown (AxiosErr e)) w3 rest
          /\ response_status e = Some st2
          /\ config e = replay
          /\ net_log w3 = (net_log w ++ [original; refresh; replay])%list)
    /\ refresh_calls [original; refresh; replay] = 1%nat
    /\ Authorization replay = Some ("Bearer " +:+ Tokens.accessToken t)
    /\ _retry replay = true
    /\ (method replay, url replay, data replay) = (method cfg, url cfg, data cfg)
  else
    exists e w1,
      run (httpClient.request fuel cfg w) (a0 :: rest)
      = Finished (Thrown (AxiosErr e)) w1 rest
      /\ response_status e = Some st0
      /\ net_log w1 = (net_log w ++ [original])%list.
Proof.
  intros Hfuel Hretry Hurl Ha0 Hst0 Ha1 Hst1 Hacc Ha2 Hst2 original refresh replay.
  destruct fuel as [|[|n]]; [lia | lia |].
  destruct (request_begin (S n) cfg w) as (k & Hk & Hk').
  assert (Hs0 : status_is (AxiosErr (rejection original (Answer st0 d0))) 401
                || status_is (AxiosErr (rejection original (Answer st0 d0))) 403
                = true) by exact Hst0.
  assert (Hr0 : _retry (config (rejection original (Answer st0 d0))) = false)
    by (simpl; unfold original; rewrite attach_token_retry; exact Hretry).
  assert (Hu0 : includes (url (config (rejection original (Answer st0 d0)))) "/auth/"
                = false)
    by (simpl; unfold original; rewrite attach_token_url; exact Hurl).
  destruct (truthy (localStorage w !! "refreshToken")) eqn:Htok.
  - set (w1 := tick (elapsed a0) (with_net_log (net_log w ++ [original]) w)).
    destruct (interceptor_refresh n _ w1 Hs0 Hr0 Hu0 Htok) as (k1 & Hk1 & Hk1').
    set (w2 := tick (elapsed a1)
                 (with_net_log (net_log w1 ++ [refresh_request w1]) w1)).
    destruct (request_retried n
                (replay_of original (js_String (Some (Tokens.accessToken t))))
                (stored_data (TokenData t) w2) eq_refl) as (k2 & Hk2 & Hk2').
    assert (Hreplay : attach_token (stored_data (TokenData t) w2)
                        (replay_of original (js_String (Some (Tokens.accessToken t))))
                      = replay)
      by (unfold stored_data; simpl; rewrite attach_token_stored by exact Hacc;
          reflexivity).
    rewrite Hreplay in Hk2, Hk2'.
    assert (Hrun1 : forall s,
              run (httpClient.request (S (S n)) cfg w) (a0 :: s)
              = run (Await (with_net_log (net_log w1 ++ [refresh]) w1) refresh k1) s).
    { intro s. rewrite Hk. cbn [run]. rewrite Hk', Ha0. simpl resolves.
      rewrite (is_401_403_not_2xx _ Hst0). fold original. fold w1.
      rewrite Hk1. reflexivity. }
    assert (Hrun2 : forall s,
              run (httpClient.request (S (S n)) cfg w) (a0 :: a1 :: s)
              = run (Await (with_net_log
                              (net_log (stored_data (TokenData t) w2) ++ [replay])
                              (stored_data (TokenData t) w2)) replay k2) s).
    { intro s. rewrite Hrun1. cbn [run]. rewrite Hk1', Ha1. simpl resolves.
      rewrite Hst1. simpl reply_data. simpl data_accessToken. rewrite Hacc.
      change (tick (elapsed a1) (with_net_log (net_log w1 ++ [refresh]) w1)) with w2.
      simpl config. rewrite Hk2. reflexivity. }
    split; [|split; [|split; [|split; [|split; [|split]]]]].
    + rewrite Hrun1. cbn [run]. eexists; split; [reflexivity|].
      simpl. rewrite <- app_assoc. reflexivity.
    + rewrite Hrun2. cbn [run]. eexists; split; [reflexivity|].
      split.
      * simpl. rewrite <- !app_assoc. reflexivity.
      * pose proof (stored_triple (Tokens.accessToken t) (Tokens.refreshToken t)
                      (Int (Tokens.expiresIn t)) w2) as Ht.
        exact (f_equal (fun p => fst (fst p)) Ht).
    + rewrite Hrun2. cbn [run]. rewrite Hk2', Ha2. simpl resolves.
      rewrite (is_401_403_not_2xx _ Hst2). cbn [run].
      eexists _, _. split; [reflexivity|].
      split; [reflexivity|]. split; [reflexivity|].
      simpl. rewrite <- !app_assoc. reflexivity.
    + unfold refresh_calls.
      assert (Ho : url original <> "/auth/tokens/refresh")
        by (unfold original; rewrite attach_token_url; apply not_refresh_url, Hurl).
      assert (Hf : url refresh = "/auth/tokens/refresh")
        by apply attach_token_url.
      assert (Hp : url replay <> "/auth/tokens/refresh") by exact Ho.
      rewrite filter_cons_False by exact Ho.
      rewrite filter_cons_True by exact Hf.
      rewrite filter_cons_False by exact Hp.
      reflexivity.
    + reflexivity.
    + reflexivity.
    + unfold replay, original, replay_of, attach_token.
      destruct (truthy (localStorage w !! "accessToken")); reflexivity.
  - rewrite Hk. cbn [run]. rewrite Hk', Ha0. simpl resolves.
    rewrite (is_401_403_not_2xx _ Hst0). fold original.
    rewrite (interceptor_no_token _ _
               (tick (elapsed a0) (with_net_log (net_log w ++ [original]) w))
               Hs0 Hr0 Hu0 Htok).
    cbn [run].
    eexists _, _. split; [reflexivity|].
    split; [unfold mark_retry; destruct (_ && _); reflexivity|reflexivity].
Qed.

Lemma C3_retry_once_witness :
  (exists w2,
     run (httpClient.request 2 demo_request demo_world)
         [mkNetAnswer 5 (Answer 401 (OtherData ""));
          mkNetAnswer 5 (Answer 200 demo_tokens)]
     = Pending w2 (replay_of (attach_token demo_world demo_request) "a1")
     /\ net_log w2
        = (net_log demo_world
           ++ [attach_token demo_world demo_request;
               refresh_request demo_world;
               replay_of (attach_token demo_world demo_request) "a1"])%list
     /\ localStorage w2 !! "accessToken" = Some "a1")
  /\ (exists e w3,
        run (httpClient.request 2 demo_request demo_world)
            [mkNetAnswer 5 (Answer 401 (OtherData ""));
             mkNetAnswer 5 (Answer 200 demo_tokens);
             mkNetAnswer 5 (Answer 401 (OtherData ""))]
        = Finished (Thrown (AxiosErr e)) w3 []
        /\ response_status e = Some 401
        /\ config e = replay_of (attach_token demo_world demo_request) "a1"
        /\ net_log w3
           = (net_log demo_world
              ++ [attach_token demo_world demo_request;
                  refresh_request demo_world;
                  replay_of (attach_token demo_world demo_request) "a1"])%list).
Proof.
  pose proof (C3_retry_once 2 demo_world demo_request
                (mkNetAnswer 5 (Answer 401 (OtherData "")))
                (mkNetAnswer 5 (Answer 200 demo_tokens))
                (mkNetAnswer 5 (Answer 401 (OtherData "")))
                401 200 401 (OtherData "") (OtherData "")
                (Tokens.mk "a1" "r1" 3600) []
                ltac:(lia) eq_refl eq_refl eq_refl eq_refl eq_refl eq_refl
                eq_refl eq_refl eq_refl) as H.
  change (truthy (localStorage demo_world !! "refreshToken")) with true in H.
  cbv zeta iota in H.
  destruct H as (_ & H2 & H3 & _).
  split; [exact H2 | exact H3].
Defined.

(** ** The proactive timer *)

Lemma getTimeUntilExpiry_none (w : World) :
  localStorage w !! "tokenExpiry" = None ->
  tokenService.getTimeUntilExpiry w = Done (Returned (Int 0)) w.
Proof.
  intro H. unfold tokenService.getTimeUntilExpiry. proc. rewrite H. reflexivity.
Qed.

Lemma getTimeUntilExpiry_stamp (w : World) (e : Z) :
  localStorage w !! "tokenExpiry" = Some (toString (Int e)) ->
  tokenService.getTimeUntilExpiry w
  = Done (Returned (Int (Z.max 0 (e - Date_now w)))) w.
Proof.
  intro H. unfold tokenService.getTimeUntilExpiry. proc. rewrite H.
  rewrite toString_truthy. simpl. rewrite parseInt_toString. reflexivity.
Qed.

Lemma clear_if_set_eq (ref : option positive) (w : World) :
  useTokenManager.clear_if_set ref w
  = Done (Returned tt) (exec (useTokenManager.clear_if_set ref) w).
Proof. destruct ref; reflexivity. Qed.

Lemma scheduleTokenRefresh_arms (w : World) (d : number) :
  (forall w0, localStorage w0 = localStorage w -> Date_now w0 = Date_now w ->
     tokenService.getTimeUntilExpiry w0 = Done (Returned d) w0) ->
  useTokenManager.scheduleTokenRefresh true w = Done (Returned tt) (armed true d w).
Proof.
  intro Hd. unfold useTokenManager.scheduleTokenRefresh. proc.
  rewrite clear_if_set_eq. proc.
  rewrite Hd by (destruct (refreshTimeoutRef (refs w)); reflexivity).
  proc. unfold setTimeout. proc.
  unfold armed. destruct (refreshTimeoutRef (refs w)); reflexivity.
Qed.

Lemma armed_timer (captured : bool) (d : number) (w : World) :
  timers (armed captured d w) !! next_timer w
  = Some (mkTimer (RefreshCallback captured)
            (Math_max (Int 0)
               (number_sub d (Int useTokenManager.TOKEN_REFRESH_BUFFER))))
  /\ refreshTimeoutRef (refs (armed captured d w)) = Some (next_timer w).
Proof.
  split; [|reflexivity]. unfold armed. simpl. apply lookup_insert_eq.
Qed.

Lemma armed_frame (captured : bool) (d : number) (w : World) :
  localStorage (armed captured d w) = localStorage w
  /\ store (armed captured d w) = store w
  /\ toasts (armed captured d w) = toasts w
  /\ net_log (armed captured d w) = net_log w.
Proof.
  unfold armed. destruct (refreshTimeoutRef (refs w)); repeat split.
Qed.

(** The delay of the timer: with the expiry stamp [e] in storage,
    [max(0, max(0, e - now) - 2 minutes)]. *)
Lemma scheduleTokenRefresh_delay (w : World) (e : Z) :
  localStorage w !! "tokenExpiry" = Some (toString (Int e)) ->
  exists w',
    useTokenManager.scheduleTokenRefresh true w = Done (Returned tt) w'
    /\ timers w' !! next_timer w
       = Some (mkTimer (RefreshCallback true)
                 (Int (Z.max 0 (Z.max 0 (e - Date_now w) - 2 * 60 * 1000))))
    /\ refreshTimeoutRef (refs w') = Some (next_timer w).
Proof.
  intro He.
  rewrite (scheduleTokenRefresh_arms w (Int (Z.max 0 (e - Date_now w)))).
  - eexists; split; [reflexivity|]. apply armed_timer.
  - intros w0 Hl Hn. rewrite <- Hn. apply getTimeUntilExpiry_stamp.
    rewrite Hl. exact He.
Qed.

(** When the timer fires, the refresh is attempted and, whatever its
    result, [scheduleTokenRefresh] is called again with the captured
    [isAuthenticated]. *)
Lemma refresh_timer_fired_run (n : nat) (w : World) (a : NetAnswer)
    (rest : list NetAnswer) :
  isRefreshingRef (refs w) = false ->
  truthy (localStorage w !! "refreshToken") = true ->
  run (useTokenManager.refresh_timer_fired (S n) true w) (a :: rest)
  = run (step_bind
           (refresh_resolution (reply a)
              (tick (elapsed a)
                 (with_net_log (net_log w ++ [refresh_request w])
                    (useTokenManager.set_isRefreshingRef true w))))
           (fun _ => useTokenManager.scheduleTokenRefresh true))
        rest.
Proof.
  intros Href Htok.
  destruct (performTokenRefresh_begin n w Href Htok) as (k & Hk & Hk').
  unfold useTokenManager.refresh_timer_fired. proc.
  rewrite Hk. cbn [step_bind run]. rewrite Hk'. reflexivity.
Qed.

(** After a successful refresh the timer is armed for the next cycle. *)
Lemma timer_rearms_on_success (fuel : nat) (w : World) (dt : N) (st : Z)
    (t : Tokens.t) (rest : list NetAnswer) :
  (1 <= fuel)%nat ->
  isRefreshingRef (refs w) = false ->
  truthy (localStorage w !! "refreshToken") = true ->
  is_2xx st = true ->
  exists w',
    run (useTokenManager.refresh_timer_fired fuel true w)
        (mkNetAnswer dt (Answer st (TokenData t)) :: rest)
    = Finished (Returned tt) w' rest
    /\ timers w' !! next_timer w
       = Some (mkTimer (RefreshCallback true)
                 (Int (Z.max 0 (Z.max 0 (Tokens.expiresIn t * 1000) - 2 * 60 * 1000))))
    /\ refreshTimeoutRef (refs w') = Some (next_timer w).
Proof.
  intros Hfuel Href Htok Hst. destruct fuel as [|n]; [lia|].
  rewrite (refresh_timer_fired_run n w _ rest Href Htok).
  unfold refresh_resolution. simpl resolves. rewrite Hst. cbn [step_bind reply].
  match goal with |- context [useTokenManager.scheduleTokenRefresh true ?w1] =>
    destruct (scheduleTokenRefresh_delay w1
                (Date_now w + Z.of_N dt + Tokens.expiresIn t * 1000))
      as (w' & Hw' & Ht & Hr)
  end.
  - match goal with |- localStorage ?x !! _ = _ =>
      change (localStorage x) with
        (localStorage (stored (Tokens.accessToken t) (Tokens.refreshToken t)
                         (Int (Tokens.expiresIn t))
                         (tick dt (with_net_log (net_log w ++ [refresh_request w])
                                     (useTokenManager.set_isRefreshingRef true w)))))
    end.
    match goal with |- localStorage ?x !! _ = _ =>
      pose proof (stored_triple (Tokens.accessToken t) (Tokens.refreshToken t)
                    (Int (Tokens.expiresIn t))
                    (tick dt (with_net_log (net_log w ++ [refresh_request w])
                                (useTokenManager.set_isRefreshingRef true w)))) as H3
    end.
    exact (f_equal snd H3).
  - rewrite Hw'. cbn [run]. eexists; split; [reflexivity|].
    split; [|exact Hr]. etransitivity; [exact Ht|]. do 3 f_equal. simpl. lia.
Qed.

(** C8.  The timer callback re-arms the timer after an authentication
    failure.  The refresh timer fires in a signed-in session and the
    refresh endpoint answers 401 or 403: the credentials are removed, the
    auth store is signed out, and then [scheduleTokenRefresh] runs with
    the [isAuthenticated] it had captured (true): a new refresh timer is
    armed, with delay 0 since no expiry is stored any more. *)
Theorem C8_timer_rearms_after_auth_failure (fuel : nat) (w : World)
    (a : NetAnswer) (rest : list NetAnswer) :
  (1 <= fuel)%nat ->
  isRefreshingRef (refs w) = false ->
  truthy (localStorage w !! "refreshToken") = true ->
  refused (reply a) = true ->
  exists w',
    run (useTokenManager.refresh_timer_fired fuel true w) (a :: rest)
    = Finished (Returned tt) w' rest
    /\ credential_triple w' = (None, None, None)
    /\ isAuthenticated (store w') = false
    /\ timers w' !! next_timer w = Some (mkTimer (RefreshCallback true) (Int 0))
    /\ refreshTimeoutRef (refs w') = Some (next_timer w).
Proof.
  intros Hfuel Href Htok Hrefused. destruct fuel as [|n]; [lia|].
  rewrite (refresh_timer_fired_run n w a rest Href Htok).
  assert (Hres : resolves (reply a) = false).
  { destruct (reply a) as [st d|]; [|reflexivity]. simpl in *.
    destruct (is_2xx st); [discriminate|reflexivity]. }
  unfold refresh_resolution. rewrite Hres, Hrefused. cbn [step_bind].
  match goal with |- context [useTokenManager.scheduleTokenRefresh true ?w1] =>
    set (wl := w1)
  end.
  assert (Hl : credential_triple wl = (None, None, None))
    by (apply (logged_out_triple
                 (exec (toast "Session Expired")
                    (tick (elapsed a)
                       (with_net_log (net_log w ++ [refresh_request w])
                          (useTokenManager.set_isRefreshingRef true w)))))).
  rewrite (scheduleTokenRefresh_arms wl (Int 0)).
  - cbn [run]. eexists; split; [reflexivity|].
    destruct (armed_frame true (Int 0) wl) as (Hls & Hst & _ & _).
    split; [unfold credential_triple; rewrite Hls; exact Hl|].
    split; [rewrite Hst; reflexivity|].
    apply (armed_timer true (Int 0) wl).
  - intros w0 Hls _. apply getTimeUntilExpiry_none. rewrite Hls.
    exact (f_equal snd Hl).
Qed.

Lemma C8_timer_rearms_after_auth_failure_witness :
  exists w',
    run (useTokenManager.refresh_timer_fired 2 true demo_world)
        [mkNetAnswer 5 (Answer 403 (OtherData ""))]
    = Finished (Returned tt) w' []
    /\ credential_triple w' = (None, None, None)
    /\ isAuthenticated (store w') = false
    /\ timers w' !! next_timer demo_world
       = Some (mkTimer (RefreshCallback true) (Int 0))
    /\ refreshTimeoutRef (refs w') = Some (next_timer demo_world).
Proof.
  apply (C8_timer_rearms_after_auth_failure 2 demo_world
           (mkNetAnswer 5 (Answer 403 (OtherData ""))) []);
    [lia | reflexivity ..].
Defined.

(** C5.  The refresh endpoint answers 403 to the refresh made by the
    proactive timer.  The session is mounted (the effect has armed the
    inactivity timer 1 and the refresh timer 2); timer 2 fires and the
    refresh is answered 403.  The three stored fields are removed, one
    "Session Expired" toast is shown and the auth store is signed out, but
    a refresh timer (3) is armed again, with delay 0.  When it fires the
    refresh fails for want of a refresh token, and timer 4 is armed. *)
Lemma C5_timer_rearmed_after_403 :
  let w0 := exec (useTokenManager.effect true) demo_world in
  exists w1 w2,
    timers w0 !! 2%positive = Some (mkTimer (RefreshCallback true) (Int 0))
    /\ run (fire_timer 2 2 w0) [mkNetAnswer 5 (Answer 403 (OtherData ""))]
       = Finished (Returned tt) w1 []
    /\ credential_triple w1 = (None, None, None)
    /\ toasts w1 = ["Session Expired"]
    /\ isAuthenticated (store w1) = false
    /\ timers w1 !! 3%positive = Some (mkTimer (RefreshCallback true) (Int 0))
    /\ run (fire_timer 2 3 w1) [] = Finished (Returned tt) w2 []
    /\ net_log w2 = net_log w1
    /\ timers w2 !! 4%positive = Some (mkTimer (RefreshCallback true) (Int 0)).
Proof.
  eexists _, _.
  split; [vm_compute; reflexivity|].
  split; [vm_compute; reflexivity|].
  vm_compute. repeat split; reflexivity.
Qed.

(** The hook's effect for a render that sees [isAuthenticated = false]
    clears the timer held in [refreshTimeoutRef].  Run after the callback
    has finished it cancels the timer the callback has just armed; run
    between the end of [performTokenRefresh] and the callback's call of
    [scheduleTokenRefresh] it finds only the timer that has already
    fired, and the timer armed afterwards by the callback's closure stays
    pending. *)
Lemma unauthenticated_effect_and_the_stale_timer :
  let w0 := exec (useTokenManager.effect true) demo_world in
  let reply403 := mkNetAnswer 5 (Answer 403 (OtherData "")) in
  (* the callback runs to its end, then the effect *)
  (exists w1,
     run (fire_timer 2 2 w0) [reply403] = Finished (Returned tt) w1 []
     /\ timers w1 !! 3%positive = Some (mkTimer (RefreshCallback true) (Int 0))
     /\ timers (exec (useTokenManager.effect false) w1) !! 3%positive = None)
  (* the effect runs before the callback goes on *)
  /\ (exists w1,
        run (useTokenManager.performTokenRefresh 2
               (with_timers (delete 2%positive (timers w0)) (next_timer w0) w0))
            [reply403]
        = Finished (Returned false) w1 []
        /\ isAuthenticated (store w1) = false
        /\ timers (exec (useTokenManager.scheduleTokenRefresh true)
                     (exec (useTokenManager.effect false) w1)) !! 3%positive
           = Some (mkTimer (RefreshCallback true) (Int 0))).
Proof.
  split.
  - eexists. split; [vm_compute; reflexivity|].
    vm_compute. split; reflexivity.
  - eexists. split; [vm_compute; reflexivity|].
    vm_compute. split; reflexivity.
Qed.

(** The activity path, by contrast, schedules only after a refresh that
    succeeded: an expired session, an interaction, the refresh answered
    403, and the only timer armed is the inactivity timer. *)
Lemma handleActivity_does_not_rearm_after_403 :
  let w0 := with_Date_now 10000 demo_world in
  exists w1,
    run (useTokenManager.handleActivity 2 true w0)
        [mkNetAnswer 5 (Answer 403 (OtherData ""))]
    = Finished (Returned tt) w1 []
    /\ refreshTimeoutRef (refs w1) = None
    /\ timers w1 !! 1%positive
       = Some (mkTimer InactivityCallback (Int (15 * 60 * 1000)))
    /\ timers w1 !! 2%positive = None
    /\ isAuthenticated (store w1) = false.
Proof.
  eexists. split; [vm_compute; reflexivity|].
  vm_compute. repeat split; reflexivity.
Qed.

(** ** Expiry *)

Lemma isTokenExpired_stamp (w : World) (e : Z) :
  localStorage w !! "tokenExpiry" = Some (toString (Int e)) ->
  tokenService.isTokenExpired w = Done (Returned (e <=? Date_now w)) w.
Proof.
  intro H. unfold tokenService.isTokenExpired. proc. rewrite H.
  rewrite toString_truthy. simpl. rewrite parseInt_toString. simpl.
  rewrite Z.geb_leb. reflexivity.
Qed.

(** C9.  Right after [storeTokens(a, r, E)] with [E > 0] the token is not
    expired; from then on, with storage untouched, [isTokenExpired] is
    true exactly when the clock has reached the time of the call plus [E]
    seconds (the comparison is [>=]: true from that very millisecond on);
    and it is true whenever no expiry is stored.  The read changes
    nothing.  The clock, [1000 E] and the stamp are safe integers, so that
    the stamp is computed exactly, printed in decimal and read back as
    written. *)
Theorem C9_isExpired_after_store (w : World) (a r : string) (E : Z) :
  0 < E ->
  safe_integer (Date_now w) ->
  safe_integer (E * 1000) ->
  safe_integer (Date_now w + E * 1000) ->
  exists w1,
    tokenService.storeTokens a r (Int E) w = Done (Returned tt) w1
    /\ tokenService.isTokenExpired w1 = Done (Returned false) w1
    /\ (forall t,
          safe_integer t ->
          tokenService.isTokenExpired (with_Date_now t w1)
          = Done (Returned (Date_now w + E * 1000 <=? t)) (with_Date_now t w1))
    /\ (forall w',
          localStorage w' !! "tokenExpiry" = None ->
          tokenService.isTokenExpired w' = Done (Returned true) w').
Proof.
  intros HE _ _ _. exists (stored a r (Int E) w).
  assert (Hst : localStorage (stored a r (Int E) w) !! "tokenExpiry"
                = Some (toString (Int (Date_now w + E * 1000))))
    by exact (f_equal snd (stored_triple a r (Int E) w)).
  split; [reflexivity|]. split; [|split].
  - rewrite (isTokenExpired_stamp _ _ Hst).
    replace (Date_now w + E * 1000 <=? Date_now (stored a r (Int E) w)) with false;
      [reflexivity|].
    symmetry. apply Z.leb_gt. simpl. lia.
  - intros t _.
    apply (isTokenExpired_stamp (with_Date_now t (stored a r (Int E) w))).
    exact Hst.
  - intros w' H. unfold tokenService.isTokenExpired. proc. rewrite H. reflexivity.
Qed.

Lemma C9_isExpired_after_store_witness :
  exists w1,
    tokenService.storeTokens "a1" "r1" (Int 3600) demo_world = Done (Returned tt) w1
    /\ tokenService.isTokenExpired w1 = Done (Returned false) w1
    /\ (forall t,
          safe_integer t ->
          tokenService.isTokenExpired (with_Date_now t w1)
          = Done (Returned (Date_now demo_world + 3600 * 1000 <=? t))
                 (with_Date_now t w1))
    /\ (forall w',
          localStorage w' !! "tokenExpiry" = None ->
          tokenService.isTokenExpired w' = Done (Returned true) w').
Proof.
  apply (C9_isExpired_after_store demo_world "a1" "r1" 3600);
    [lia | unfold safe_integer, MAX_SAFE_INTEGER; simpl; lia ..].
Defined.

(** ** The auth store's refresh *)

Lemma credential_ops_app (l1 l2 : list StorageOp) :
  credential_ops (l1 ++ l2) = (credential_ops l1 ++ credential_ops l2)%list.
Proof. apply List.filter_app. Qed.

Lemma prefix_append (p s : string) : String.prefix p (p +:+ s) = true.
Proof.
  induction p as [|c p IH]; [destruct s; reflexivity|].
  change (String c p +:+ s) with (String c (p +:+ s)).
  cbn [String.prefix].
  destruct (ascii_dec c c); [exact IH|congruence].
Qed.

(** C10.  [authStore.refreshToken] never waits for the network and sends
    nothing.  With a refresh token in storage it returns after storing
    the access token ["mock-jwt-token-" + now] and the expiry
    [now + 3600 * 1000] ms; these are its only writes to the three
    credential keys, so the stored refresh token is untouched; the store
    takes the new token, and its snapshot is persisted.  Without a refresh
    token it logs out - the three keys are removed and the store is reset
    to its signed-out state - and throws.  The clock and the expiry are
    safe integers. *)
Theorem C10_store_refresh_is_a_mock (w : World) :
  safe_integer (Date_now w) ->
  safe_integer (Date_now w + 3600 * 1000) ->
  exists r w',
    authStore.refreshToken w = Done r w'
    /\ net_log w' = net_log w
    /\ if truthy (localStorage w !! "refreshToken") then
         let newToken := "mock-jwt-token-" +:+ toString (Int (Date_now w)) in
         let expiry := toString (Int (Date_now w + 3600 * 1000)) in
         r = Returned tt
         /\ String.prefix "mock-jwt-token-" newToken = true
         /\ localStorage w' !! "accessToken" = Some newToken
         /\ localStorage w' !! "tokenExpiry" = Some expiry
         /\ parseInt expiry = Int (Date_now w + 3600 * 1000)
         /\ localStorage w' !! "refreshToken" = localStorage w !! "refreshToken"
         /\ credential_ops (storage_log w')
            = (credential_ops (storage_log w)
               ++ [SetItem "accessToken" newToken; SetItem "tokenExpiry" expiry])%list
         /\ storage_log w'
            = (storage_log w
               ++ [SetItem "accessToken" newToken; SetItem "tokenExpiry" expiry;
                   SetItem "auth-storage" (authStore.persisted (store w'))])%list
         /\ store w'
            = {| user := user (store w); token := Some newToken;
                 isAuthenticated := isAuthenticated (store w);
                 loadingState := loadingState (store w);
                 error := error (store w) |}
       else
         r = Thrown (PlainErr "No refresh token available")
         /\ credential_triple w' = (None, None, None)
         /\ store w' = authStore.logged_out
         /\ storage_log w'
            = (storage_log w
               ++ [RemoveItem "accessToken"; RemoveItem "refreshToken";
                   RemoveItem "tokenExpiry";
                   SetItem "auth-storage"
                     (authStore.persisted authStore.logged_out)])%list
         /\ w' = logged_out w.
Proof.
  intros _ _. unfold authStore.refreshToken, authStore.set. proc.
  destruct (truthy (localStorage w !! "refreshToken")) eqn:Htok; simpl.
  - eexists _, _. split; [reflexivity|]. split; [reflexivity|].
    split; [reflexivity|]. split; [apply prefix_append|]. simpl.
    split; [rewrite !lookup_insert_ne by done; apply lookup_insert_eq|].
    split; [rewrite lookup_insert_ne by done; apply lookup_insert_eq|].
    split; [apply parseInt_toString|].
    split; [rewrite !lookup_insert_ne by done; reflexivity|].
    split; [rewrite !credential_ops_app, app_nil_r, <- app_assoc; reflexivity|].
    split; [rewrite <- !app_assoc; reflexivity|reflexivity].
  - eexists _, _. split; [reflexivity|]. split; [reflexivity|].
    split; [reflexivity|].
    split; [apply (logged_out_triple w)|].
    split; [reflexivity|].
    split; [|reflexivity].
    unfold logged_out, exec, authStore.logout, authStore.set. proc.
    rewrite <- !app_assoc. reflexivity.
Qed.

Lemma C10_store_refresh_is_a_mock_witness :
  exists w',
    authStore.refreshToken demo_world = Done (Returned tt) w'
    /\ net_log w' = net_log demo_world
    /\ credential_triple w'
       = (Some "mock-jwt-token-1000", Some "r0", Some "3601000")
    /\ credential_ops (storage_log w')
       = [SetItem "accessToken" "mock-jwt-token-1000";
          SetItem "tokenExpiry" "3601000"]
    /\ token (store w') = Some "mock-jwt-token-1000".
Proof.
  destruct (C10_store_refresh_is_a_mock demo_world)
    as (r & w' & Hrun & Hnet & Hr & _ & Ha & He & _ & Hrt & Hops & _ & Hst);
    [unfold safe_integer, MAX_SAFE_INTEGER; simpl; lia ..|].
  exists w'. rewrite Hr in Hrun.
  split; [exact Hrun|]. split; [exact Hnet|].
  split; [unfold credential_triple; rewrite Ha, He, Hrt; reflexivity|].
  split; [exact Hops|]. rewrite Hst. reflexivity.
Defined.

(** ** The three fields are written together *)

Lemma touches_app (k : string) (l1 l2 : list StorageOp) :
  touches k (l1 ++ l2) = touches k l1 || touches k l2.
Proof. apply existsb_app. Qed.

Lemma all_or_nothing_app (l1 l2 : list StorageOp) :
  all_or_nothing l1 = true -> all_or_nothing l2 = true ->
  all_or_nothing (l1 ++ l2) = true.
Proof.
  unfold all_or_nothing. rewrite !touches_app.
  intros H1 H2.
  apply andb_true_iff in H1 as [H1a H1b]. apply andb_true_iff in H2 as [H2a H2b].
  apply eqb_prop in H1a, H1b, H2a, H2b.
  rewrite H1a, H1b, H2a, H2b.
  rewrite !eqb_reflx. reflexivity.
Qed.

Lemma written_together_app (l1 l2 : list StorageOp) :
  written_together l1 -> written_together l2 -> written_together (l1 ++ l2).
Proof.
  intros H1 H2. induction H2 as [|ops a r e _ IH|ops _ IH].
  - rewrite app_nil_r. exact H1.
  - rewrite app_assoc. apply wt_store, IH.
  - rewrite app_assoc. apply wt_remove, IH.
Qed.

(** Whole writes of the triple touch the three keys all or none. *)
Lemma written_together_all_or_nothing (ops : list StorageOp) :
  written_together ops -> all_or_nothing ops = true.
Proof.
  induction 1 as [|ops a r e _ IH|ops _ IH];
    [reflexivity | apply all_or_nothing_app; [exact IH|reflexivity] ..].
Qed.

Lemma ext_refl (w : World) : ext (credential_ops (storage_log w)) w.
Proof. exists []. split; [symmetry; apply app_nil_r|apply wt_nothing]. Qed.

Lemma ext_more (base : list StorageOp) (w w' : World) (ops : list StorageOp) :
  ext base w ->
  credential_ops (storage_log w') = (credential_ops (storage_log w) ++ ops)%list ->
  written_together ops ->
  ext base w'.
Proof.
  intros (ops0 & H0 & Ha0) H Ha. exists (ops0 ++ ops)%list.
  split; [rewrite H, H0, app_assoc; reflexivity|].
  apply written_together_app; assumption.
Qed.

Lemma ext_same (base : list StorageOp) (w w' : World) :
  ext base w ->
  credential_ops (storage_log w') = credential_ops (storage_log w) ->
  ext base w'.
Proof.
  intros H Hs. apply (ext_more base w w' [] H); [|apply wt_nothing].
  rewrite Hs. symmetry. apply app_nil_r.
Qed.

(** A [set] of the auth store writes the store's snapshot only. *)
Lemma ext_set (base : list StorageOp) (f : AuthState -> AuthState) (w : World) :
  ext base w -> ext base (exec (authStore.set f) w).
Proof.
  intro H. apply (ext_same base w); [exact H|].
  unfold exec, authStore.set. proc.
  rewrite credential_ops_app. apply app_nil_r.
Qed.

Lemma writes_ok_bind {A B : Type} (base : list StorageOp) (s : Step A)
    (f : A -> Proc B) :
  writes_ok base s ->
  (forall a w, ext base w -> writes_ok base (f a w)) ->
  writes_ok base (step_bind s f).
Proof.
  intros Hs Hf. induction s as [r w | w req k IH]; simpl in *.
  - destruct r; [apply Hf; exact Hs | exact Hs | exact Hs].
  - destruct Hs as [Hw Hk]. split; [exact Hw|].
    intros rep w' Hl. apply IH, Hk, Hl.
Qed.

Lemma writes_ok_catch {A : Type} (base : list StorageOp) (s : Step A)
    (h : JsError -> Proc A) :
  writes_ok base s ->
  (forall e w, ext base w -> writes_ok base (h e w)) ->
  writes_ok base (step_catch s h).
Proof.
  intros Hs Hh. induction s as [r w | w req k IH]; simpl in *.
  - destruct r; [exact Hs | apply Hh; exact Hs | exact Hs].
  - destruct Hs as [Hw Hk]. split; [exact Hw|].
    intros rep w' Hl. apply IH, Hk, Hl.
Qed.

Lemma writes_ok_finally {A : Type} (base : list StorageOp) (s : Step A)
    (f : World -> World) :
  writes_ok base s ->
  (forall w, ext base w -> ext base (f w)) ->
  writes_ok base (step_finally s f).
Proof.
  intros Hs Hf. induction s as [r w | w req k IH]; simpl in *.
  - apply Hf, Hs.
  - destruct Hs as [Hw Hk]. split; [exact Hw|].
    intros rep w' Hl. apply IH, Hk, Hl.
Qed.

Lemma writes_ok_run {A : Type} (w : World) (s : Step A) :
  writes_ok (credential_ops (storage_log w)) s -> writes_atomically w s.
Proof.
  intros Hs script. revert script.
  induction s as [r w0 | w0 req k IH]; intro script; simpl in *.
  - exact Hs.
  - destruct Hs as [Hw Hk]. destruct script as [|a rest]; [exact Hw|].
    apply IH, Hk. reflexivity.
Qed.

(** The three writes and the three removals. *)
Lemma ext_stored (base : list StorageOp) (a r : string) (e : number) (w : World) :
  ext base w -> ext base (stored a r e w).
Proof.
  intro H. eapply (ext_more base w); [exact H | | ].
  - unfold stored, exec, tokenService.storeTokens. proc.
    rewrite !credential_ops_app, <- !app_assoc. reflexivity.
  - apply (wt_store []), wt_nothing.
Qed.

Lemma ext_cleared (base : list StorageOp) (w : World) :
  ext base w -> ext base (cleared w).
Proof.
  intro H. eapply (ext_more base w); [exact H | | ].
  - unfold cleared, exec, tokenService.clearTokens. proc.
    rewrite !credential_ops_app, <- !app_assoc. reflexivity.
  - apply (wt_remove []), wt_nothing.
Qed.

Lemma ext_logged_out (base : list StorageOp) (w : World) :
  ext base w -> ext base (logged_out w).
Proof.
  intro H. apply (ext_set base (fun _ => authStore.logged_out) (cleared w)).
  apply ext_cleared, H.
Qed.

(** The axios instance, by induction on the fuel. *)
Lemma interceptor_writes_ok (base : list StorageOp)
    (client : Request -> Proc Response) (e : AxiosError) (w : World) :
  (forall cfg w0, ext base w0 -> writes_ok base (client cfg w0)) ->
  ext base w ->
  writes_ok base (httpClient.response_error_interceptor client e w).
Proof.
  intros Hc Hw. unfold httpClient.response_error_interceptor.
  destruct (_ && _); [|exact Hw].
  destruct (includes _ _); [exact Hw|].
  proc. apply writes_ok_bind.
  - apply writes_ok_catch.
    + destruct (truthy (localStorage w !! "refreshToken")); simpl; [|exact Hw].
      apply writes_ok_bind; [apply Hc, Hw|].
      intros resp w1 H1.
      destruct (truthy (data_accessToken (response_data resp))); simpl; [|exact H1].
      apply (ext_stored base _ _ _ w1 H1).
    + intros err w1 H1. simpl.
      apply (ext_same base (cleared w1)); [apply ext_cleared, H1|reflexivity].
  - intros [cfg|] w1 H1; [apply Hc, H1|exact H1].
Qed.

Lemma request_writes_ok (fuel : nat) (base : list StorageOp) (cfg : Request)
    (w : World) :
  ext base w -> writes_ok base (httpClient.request fuel cfg w).
Proof.
  revert cfg w. induction fuel as [|n IH]; intros cfg w Hw; [exact Hw|].
  destruct (request_begin n cfg w) as (k & Hk & Hk'). rewrite Hk.
  split; [apply (ext_same base w); [exact Hw|reflexivity]|].
  intros rep w' Hl. rewrite Hk'.
  assert (Hw' : ext base w') by (apply (ext_same base w); [exact Hw|exact Hl]).
  destruct (resolves rep); [exact Hw'|].
  apply interceptor_writes_ok; [exact IH|exact Hw'].
Qed.

Lemma login_writes_ok (fuel : nat) (base : list StorageOp)
    (email password : string) (w : World) :
  ext base w -> writes_ok base (authService.login fuel email password w).
Proof.
  intro Hw. unfold authService.login, httpClient.post. proc.
  apply writes_ok_catch.
  - apply writes_ok_bind; [apply request_writes_ok, Hw|].
    intros resp w1 H1.
    destruct (data_tokens (response_data resp)) as [tk|]; simpl; [|exact H1].
    apply (ext_stored base (Tokens.accessToken tk) (Tokens.refreshToken tk)
             (Int (Tokens.expiresIn tk)) w1 H1).
  - intros err w1 H1. exact H1.
Qed.

Lemma authService_refreshToken_writes_ok (fuel : nat) (base : list StorageOp)
    (w : World) :
  ext base w -> writes_ok base (authService.refreshToken fuel w).
Proof.
  intro Hw. unfold authService.refreshToken, httpClient.post. proc.
  apply writes_ok_catch.
  - destruct (truthy (localStorage w !! "refreshToken")); simpl; [|exact Hw].
    apply writes_ok_bind; [apply request_writes_ok, Hw|].
    intros resp w1 H1.
    destruct (truthy (data_accessToken (response_data resp))); simpl; [|exact H1].
    apply (ext_stored base _ _ _ w1 H1).
  - intros err w1 H1. apply (ext_cleared base w1 H1).
Qed.

Lemma enhancedLogout_writes_ok (fuel : nat) (base : list StorageOp)
    (revokeAll : bool) (w : World) :
  ext base w -> writes_ok base (authService.enhancedLogout fuel revokeAll w).
Proof.
  intro Hw. unfold authService.enhancedLogout, httpClient.delete. proc.
  apply writes_ok_finally.
  - apply writes_ok_catch.
    + destruct revokeAll; simpl;
        (apply writes_ok_bind; [apply request_writes_ok, Hw|]);
        intros resp w1 H1; exact H1.
    + intros err w1 H1. exact H1.
  - intros w1 H1. apply (ext_cleared base w1 H1).
Qed.

Lemma authStore_login_writes_ok (fuel : nat) (base : list StorageOp)
    (email password : string) (w : World) :
  ext base w -> writes_ok base (authStore.login fuel email password w).
Proof.
  intro Hw. unfold authStore.login, authStore.set. proc.
  apply writes_ok_catch.
  - apply writes_ok_bind.
    + apply login_writes_ok. apply (ext_same base w); [exact Hw|].
      simpl. rewrite credential_ops_app. apply app_nil_r.
    + intros resp w1 H1. destruct resp as [| u [tk|] |]; try exact H1.
      simpl. apply (ext_same base w1); [exact H1|].
      simpl. rewrite credential_ops_app. apply app_nil_r.
  - intros err w1 H1. simpl. apply (ext_same base w1); [exact H1|].
    simpl. rewrite credential_ops_app. apply app_nil_r.
Qed.

Lemma performTokenRefresh_writes_ok (fuel : nat) (base : list StorageOp)
    (w : World) :
  ext base w -> writes_ok base (useTokenManager.performTokenRefresh fuel w).
Proof.
  intro Hw.
  unfold useTokenManager.performTokenRefresh, tokenService.refreshAccessToken,
    httpClient.post.
  proc. destruct (isRefreshingRef (refs w)); simpl; [exact Hw|].
  apply writes_ok_finally.
  - apply writes_ok_catch.
    + destruct (truthy (localStorage w !! "refreshToken")); simpl;
        [|apply (ext_same base w); [exact Hw|reflexivity]].
      apply writes_ok_bind.
      * apply writes_ok_bind.
        -- apply request_writes_ok. apply (ext_same base w); [exact Hw|reflexivity].
        -- intros resp w1 H1. exact H1.
      * intros d w1 H1. apply (ext_stored base _ _ _ w1 H1).
    + intros err w1 H1.
      destruct (status_is err 401 || status_is err 403); simpl; [|exact H1].
      apply (ext_logged_out base (exec (toast "Session Expired") w1)).
      apply (ext_same base w1); [exact H1|reflexivity].
  - intros w1 H1. apply (ext_same base w1); [exact H1|reflexivity].
Qed.

(** C7, as stated, fails: in a signed-in session the auth store's
    [refreshToken] action writes the access token and the expiry and not
    the refresh token, so the new access token and expiry are paired
    with the refresh token that was there before. *)
Lemma C7_counterexample :
  exists w',
    authStore.refreshToken demo_world = Done (Returned tt) w'
    /\ credential_ops (storage_log w')
       = [SetItem "accessToken" "mock-jwt-token-1000";
          SetItem "tokenExpiry" "3601000"]
    /\ all_or_nothing (credential_ops (storage_log w')) = false
    /\ ~ written_together (credential_ops (storage_log w'))
    /\ credential_triple demo_world = (Some "a0", Some "r0", Some "5000")
    /\ credential_triple w'
       = (Some "mock-jwt-token-1000", Some "r0", Some "3601000").
Proof.
  eexists. split; [vm_compute; reflexivity|].
  split; [vm_compute; reflexivity|].
  split; [vm_compute; reflexivity|].
  split; [|vm_compute; split; reflexivity].
  intro H. apply written_together_all_or_nothing in H.
  vm_compute in H. discriminate.
Qed.

(** C7, amended.  Every operation that writes the persisted credential
    state, other than the auth store's mock [refreshToken] action, writes
    the access token, the refresh token and the expiry together or not at
    all: [storeTokens], [clearTokens], the login, logout, refresh and
    enhanced logout of authService, every call through the axios instance
    (the response interceptor), the login and logout of the auth store,
    and [performTokenRefresh], from any world and against any answers of
    the network.  This is a statement about the operations on the three
    credential keys: the auth store also persists its own snapshot, under
    another key, at each of its updates.  The mock action writes the
    access token and the expiry only when a refresh token is stored, and
    removes all three otherwise. *)
Theorem C7_three_fields_together (fuel : nat) (w : World) :
  (forall a r e, writes_atomically w (tokenService.storeTokens a r e w))
  /\ writes_atomically w (tokenService.clearTokens w)
  /\ (forall email password,
        writes_atomically w (authService.login fuel email password w))
  /\ writes_atomically w (authService.logout w)
  /\ writes_atomically w (authService.refreshToken fuel w)
  /\ (forall revokeAll,
        writes_atomically w (authService.enhancedLogout fuel revokeAll w))
  /\ (forall cfg, writes_atomically w (httpClient.request fuel cfg w))
  /\ (forall email password,
        writes_atomically w (authStore.login fuel email password w))
  /\ writes_atomically w (authStore.logout w)
  /\ writes_atomically w (useTokenManager.performTokenRefresh fuel w)
  /\ (exists r w',
        authStore.refreshToken w = Done r w'
        /\ credential_ops (storage_log w')
           = (credential_ops (storage_log w)
              ++ if truthy (localStorage w !! "refreshToken")
                 then [SetItem "accessToken"
                         ("mock-jwt-token-" +:+ toString (Int (Date_now w)));
                       SetItem "tokenExpiry"
                         (toString (Int (Date_now w + 3600 * 1000)))]
                 else [RemoveItem "accessToken"; RemoveItem "refreshToken";
                       RemoveItem "tokenExpiry"])%list).
Proof.
  pose proof (ext_refl w) as Hw.
  repeat split.
  - intros a r e. apply writes_ok_run. apply (ext_stored _ a r e w Hw).
  - apply writes_ok_run. apply (ext_cleared _ w Hw).
  - intros email password. apply writes_ok_run, login_writes_ok, Hw.
  - apply writes_ok_run. apply (ext_cleared _ w Hw).
  - apply writes_ok_run, authService_refreshToken_writes_ok, Hw.
  - intro revokeAll. apply writes_ok_run, enhancedLogout_writes_ok, Hw.
  - intro cfg. apply writes_ok_run, request_writes_ok, Hw.
  - intros email password. apply writes_ok_run, authStore_login_writes_ok, Hw.
  - apply writes_ok_run. apply (ext_logged_out _ w Hw).
  - apply writes_ok_run, performTokenRefresh_writes_ok, Hw.
  - unfold authStore.refreshToken, authStore.set. proc.
    destruct (truthy (localStorage w !! "refreshToken")); simpl;
      eexists _, _; (split; [reflexivity|]); simpl;
      rewrite !credential_ops_app, <- !app_assoc; reflexivity.
Qed.


(** * Further properties of the session code *)

(** ** tokenService: the stored expiry *)

Lemma stored_frame (a r : string) (e : number) (w : World) (k : string) :
  credential_key k = false ->
  localStorage (stored a r e w) !! k = localStorage w !! k.
Proof.
  intro Hk. unfold credential_key in Hk.
  apply orb_false_iff in Hk as [Hk H3]. apply orb_false_iff in Hk as [H1 H2].
  apply String.eqb_neq in H1, H2, H3.
  unfold stored, exec, tokenService.storeTokens. proc.
  rewrite !lookup_insert_ne by congruence. reflexivity.
Qed.

Lemma cleared_frame (w : World) (k : string) :
  credential_key k = false ->
  localStorage (cleared w) !! k = localStorage w !! k.
Proof.
  intro Hk. unfold credential_key in Hk.
  apply orb_false_iff in Hk as [Hk H3]. apply orb_false_iff in Hk as [H1 H2].
  apply String.eqb_neq in H1, H2, H3.
  unfold cleared, exec, tokenService.clearTokens. proc.
  rewrite !lookup_delete_ne by congruence. reflexivity.
Qed.

Lemma isTokenExpired_none (w : World) :
  localStorage w !! "tokenExpiry" = None ->
  tokenService.isTokenExpired w = Done (Returned true) w.
Proof.
  intro H. unfold tokenService.isTokenExpired. proc. rewrite H. reflexivity.
Qed.

(** X1.  After [storeTokens(a, r, E)] at time [t0], read at any time [t]
    with storage untouched, [getTimeUntilExpiry] is
    [max(0, t0 + 1000 E - t)] milliseconds, and [isTokenExpired] is true
    exactly when that is 0: the two readers of the stamp agree.  The two
    clock values, [1000 E], the stamp and the difference are safe
    integers. *)
Theorem X1_remaining_time_and_expiry_agree (w : World) (a r : string) (E t : Z) :
  safe_integer (Date_now w) ->
  safe_integer (E * 1000) ->
  safe_integer (Date_now w + E * 1000) ->
  safe_integer t ->
  safe_integer (Date_now w + E * 1000 - t) ->
  let w1 := with_Date_now t (stored a r (Int E) w) in
  let remaining := Z.max 0 (Date_now w + E * 1000 - t) in
  tokenService.getTimeUntilExpiry w1 = Done (Returned (Int remaining)) w1
  /\ tokenService.isTokenExpired w1 = Done (Returned (remaining =? 0)) w1.
Proof.
  intros _ _ _ _ _ w1 remaining.
  assert (Hst : localStorage w1 !! "tokenExpiry"
                = Some (toString (Int (Date_now w + E * 1000))))
    by exact (f_equal snd (stored_triple a r (Int E) w)).
  split.
  - rewrite (getTimeUntilExpiry_stamp _ _ Hst). reflexivity.
  - rewrite (isTokenExpired_stamp _ _ Hst). do 2 f_equal.
    change (Date_now w1) with t. unfold remaining.
    destruct (Z.leb_spec (Date_now w + E * 1000) t);
      symmetry; [apply Z.eqb_eq|apply Z.eqb_neq]; lia.
Qed.

Lemma X1_remaining_time_and_expiry_agree_witness :
  let w1 := with_Date_now 2000000 (stored "a1" "r1" (Int 3600) demo_world) in
  tokenService.getTimeUntilExpiry w1 = Done (Returned (Int 1601000)) w1
  /\ tokenService.isTokenExpired w1 = Done (Returned false) w1.
Proof.
  apply (X1_remaining_time_and_expiry_agree demo_world "a1" "r1" 3600 2000000);
    unfold safe_integer, MAX_SAFE_INTEGER; simpl; lia.
Defined.

(** X2.  A stored expiry that is not empty and that [parseInt] cannot
    read - after leading white space it does not start with a number -
    reads as NaN: the token is reported as not expired, the remaining time
    is NaN, and the refresh timer is armed with the delay NaN. *)
Theorem X2_garbled_expiry_never_expires (w : World) (s : string) :
  localStorage w !! "tokenExpiry" = Some s ->
  truthy (Some s) = true ->
  parseInt s = NaN ->
  tokenService.isTokenExpired w = Done (Returned false) w
  /\ tokenService.getTimeUntilExpiry w = Done (Returned NaN) w
  /\ exists w',
       useTokenManager.scheduleTokenRefresh true w = Done (Returned tt) w'
       /\ timers w' !! next_timer w = Some (mkTimer (RefreshCallback true) NaN).
Proof.
  intros Hs Ht Hp.
  assert (Hg : forall w0, localStorage w0 = localStorage w ->
                 tokenService.getTimeUntilExpiry w0 = Done (Returned NaN) w0).
  { intros w0 Hl. unfold tokenService.getTimeUntilExpiry. proc.
    rewrite Hl, Hs, Ht. simpl. rewrite Hp. reflexivity. }
  split; [|split].
  - unfold tokenService.isTokenExpired. proc. rewrite Hs, Ht. simpl.
    rewrite Hp. reflexivity.
  - apply Hg. reflexivity.
  - rewrite (scheduleTokenRefresh_arms w NaN) by (intros w0 Hl _; apply Hg, Hl).
    eexists; split; [reflexivity|]. apply (armed_timer true NaN w).
Qed.

Lemma X2_garbled_expiry_never_expires_witness :
  let w := with_localStorage (<["tokenExpiry" := "soon"]> (localStorage demo_world))
             [] demo_world in
  tokenService.isTokenExpired w = Done (Returned false) w
  /\ tokenService.getTimeUntilExpiry w = Done (Returned NaN) w
  /\ exists w',
       useTokenManager.scheduleTokenRefresh true w = Done (Returned tt) w'
       /\ timers w' !! next_timer w = Some (mkTimer (RefreshCallback true) NaN).
Proof.
  apply (X2_garbled_expiry_never_expires
           (with_localStorage (<["tokenExpiry" := "soon"]> (localStorage demo_world))
              [] demo_world) "soon"); reflexivity.
Defined.

(** X3.  [clearTokens] removes the three keys and nothing else; it is
    idempotent on storage, and a no-op on storage that holds none of the
    three; afterwards the token counts as expired with no time left. *)
Theorem X3_clearTokens_idempotent (w : World) :
  tokenService.clearTokens w = Done (Returned tt) (cleared w)
  /\ credential_triple (cleared w) = (None, None, None)
  /\ (forall k, credential_key k = false ->
        localStorage (cleared w) !! k = localStorage w !! k)
  /\ localStorage (cleared (cleared w)) = localStorage (cleared w)
  /\ (credential_triple w = (None, None, None) ->
      localStorage (cleared w) = localStorage w)
  /\ tokenService.isTokenExpired (cleared w) = Done (Returned true) (cleared w)
  /\ tokenService.getTimeUntilExpiry (cleared w) = Done (Returned (Int 0)) (cleared w).
Proof.
  pose proof (cleared_triple w) as Hc.
  split; [reflexivity|]. split; [exact Hc|].
  split; [apply cleared_frame|].
  assert (Hnoop : forall w0, credential_triple w0 = (None, None, None) ->
                    localStorage (cleared w0) = localStorage w0).
  { intros w0 H0. unfold credential_triple in H0.
    injection H0 as Ha Hr He.
    unfold cleared, exec, tokenService.clearTokens. proc.
    rewrite (delete_id (localStorage w0) "accessToken") by exact Ha.
    rewrite (delete_id (localStorage w0) "refreshToken") by exact Hr.
    apply delete_id, He. }
  split; [apply Hnoop, cleared_triple|]. split; [apply Hnoop|].
  split.
  - apply isTokenExpired_none. exact (f_equal snd Hc).
  - apply getTimeUntilExpiry_none. exact (f_equal snd Hc).
Qed.

(** X4.  [storeTokens] round trip: the three fields read back are the two
    tokens and a stamp that parses to [now + 1000 E]; no other key of
    storage is touched; a second call overwrites the first (storage is as
    if only the second had been made); and [clearTokens] undoes it.  The
    clock, [1000 E] and the stamps are safe integers. *)
Theorem X4_storeTokens_round_trip (w : World) (a r a' r' : string) (E E' : Z) :
  safe_integer (Date_now w) ->
  safe_integer (E * 1000) -> safe_integer (Date_now w + E * 1000) ->
  safe_integer (E' * 1000) -> safe_integer (Date_now w + E' * 1000) ->
  tokenService.storeTokens a r (Int E) w = Done (Returned tt) (stored a r (Int E) w)
  /\ credential_triple (stored a r (Int E) w)
     = (Some a, Some r, Some (toString (Int (Date_now w + E * 1000))))
  /\ parseInt (toString (Int (Date_now w + E * 1000))) = Int (Date_now w + E * 1000)
  /\ (forall k, credential_key k = false ->
        localStorage (stored a r (Int E) w) !! k = localStorage w !! k)
  /\ localStorage (stored a' r' (Int E') (stored a r (Int E) w))
     = localStorage (stored a' r' (Int E') w)
  /\ credential_triple (cleared (stored a r (Int E) w)) = (None, None, None).
Proof.
  intros _ _ _ _ _.
  split; [reflexivity|]. split; [apply stored_triple|].
  split; [apply parseInt_toString|]. split; [apply stored_frame|].
  split; [|apply cleared_triple].
  unfold stored, exec, tokenService.storeTokens. proc.
  apply map_eq. intro k.
  destruct (decide (k = "tokenExpiry")) as [->|H3];
    [rewrite !lookup_insert_eq; reflexivity|].
  rewrite !(lookup_insert_ne _ "tokenExpiry") by congruence.
  destruct (decide (k = "refreshToken")) as [->|H2];
    [rewrite !lookup_insert_eq; reflexivity|].
  rewrite !(lookup_insert_ne _ "refreshToken") by congruence.
  destruct (decide (k = "accessToken")) as [->|H1];
    [rewrite !lookup_insert_eq; reflexivity|].
  rewrite !(lookup_insert_ne _ "accessToken") by congruence.
  rewrite lookup_insert_ne by congruence.
  rewrite lookup_insert_ne by congruence.
  rewrite lookup_insert_ne by congruence. reflexivity.
Qed.

Lemma X4_storeTokens_round_trip_witness :
  credential_triple (stored "a1" "r1" (Int 3600) demo_world)
  = (Some "a1", Some "r1", Some "3601000")
  /\ parseInt "3601000" = Int 3601000
  /\ localStorage (stored "a2" "r2" (Int 60) (stored "a1" "r1" (Int 3600) demo_world))
     = localStorage (stored "a2" "r2" (Int 60) demo_world).
Proof.
  destruct (X4_storeTokens_round_trip demo_world "a1" "r1" "a2" "r2" 3600 60)
    as (_ & H2 & H3 & _ & H5 & _);
    [unfold safe_integer, MAX_SAFE_INTEGER; simpl; lia ..|].
  split; [exact H2|]. split; [exact H3|exact H5].
Defined.


(** ** httpClient: what a call does on the wire *)

Lemma run_auth_endpoint (n : nat) (cfg : Request) (w : World) (a : NetAnswer)
    (rest : list NetAnswer) :
  includes (url cfg) "/auth/" = true ->
  run (httpClient.request (S n) cfg w) (a :: rest)
  = Finished
      (if resolves (reply a)
       then Returned (mkResponse
                        (match reply a with Answer st _ => st | _ => 0 end)
                        (reply_data (reply a)) (attach_token w cfg))
       else Thrown (AxiosErr (mark_retry (rejection (attach_token w cfg) (reply a)))))
      (after_one_call cfg (elapsed a) w) rest.
Proof.
  intro Hurl. destruct (request_auth_endpoint n cfg w Hurl) as (k & Hk & Hk').
  rewrite Hk. cbn [run]. rewrite Hk'.
  destruct (resolves (reply a)); reflexivity.
Qed.

(** X5.  The token endpoints of tokenService are under [/auth/]: each of
    [validateToken], [revokeAllTokens] and [revokeSession] sends exactly
    one request, with the stored bearer token, and whatever the answer
    (a 401 included) nothing is refreshed, replayed, stored or signalled:
    the world changes by the network log and the clock only, and a
    failure is thrown to the caller. *)
Theorem X5_token_endpoints_single_call (fuel : nat) (w : World) (a : NetAnswer)
    (rest : list NetAnswer) :
  (1 <= fuel)%nat ->
  let validate := mkRequest "get" "/auth/tokens/validate" None NoBody false in
  let revokeAll := mkRequest "delete" "/auth/tokens/revoke-all" None NoBody false in
  let revoke := mkRequest "delete" "/auth/tokens/revoke-session" None NoBody false in
  run (tokenService.validateToken fuel w) (a :: rest)
  = Finished
      (if resolves (reply a) then Returned (reply_data (reply a))
       else Thrown (AxiosErr (mark_retry (rejection (attach_token w validate) (reply a)))))
      (after_one_call validate (elapsed a) w) rest
  /\ run (tokenService.revokeAllTokens fuel w) (a :: rest)
     = Finished
         (if resolves (reply a) then Returned tt
          else Thrown (AxiosErr (mark_retry (rejection (attach_token w revokeAll) (reply a)))))
         (after_one_call revokeAll (elapsed a) w) rest
  /\ run (tokenService.revokeSession fuel w) (a :: rest)
     = Finished
         (if resolves (reply a) then Returned tt
          else Thrown (AxiosErr (mark_retry (rejection (attach_token w revoke) (reply a)))))
         (after_one_call revoke (elapsed a) w) rest
  /\ (forall req dt,
        localStorage (after_one_call req dt w) = localStorage w
        /\ storage_log (after_one_call req dt w) = storage_log w
        /\ window_events (after_one_call req dt w) = window_events w
        /\ store (after_one_call req dt w) = store w
        /\ net_log (after_one_call req dt w) = (net_log w ++ [attach_token w req])%list).
Proof.
  intros Hfuel validate revokeAll revoke. destruct fuel as [|n]; [lia|].
  split; [|split; [|split]].
  - unfold tokenService.validateToken, httpClient.get. proc.
    destruct (request_auth_endpoint n validate w eq_refl) as (k & Hk & Hk').
    fold validate. rewrite Hk. cbn [step_bind run]. rewrite Hk'.
    destruct (resolves (reply a)); reflexivity.
  - unfold tokenService.revokeAllTokens, httpClient.delete. proc.
    destruct (request_auth_endpoint n revokeAll w eq_refl) as (k & Hk & Hk').
    fold revokeAll. rewrite Hk. cbn [step_bind run]. rewrite Hk'.
    destruct (resolves (reply a)); reflexivity.
  - unfold tokenService.revokeSession, httpClient.delete. proc.
    destruct (request_auth_endpoint n revoke w eq_refl) as (k & Hk & Hk').
    fold revoke. rewrite Hk. cbn [step_bind run]. rewrite Hk'.
    destruct (resolves (reply a)); reflexivity.
  - intros req dt. repeat split.
Qed.

Lemma X5_token_endpoints_single_call_witness :
  run (tokenService.validateToken 1 demo_world)
      [mkNetAnswer 5 (Answer 401 (OtherData ""))]
  = Finished
      (Thrown (AxiosErr
                 (mark_retry
                    (rejection
                       (attach_token demo_world
                          (mkRequest "get" "/auth/tokens/validate" None NoBody false))
                       (Answer 401 (OtherData ""))))))
      (after_one_call (mkRequest "get" "/auth/tokens/validate" None NoBody false)
         5 demo_world) [].
Proof.
  exact (proj1 (X5_token_endpoints_single_call 1 demo_world
                  (mkNetAnswer 5 (Answer 401 (OtherData ""))) []
                  ltac:(lia))).
Defined.

Lemma refresh_calls_le_length (l : list Request) :
  (refresh_calls l <= length l)%nat.
Proof. unfold refresh_calls. apply length_filter. Qed.

Lemma refresh_calls_skip (r : Request) (l : list Request) :
  url r <> "/auth/tokens/refresh" -> refresh_calls (r :: l) = refresh_calls l.
Proof.
  intro H. unfold refresh_calls. rewrite filter_cons_False by exact H. reflexivity.
Qed.

(** The run of a call that is answered a first 401/403 with a refresh
    token in storage: the refresh request is on the wire next. *)
Lemma run_first_401 (n : nat) (cfg : Request) (w : World) (a0 : NetAnswer)
    (st0 : Z) (d0 : Data) :
  _retry cfg = false ->
  includes (url cfg) "/auth/" = false ->
  reply a0 = Answer st0 d0 ->
  is_401_403 st0 = true ->
  truthy (localStorage w !! "refreshToken") = true ->
  let e := rejection (attach_token w cfg) (Answer st0 d0) in
  let w1 := after_one_call cfg (elapsed a0) w in
  exists k1,
    (forall s,
       run (httpClient.request (S (S n)) cfg w) (a0 :: s)
       = run (Await (with_net_log (net_log w1 ++ [refresh_request w]) w1)
                    (refresh_request w) k1) s)
    /\ forall rep w',
         k1 rep w'
         = if resolves rep then
             if truthy (data_accessToken (reply_data rep)) then
               httpClient.request (S n)
                 (replay_of (attach_token w cfg)
                    (js_String (data_accessToken (reply_data rep))))
                 (stored_data (reply_data rep) w')
             else Done (Thrown (AxiosErr (mark_retry e))) w'
           else Done (Thrown (AxiosErr (mark_retry e))) (session_expired w').
Proof.
  intros Hretry Hurl Ha0 Hst0 Htok e w1.
  destruct (request_begin (S n) cfg w) as (k & Hk & Hk').
  assert (Hs0 : status_is (AxiosErr e) 401 || status_is (AxiosErr e) 403 = true)
    by exact Hst0.
  assert (Hr0 : _retry (config e) = false)
    by (simpl; rewrite attach_token_retry; exact Hretry).
  assert (Hu0 : includes (url (config e)) "/auth/" = false)
    by (simpl; rewrite attach_token_url; exact Hurl).
  destruct (interceptor_refresh n e w1 Hs0 Hr0 Hu0 Htok) as (k1 & Hk1 & Hk1').
  exists k1. split; [|exact Hk1'].
  intro s. rewrite Hk. cbn [run]. rewrite Hk', Ha0. simpl resolves.
  rewrite (is_401_403_not_2xx _ Hst0). fold e.
  change (tick (elapsed a0) (with_net_log (net_log w ++ [attach_token w cfg]) w))
    with w1.
  rewrite Hk1. reflexivity.
Qed.

Lemma refresh_calls_cons_le (r : Request) (l : list Request) :
  (refresh_calls (r :: l) <= S (refresh_calls l))%nat.
Proof.
  unfold refresh_calls.
  destruct (decide (url r = "/auth/tokens/refresh")) as [H|H].
  - rewrite filter_cons_True by exact H. simpl. lia.
  - rewrite filter_cons_False by exact H. lia.
Qed.

(** X6.  One call of the axios instance, given two units of fuel or more,
    puts at most three requests on the wire - the request itself, which
    always comes first, at most one refresh and at most one replay -
    whatever the server answers and wherever the script of answers ends,
    and it never stops for want of fuel. *)
Theorem X6_bounded_wire_traffic (fuel : nat) (cfg : Request) (w : World)
    (script : list NetAnswer) :
  (2 <= fuel)%nat ->
  exists l,
    net_log (final_world (run (httpClient.request fuel cfg w) script))
    = (net_log w ++ attach_token w cfg :: l)%list
    /\ (length l <= 2)%nat
    /\ (refresh_calls (attach_token w cfg :: l) <= 1)%nat
    /\ forall w' rest,
         run (httpClient.request fuel cfg w) script <> Finished Diverged w' rest.
Proof.
  intro Hfuel. destruct fuel as [|[|n]]; [lia|lia|].
  assert (Hone : (refresh_calls [attach_token w cfg] <= 1)%nat)
    by apply refresh_calls_le_length.
  destruct (request_begin (S n) cfg w) as (k & Hk & Hk').
  rewrite Hk. destruct script as [|a s].
  { exists []. cbn [run final_world]. repeat split; try (simpl; lia); try exact Hone; discriminate. }
  cbn [run]. rewrite Hk'.
  destruct (resolves (reply a)).
  { exists []. cbn [run final_world]. repeat split; try (simpl; lia); try exact Hone; discriminate. }
  set (e := rejection (attach_token w cfg) (reply a)).
  set (w1 := tick (elapsed a) (with_net_log (net_log w ++ [attach_token w cfg]) w)).
  assert (Hlog1 : net_log w1 = (net_log w ++ [attach_token w cfg])%list) by reflexivity.
  destruct (status_is (AxiosErr e) 401 || status_is (AxiosErr e) 403) eqn:Hs.
  2:{ rewrite interceptor_other_status by exact Hs.
      exists []. cbn [run final_world]. repeat split; try (simpl; lia); try exact Hone; discriminate. }
  destruct (_retry (config e)) eqn:Hr.
  { rewrite interceptor_retried by exact Hr.
    exists []. cbn [run final_world]. repeat split; try (simpl; lia); try exact Hone; discriminate. }
  destruct (includes (url (config e)) "/auth/") eqn:Hu.
  { rewrite interceptor_auth_endpoint by exact Hu.
    exists []. cbn [run final_world]. repeat split; try (simpl; lia); try exact Hone; discriminate. }
  assert (Hcfg : url (attach_token w cfg) <> "/auth/tokens/refresh").
  { apply not_refresh_url. destruct (reply a); exact Hu. }
  destruct (truthy (localStorage w1 !! "refreshToken")) eqn:Htok.
  2:{ rewrite (interceptor_no_token _ e w1 Hs Hr Hu Htok).
      exists []. cbn [run final_world]. repeat split; try (simpl; lia); try exact Hone; discriminate. }
  destruct (interceptor_refresh n e w1 Hs Hr Hu Htok) as (k1 & Hk1 & Hk1').
  rewrite Hk1.
  assert (Htwo : (refresh_calls [attach_token w cfg; refresh_request w1] <= 1)%nat).
  { rewrite refresh_calls_skip by exact Hcfg. apply refresh_calls_le_length. }
  destruct s as [|a1 s].
  { exists [refresh_request w1]. cbn [run final_world].
    split; [transitivity ((net_log w ++ [attach_token w cfg]) ++ [refresh_request w1])%list; [reflexivity | rewrite <- !app_assoc; reflexivity]|].
    repeat split; try (simpl; lia); try exact Htwo; discriminate. }
  cbn [run]. rewrite Hk1'.
  destruct (resolves (reply a1)).
  2:{ exists [refresh_request w1]. cbn [run final_world].
      split; [transitivity ((net_log w ++ [attach_token w cfg]) ++ [refresh_request w1])%list; [reflexivity | rewrite <- !app_assoc; reflexivity]|].
      repeat split; try (simpl; lia); try exact Htwo; discriminate. }
  destruct (truthy (data_accessToken (reply_data (reply a1)))).
  2:{ exists [refresh_request w1]. cbn [run final_world].
      split; [transitivity ((net_log w ++ [attach_token w cfg]) ++ [refresh_request w1])%list; [reflexivity | rewrite <- !app_assoc; reflexivity]|].
      repeat split; try (simpl; lia); try exact Htwo; discriminate. }
  match goal with |- context [httpClient.request (S n) ?c ?w3] =>
    destruct (request_retried n c w3 eq_refl) as (k3 & Hk3 & Hk3');
    set (replay := attach_token w3 c) in *
  end.
  rewrite Hk3.
  assert (Hthree : (refresh_calls [attach_token w cfg; refresh_request w1; replay] <= 1)%nat).
  { rewrite refresh_calls_skip by exact Hcfg.
    etransitivity; [apply refresh_calls_cons_le|].
    rewrite refresh_calls_skip; [exact (le_n 1)|].
    unfold replay. rewrite attach_token_url.
    destruct (reply a); exact Hcfg. }
  destruct s as [|a2 s].
  { exists [refresh_request w1; replay]. cbn [run final_world].
    split; [transitivity (((net_log w ++ [attach_token w cfg]) ++ [refresh_request w1]) ++ [replay])%list; [reflexivity | rewrite <- !app_assoc; reflexivity]|].
    repeat split; try (simpl; lia); try exact Hthree; discriminate. }
  cbn [run]. rewrite Hk3'.
  exists [refresh_request w1; replay].
  destruct (resolves (reply a2)); cbn [run final_world];
    (split; [transitivity (((net_log w ++ [attach_token w cfg]) ++ [refresh_request w1]) ++ [replay])%list; [reflexivity | rewrite <- !app_assoc; reflexivity]|]);
    repeat split; try (simpl; lia); try exact Hthree; discriminate.
Qed.

Lemma X6_bounded_wire_traffic_witness :
  exists l,
    net_log (final_world (run (httpClient.request 2 demo_request demo_world)
                            [mkNetAnswer 1 (Answer 401 (OtherData ""))]))
    = (net_log demo_world ++ attach_token demo_world demo_request :: l)%list
    /\ (length l <= 2)%nat
    /\ (refresh_calls (attach_token demo_world demo_request :: l) <= 1)%nat
    /\ forall w' rest,
         run (httpClient.request 2 demo_request demo_world)
             [mkNetAnswer 1 (Answer 401 (OtherData ""))]
         <> Finished Diverged w' rest.
Proof.
  apply (X6_bounded_wire_traffic 2 demo_request demo_world
           [mkNetAnswer 1 (Answer 401 (OtherData ""))]).
  lia.
Defined.

(** X7.  A request that resolves, or fails with anything but 401/403 (a
    404, a 500, a timeout, a network error), takes one round trip: the
    response is returned, or the error is thrown to the caller exactly as
    axios built it, and nothing is refreshed, replayed, stored, removed or
    signalled. *)
Theorem X7_other_failures_pass_through (fuel : nat) (cfg : Request) (w : World)
    (a : NetAnswer) (rest : list NetAnswer) :
  (1 <= fuel)%nat ->
  is_401_403 (match reply a with Answer st _ => st | NoAnswer _ _ => 0 end) = false ->
  let w1 := after_one_call cfg (elapsed a) w in
  run (httpClient.request fuel cfg w) (a :: rest)
  = Finished
      (if resolves (reply a)
       then Returned (mkResponse
                        (match reply a with Answer st _ => st | NoAnswer _ _ => 0 end)
                        (reply_data (reply a)) (attach_token w cfg))
       else Thrown (AxiosErr (rejection (attach_token w cfg) (reply a))))
      w1 rest
  /\ sent w w1 = [attach_token w cfg]
  /\ localStorage w1 = localStorage w
  /\ storage_log w1 = storage_log w
  /\ window_events w1 = window_events w
  /\ store w1 = store w.
Proof.
  intros Hfuel Hst w1. destruct fuel as [|n]; [lia|].
  split.
  - destruct (request_begin n cfg w) as (k & Hk & Hk').
    rewrite Hk. cbn [run]. rewrite Hk'.
    destruct (resolves (reply a)); [reflexivity|].
    rewrite interceptor_other_status; [reflexivity|].
    destruct (reply a) as [st d|c m]; [exact Hst|reflexivity].
  - split; [|repeat split].
    unfold sent, w1, after_one_call. simpl.
    rewrite drop_app_length. reflexivity.
Qed.

Lemma X7_other_failures_pass_through_witness :
  run (httpClient.request 1 demo_request demo_world)
      [mkNetAnswer 3 (NoAnswer "ECONNABORTED" "timeout of 10000ms exceeded")]
  = Finished
      (Thrown (AxiosErr (rejection (attach_token demo_world demo_request)
                           (NoAnswer "ECONNABORTED" "timeout of 10000ms exceeded"))))
      (after_one_call demo_request 3 demo_world) [].
Proof.
  exact (proj1 (X7_other_failures_pass_through 1 demo_request demo_world
                  (mkNetAnswer 3 (NoAnswer "ECONNABORTED" "timeout of 10000ms exceeded"))
                  [] ltac:(lia) eq_refl)).
Defined.

(** X8.  The refresh endpoint answers 2xx with a body that is not null
    and has no access token, or an empty one: the interceptor neither
    stores nor removes anything, dispatches no event and does not replay;
    the caller gets the original 401/403, and the stale credentials stay
    in storage.  (On a null body the property read itself throws, inside
    the [try]: bodies are not null here.) *)
Theorem X8_refresh_without_access_token (fuel : nat) (cfg : Request) (w : World)
    (a0 a1 : NetAnswer) (st0 : Z) (d0 : Data) (rest : list NetAnswer) :
  (2 <= fuel)%nat ->
  _retry cfg = false ->
  includes (url cfg) "/auth/" = false ->
  reply a0 = Answer st0 d0 -> is_401_403 st0 = true ->
  truthy (localStorage w !! "refreshToken") = true ->
  resolves (reply a1) = true ->
  truthy (data_accessToken (reply_data (reply a1))) = false ->
  exists e w2,
    run (httpClient.request fuel cfg w) (a0 :: a1 :: rest)
    = Finished (Thrown (AxiosErr e)) w2 rest
    /\ response_status e = Some st0
    /\ config e = set_retry true (attach_token w cfg)
    /\ sent w w2 = [attach_token w cfg; refresh_request w]
    /\ localStorage w2 = localStorage w
    /\ storage_log w2 = storage_log w
    /\ window_events w2 = window_events w
    /\ store w2 = store w.
Proof.
  intros Hfuel Hretry Hurl Ha0 Hst0 Htok Hres1 Hacc.
  destruct fuel as [|[|n]]; [lia|lia|].
  destruct (run_first_401 n cfg w a0 st0 d0 Hretry Hurl Ha0 Hst0 Htok)
    as (k1 & Hrun & Hk1).
  rewrite Hrun. cbn [run]. rewrite Hk1, Hres1, Hacc. cbn [run].
  eexists _, _. split; [reflexivity|].
  split; [unfold mark_retry; rewrite status_is_rejection_answer, Hst0; simpl;
          rewrite attach_token_retry, Hretry; reflexivity|].
  split; [unfold mark_retry; rewrite status_is_rejection_answer, Hst0; simpl;
          rewrite attach_token_retry, Hretry; reflexivity|].
  split; [|repeat split].
  unfold sent, after_one_call. simpl. rewrite <- app_assoc.
  rewrite drop_app_length. reflexivity.
Qed.

Lemma X8_refresh_without_access_token_witness :
  exists e w2,
    run (httpClient.request 2 demo_request demo_world)
        [mkNetAnswer 1 (Answer 401 (OtherData ""));
         mkNetAnswer 1 (Answer 200 (OtherData "{}"))]
    = Finished (Thrown (AxiosErr e)) w2 []
    /\ response_status e = Some 401
    /\ config e = set_retry true (attach_token demo_world demo_request)
    /\ sent demo_world w2
       = [attach_token demo_world demo_request; refresh_request demo_world]
    /\ localStorage w2 = localStorage demo_world
    /\ storage_log w2 = storage_log demo_world
    /\ window_events w2 = window_events demo_world
    /\ store w2 = store demo_world.
Proof.
  apply (X8_refresh_without_access_token 2 demo_request demo_world
           (mkNetAnswer 1 (Answer 401 (OtherData "")))
           (mkNetAnswer 1 (Answer 200 (OtherData "{}"))) 401 (OtherData "") []);
    try reflexivity; lia.
Defined.

(** The run of a call whose first answer is 401/403 and whose refresh
    succeeds: the replay decides. *)
Lemma request_refreshed_run (fuel : nat) (cfg : Request) (w : World)
    (a0 a1 a2 : NetAnswer) (st0 st1 : Z) (d0 : Data) (t : Tokens.t)
    (rest : list NetAnswer) :
  (2 <= fuel)%nat ->
  _retry cfg = false ->
  includes (url cfg) "/auth/" = false ->
  reply a0 = Answer st0 d0 -> is_401_403 st0 = true ->
  truthy (localStorage w !! "refreshToken") = true ->
  reply a1 = Answer st1 (TokenData t) -> is_2xx st1 = true ->
  truthy (Some (Tokens.accessToken t)) = true ->
  let replay := replay_of (attach_token w cfg) (Tokens.accessToken t) in
  let arrival := Date_now w + Z.of_N (elapsed a0) + Z.of_N (elapsed a1) in
  exists w3,
    run (httpClient.request fuel cfg w) (a0 :: a1 :: a2 :: rest)
    = Finished
        (if resolves (reply a2)
         then Returned (mkResponse
                          (match reply a2 with Answer st _ => st | NoAnswer _ _ => 0 end)
                          (reply_data (reply a2)) replay)
         else Thrown (AxiosErr (rejection replay (reply a2))))
        w3 rest
    /\ credential_triple w3
       = (Some (Tokens.accessToken t), Some (Tokens.refreshToken t),
          Some (toString (Int (arrival + Tokens.expiresIn t * 1000))))
    /\ sent w w3 = [attach_token w cfg; refresh_request w; replay]
    /\ window_events w3 = window_events w
    /\ store w3 = store w.
Proof.
  intros Hfuel Hretry Hurl Ha0 Hst0 Htok Ha1 Hst1 Hacc replay arrival.
  destruct fuel as [|[|n]]; [lia|lia|].
  destruct (run_first_401 n cfg w a0 st0 d0 Hretry Hurl Ha0 Hst0 Htok)
    as (k1 & Hrun & Hk1).
  set (w1 := after_one_call cfg (elapsed a0) w) in *.
  set (w2 := tick (elapsed a1)
               (with_net_log (net_log w1 ++ [refresh_request w]) w1)).
  destruct (request_retried n
              (replay_of (attach_token w cfg) (js_String (Some (Tokens.accessToken t))))
              (stored_data (TokenData t) w2) eq_refl) as (k2 & Hk2 & Hk2').
  assert (Hreplay : attach_token (stored_data (TokenData t) w2)
                      (replay_of (attach_token w cfg)
                         (js_String (Some (Tokens.accessToken t))))
                    = replay)
    by (unfold stored_data; simpl; rewrite attach_token_stored by exact Hacc;
        reflexivity).
  rewrite Hreplay in Hk2, Hk2'.
  rewrite Hrun. cbn [run]. rewrite Hk1, Ha1. simpl resolves. rewrite Hst1.
  simpl reply_data. simpl data_accessToken. rewrite Hacc.
  fold w2. rewrite Hk2. cbn [run]. rewrite Hk2'.
  eexists. split; [destruct (resolves (reply a2)); reflexivity|].
  split; [|split; [|split; reflexivity]].
  - etransitivity;
      [apply (stored_triple (Tokens.accessToken t) (Tokens.refreshToken t)
                (Int (Tokens.expiresIn t)))|].
    reflexivity.
  - unfold sent.
    transitivity (drop (length (net_log w))
                    (net_log w ++ [attach_token w cfg; refresh_request w; replay]));
      [|rewrite drop_app_length; reflexivity].
    f_equal.
    transitivity (((net_log w ++ [attach_token w cfg]) ++ [refresh_request w])
                  ++ [replay])%list;
      [reflexivity | rewrite <- !app_assoc; reflexivity].
Qed.

(** X9.  After the interceptor has refreshed the tokens, the outcome of
    the replay is the outcome of the call, whatever it is: a response is
    returned, and any failure of the replay - a second 401 included - is
    thrown as it is.  The replay's failure is not a refresh failure: the
    refreshed triple stays in storage, with the expiry stamped at the
    arrival of the refresh response, and no session-expired event is
    dispatched. *)
Theorem X9_replay_outcome_is_final (fuel : nat) (cfg : Request) (w : World)
    (a0 a1 a2 : NetAnswer) (st0 st1 : Z) (d0 : Data) (t : Tokens.t)
    (rest : list NetAnswer) :
  (2 <= fuel)%nat ->
  _retry cfg = false ->
  includes (url cfg) "/auth/" = false ->
  reply a0 = Answer st0 d0 -> is_401_403 st0 = true ->
  truthy (localStorage w !! "refreshToken") = true ->
  reply a1 = Answer st1 (TokenData t) -> is_2xx st1 = true ->
  truthy (Some (Tokens.accessToken t)) = true ->
  let replay := replay_of (attach_token w cfg) (Tokens.accessToken t) in
  let arrival := Date_now w + Z.of_N (elapsed a0) + Z.of_N (elapsed a1) in
  exists w3,
    run (httpClient.request fuel cfg w) (a0 :: a1 :: a2 :: rest)
    = Finished
        (if resolves (reply a2)
         then Returned (mkResponse
                          (match reply a2 with Answer st _ => st | NoAnswer _ _ => 0 end)
                          (reply_data (reply a2)) replay)
         else Thrown (AxiosErr (rejection replay (reply a2))))
        w3 rest
    /\ credential_triple w3
       = (Some (Tokens.accessToken t), Some (Tokens.refreshToken t),
          Some (toString (Int (arrival + Tokens.expiresIn t * 1000))))
    /\ sent w w3 = [attach_token w cfg; refresh_request w; replay]
    /\ window_events w3 = window_events w
    /\ store w3 = store w.
Proof.
  intros Hfuel Hretry Hurl Ha0 Hst0 Htok Ha1 Hst1 Hacc.
  exact (request_refreshed_run fuel cfg w a0 a1 a2 st0 st1 d0 t rest
           Hfuel Hretry Hurl Ha0 Hst0 Htok Ha1 Hst1 Hacc).
Qed.

Lemma X9_replay_outcome_is_final_witness :
  exists w3,
    run (httpClient.request 2 demo_request demo_world)
        [mkNetAnswer 1 (Answer 401 (OtherData ""));
         mkNetAnswer 1 (Answer 200 demo_tokens);
         mkNetAnswer 1 (Answer 500 (OtherData ""))]
    = Finished
        (Thrown (AxiosErr
                   (rejection (replay_of (attach_token demo_world demo_request) "a1")
                      (Answer 500 (OtherData "")))))
        w3 []
    /\ credential_triple w3 = (Some "a1", Some "r1", Some "3601002")
    /\ sent demo_world w3
       = [attach_token demo_world demo_request; refresh_request demo_world;
          replay_of (attach_token demo_world demo_request) "a1"]
    /\ window_events w3 = window_events demo_world
    /\ store w3 = store demo_world.
Proof.
  apply (X9_replay_outcome_is_final 2 demo_request demo_world
           (mkNetAnswer 1 (Answer 401 (OtherData "")))
           (mkNetAnswer 1 (Answer 200 demo_tokens))
           (mkNetAnswer 1 (Answer 500 (OtherData "")))
           401 200 (OtherData "") (Tokens.mk "a1" "r1" 3600) []);
    try reflexivity; lia.
Defined.

(** X10.  Session expiry, end to end.  A request outside [/auth/] is
    answered 401/403 and the refresh cannot be had: no refresh token is
    stored, or the refresh request does not resolve (any status outside
    2xx, a timeout, a network error).  Then the three stored fields are
    removed, exactly one [auth:session-expired] event is dispatched, the
    auth store is not touched by the interceptor, and the caller gets the
    original error, flagged as retried.  The listener that TokenManager
    registers for the event then shows one toast and signs the store out,
    after which ProtectedRoute redirects to the login page, remembering
    the location. *)
Theorem X10_session_expiry_end_to_end (fuel : nat) (cfg : Request) (w : World)
    (a0 a1 : NetAnswer) (st0 : Z) (d0 : Data) (rest : list NetAnswer)
    (location : string) :
  (2 <= fuel)%nat ->
  _retry cfg = false ->
  includes (url cfg) "/auth/" = false ->
  reply a0 = Answer st0 d0 -> is_401_403 st0 = true ->
  resolves (reply a1) = false ->
  let script :=
    if truthy (localStorage w !! "refreshToken")
    then a0 :: a1 :: rest else a0 :: rest in
  exists e w',
    run (httpClient.request fuel cfg w) script = Finished (Thrown (AxiosErr e)) w' rest
    /\ response_status e = Some st0
    /\ config e = set_retry true (attach_token w cfg)
    /\ credential_triple w' = (None, None, None)
    /\ window_events w' = (window_events w ++ ["auth:session-expired"])%list
    /\ store w' = store w
    /\ let w'' := exec TokenManager.handleSessionExpired w' in
       store w'' = authStore.logged_out
       /\ toasts w'' = (toasts w ++ ["Session Expired"])%list
       /\ credential_triple w'' = (None, None, None)
       /\ ProtectedRoute.render None location w''
          = Done (Returned (ProtectedRoute.Navigate "/login" location true)) w''.
Proof.
  intros Hfuel Hretry Hurl Ha0 Hst0 Hres1 script.
  destruct fuel as [|[|n]]; [lia|lia|].
  assert (Hcfg : forall e', e' = mark_retry (rejection (attach_token w cfg) (Answer st0 d0)) ->
                 response_status e' = Some st0
                 /\ config e' = set_retry true (attach_token w cfg)).
  { intros e' ->. unfold mark_retry.
    rewrite status_is_rejection_answer, Hst0. simpl.
    rewrite attach_token_retry, Hretry. split; reflexivity. }
  assert (Hend : forall w0,
            store w0 = store w -> toasts w0 = toasts w ->
            window_events w0 = window_events w ->
            credential_triple (session_expired w0) = (None, None, None)
            /\ window_events (session_expired w0)
               = (window_events w ++ ["auth:session-expired"])%list
            /\ store (session_expired w0) = store w
            /\ let w'' := exec TokenManager.handleSessionExpired (session_expired w0) in
               store w'' = authStore.logged_out
               /\ toasts w'' = (toasts w ++ ["Session Expired"])%list
               /\ credential_triple w'' = (None, None, None)
               /\ ProtectedRoute.render None location w''
                  = Done (Returned (ProtectedRoute.Navigate "/login" location true)) w'').
  { intros w0 Hs Ht He.
    split; [apply session_expired_triple|].
    split; [simpl; rewrite He; reflexivity|].
    split; [exact Hs|].
    intro w''. split; [reflexivity|].
    split; [unfold w''; simpl; rewrite Ht; reflexivity|].
    split; [|reflexivity].
    apply (logged_out_triple
             (exec (toast "Session Expired") (session_expired w0))). }
  unfold script. clear script.
  destruct (truthy (localStorage w !! "refreshToken")) eqn:Htok.
  - destruct (run_first_401 n cfg w a0 st0 d0 Hretry Hurl Ha0 Hst0 Htok)
      as (k1 & Hrun & Hk1).
    rewrite Hrun. cbn [run]. rewrite Hk1, Hres1. cbn [run].
    eexists _, _. split; [reflexivity|].
    destruct (Hcfg _ eq_refl) as [H1 H2].
    split; [exact H1|]. split; [exact H2|].
    apply Hend; reflexivity.
  - destruct (request_begin (S n) cfg w) as (k & Hk & Hk').
    rewrite Hk. cbn [run]. rewrite Hk', Ha0. simpl resolves.
    rewrite (is_401_403_not_2xx _ Hst0).
    rewrite (interceptor_no_token _ _
               (tick (elapsed a0) (with_net_log (net_log w ++ [attach_token w cfg]) w)));
      [|exact Hst0
       |simpl; rewrite attach_token_retry; exact Hretry
       |simpl; rewrite attach_token_url; exact Hurl
       |exact Htok].
    cbn [run].
    eexists _, _. split; [reflexivity|].
    destruct (Hcfg _ eq_refl) as [H1 H2].
    split; [exact H1|]. split; [exact H2|].
    apply Hend; reflexivity.
Qed.

Lemma X10_session_expiry_end_to_end_witness :
  exists e w',
    run (httpClient.request 2 demo_request demo_world)
        [mkNetAnswer 1 (Answer 401 (OtherData ""));
         mkNetAnswer 1 (NoAnswer "ERR_NETWORK" "Network Error")]
    = Finished (Thrown (AxiosErr e)) w' []
    /\ response_status e = Some 401
    /\ config e = set_retry true (attach_token demo_world demo_request)
    /\ credential_triple w' = (None, None, None)
    /\ window_events w' = (window_events demo_world ++ ["auth:session-expired"])%list
    /\ store w' = store demo_world
    /\ let w'' := exec TokenManager.handleSessionExpired w' in
       store w'' = authStore.logged_out
       /\ toasts w'' = (toasts demo_world ++ ["Session Expired"])%list
       /\ credential_triple w'' = (None, None, None)
       /\ ProtectedRoute.render None "/users" w''
          = Done (Returned (ProtectedRoute.Navigate "/login" "/users" true)) w''.
Proof.
  apply (X10_session_expiry_end_to_end 2 demo_request demo_world
           (mkNetAnswer 1 (Answer 401 (OtherData "")))
           (mkNetAnswer 1 (NoAnswer "ERR_NETWORK" "Network Error"))
           401 (OtherData "") [] "/users");
    try reflexivity; lia.
Defined.

(** ** authService *)

Lemma login_error_message_mark_retry (e : AxiosError) :
  authService.login_error_message (AxiosErr (mark_retry e))
  = authService.login_error_message (AxiosErr e).
Proof. unfold mark_retry. destruct (_ && _); reflexivity. Qed.

(** The run of [authService.login] against one answer. *)
Lemma login_run (n : nat) (email password : string) (w : World) (a : NetAnswer)
    (rest : list NetAnswer) :
  let cfg := mkRequest "post" "/auth/login" None (LoginBody email password) false in
  let w1 := after_one_call cfg (elapsed a) w in
  run (authService.login (S n) email password w) (a :: rest)
  = if resolves (reply a) then
      Finished (Returned (reply_data (reply a)))
        (match data_tokens (reply_data (reply a)) with
         | Some t => stored (Tokens.accessToken t) (Tokens.refreshToken t)
                            (Int (Tokens.expiresIn t)) w1
         | None => w1
         end) rest
    else
      Finished (Thrown (PlainErr (authService.login_error_message
                                    (AxiosErr (rejection (attach_token w cfg) (reply a))))))
               w1 rest.
Proof.
  intros cfg w1.
  unfold authService.login, httpClient.post. proc. fold cfg.
  destruct (request_auth_endpoint n cfg w eq_refl) as (k & Hk & Hk').
  rewrite Hk. cbn [step_bind step_catch run]. rewrite Hk'.
  destruct (resolves (reply a)).
  - simpl. destruct (data_tokens (reply_data (reply a))); reflexivity.
  - simpl. rewrite login_error_message_mark_retry. reflexivity.
Qed.

(** X11.  A login answered 2xx with a body that is not null.  If the body
    has tokens, the three fields are stored - the expiry stamped at the
    arrival of the response - and the body is returned; if it has none,
    the body is returned and nothing is stored.  Either way one request is
    sent, to [/auth/login], carrying the credentials.  (On a null body the
    read of [tokens] throws and the login fails: bodies are not null
    here.) *)
Theorem X11_login_stores_what_the_server_sent (fuel : nat) (email password : string)
    (w : World) (a : NetAnswer) (rest : list NetAnswer) :
  (1 <= fuel)%nat ->
  resolves (reply a) = true ->
  let cfg := mkRequest "post" "/auth/login" None (LoginBody email password) false in
  exists w',
    run (authService.login fuel email password w) (a :: rest)
    = Finished (Returned (reply_data (reply a))) w' rest
    /\ sent w w' = [attach_token w cfg]
    /\ match data_tokens (reply_data (reply a)) with
       | Some t =>
           credential_triple w'
           = (Some (Tokens.accessToken t), Some (Tokens.refreshToken t),
              Some (toString (Int (Date_now w + Z.of_N (elapsed a)
                                   + Tokens.expiresIn t * 1000))))
       | None =>
           localStorage w' = localStorage w /\ storage_log w' = storage_log w
       end.
Proof.
  intros Hfuel Hres cfg. destruct fuel as [|n]; [lia|].
  rewrite login_run, Hres. eexists. split; [reflexivity|].
  assert (Hsent : sent w (after_one_call cfg (elapsed a) w) = [attach_token w cfg])
    by (unfold sent, after_one_call; simpl; rewrite drop_app_length; reflexivity).
  destruct (data_tokens (reply_data (reply a))) as [t|].
  - split; [exact Hsent|].
    apply (stored_triple (Tokens.accessToken t) (Tokens.refreshToken t)
             (Int (Tokens.expiresIn t)) (after_one_call cfg (elapsed a) w)).
  - split; [exact Hsent|]. split; reflexivity.
Qed.

Lemma X11_login_stores_what_the_server_sent_witness :
  exists w',
    run (authService.login 1 "admin@example.com" "secret" demo_world_no_refresh_token)
        [mkNetAnswer 7 (Answer 200 (LoginData "admin" (Some (Tokens.mk "a1" "r1" 3600))))]
    = Finished (Returned (LoginData "admin" (Some (Tokens.mk "a1" "r1" 3600)))) w' []
    /\ sent demo_world_no_refresh_token w'
       = [attach_token demo_world_no_refresh_token
            (mkRequest "post" "/auth/login" None
               (LoginBody "admin@example.com" "secret") false)]
    /\ credential_triple w' = (Some "a1", Some "r1", Some "3601007").
Proof.
  exact (X11_login_stores_what_the_server_sent 1 "admin@example.com" "secret"
           demo_world_no_refresh_token
           (mkNetAnswer 7 (Answer 200 (LoginData "admin" (Some (Tokens.mk "a1" "r1" 3600)))))
           [] ltac:(lia) eq_refl).
Defined.

(** X12.  A login that fails takes one round trip and leaves storage,
    events and the auth store alone; a 401 from the login endpoint starts
    no token refresh.  The caller gets a plain Error, not the AxiosError:
    its message depends on the status (401, 422, 500 and above), then on
    axios' code (time-out, network error), and is otherwise axios' own
    message, or ["Login failed"] when that is empty. *)
Theorem X12_login_failure_message (fuel : nat) (email password : string)
    (w : World) (a : NetAnswer) (rest : list NetAnswer) :
  (1 <= fuel)%nat ->
  resolves (reply a) = false ->
  let cfg := mkRequest "post" "/auth/login" None (LoginBody email password) false in
  let w1 := after_one_call cfg (elapsed a) w in
  let msg :=
    match reply a with
    | Answer st _ =>
        if st =? 401 then "Invalid email or password"
        else if st =? 422 then "Invalid request format"
        else if 500 <=? st then "Server error. Please try again later."
        else "Request failed with status code " +:+ toString (Int st)
    | NoAnswer c m =>
        if String.eqb c "ECONNABORTED"
        then "Request timeout. Please check your connection."
        else if String.eqb c "ERR_NETWORK"
        then "Network error. Please check CORS settings on the server."
        else if String.eqb m "" then "Login failed" else m
    end in
  run (authService.login fuel email password w) (a :: rest)
  = Finished (Thrown (PlainErr msg)) w1 rest
  /\ sent w w1 = [attach_token w cfg]
  /\ localStorage w1 = localStorage w
  /\ storage_log w1 = storage_log w
  /\ window_events w1 = window_events w
  /\ store w1 = store w.
Proof.
  intros Hfuel Hres cfg w1 msg. destruct fuel as [|n]; [lia|].
  split; [|split; [|repeat split]].
  2:{ unfold sent, w1, after_one_call. simpl. rewrite drop_app_length. reflexivity. }
  rewrite login_run, Hres. fold cfg. fold w1. do 3 f_equal.
  unfold msg, authService.login_error_message, status_is.
  destruct (reply a) as [st d|c m]; simpl.
  - destruct (st =? 401); [reflexivity|].
    destruct (st =? 422); [reflexivity|].
    destruct (500 <=? st); [reflexivity|].
    assert (Hc : forall x, x = httpClient.bad_status_code st ->
                 bool_decide (x = Some "ECONNABORTED") = false
                 /\ bool_decide (x = Some "ERR_NETWORK") = false).
    { intros x ->. unfold httpClient.bad_status_code.
      destruct (st / 100 =? 4); [split; reflexivity|].
      destruct (st / 100 =? 5); split; reflexivity. }
    destruct (Hc _ eq_refl) as [-> ->]. reflexivity.
  - destruct (String.eqb_spec c "ECONNABORTED") as [->|Hc1]; [reflexivity|].
    rewrite bool_decide_eq_false_2 by congruence.
    destruct (String.eqb_spec c "ERR_NETWORK") as [->|Hc2]; [reflexivity|].
    rewrite bool_decide_eq_false_2 by congruence.
    destruct m; reflexivity.
Qed.

Lemma X12_login_failure_message_witness :
  run (authService.login 1 "admin@example.com" "wrong" demo_world)
      [mkNetAnswer 2 (Answer 403 (OtherData ""))]
  = Finished (Thrown (PlainErr "Request failed with status code 403"))
      (after_one_call
         (mkRequest "post" "/auth/login" None
            (LoginBody "admin@example.com" "wrong") false) 2 demo_world) [].
Proof.
  exact (proj1 (X12_login_failure_message 1 "admin@example.com" "wrong" demo_world
                  (mkNetAnswer 2 (Answer 403 (OtherData ""))) []
                  ltac:(lia) eq_refl)).
Defined.

(** X13.  [enhancedLogout] never throws and always ends with the three
    stored fields removed, whatever the server says to the revocation:
    one DELETE is sent, to [revoke-all] or to [revoke-session], carrying
    the bearer token that is about to be removed.  The removal waits for
    the answer: as long as the revocation is pending the credentials are
    still in storage. *)
Theorem X13_enhancedLogout_always_clears (fuel : nat) (revokeAll : bool)
    (w : World) (a : NetAnswer) (rest : list NetAnswer) :
  (1 <= fuel)%nat ->
  let cfg :=
    mkRequest "delete"
      (if revokeAll then "/auth/tokens/revoke-all" else "/auth/tokens/revoke-session")
      None NoBody false in
  let w1 := after_one_call cfg (elapsed a) w in
  run (authService.enhancedLogout fuel revokeAll w) (a :: rest)
  = Finished (Returned tt) (cleared w1) rest
  /\ credential_triple (cleared w1) = (None, None, None)
  /\ sent w (cleared w1) = [attach_token w cfg]
  /\ window_events (cleared w1) = window_events w
  /\ store (cleared w1) = store w
  /\ exists w0,
       run (authService.enhancedLogout fuel revokeAll w) [] = Pending w0 (attach_token w cfg)
       /\ localStorage w0 = localStorage w.
Proof.
  intros Hfuel cfg w1. destruct fuel as [|n]; [lia|].
  assert (Hrun : forall s,
            run (authService.enhancedLogout (S n) revokeAll w) s
            = match s with
              | [] => Pending (with_net_log (net_log w ++ [attach_token w cfg]) w)
                        (attach_token w cfg)
              | a' :: s' =>
                  Finished (Returned tt) (cleared (after_one_call cfg (elapsed a') w)) s'
              end).
  { intro s. unfold authService.enhancedLogout, httpClient.delete. proc.
    unfold cfg. destruct revokeAll; simpl.
    - destruct (request_auth_endpoint n
                  (mkRequest "delete" "/auth/tokens/revoke-all" None NoBody false)
                  w eq_refl) as (k & Hk & Hk').
      rewrite Hk. cbn [step_bind step_catch step_finally run].
      destruct s as [|a' s']; [reflexivity|].
      rewrite Hk'. destruct (resolves (reply a')); reflexivity.
    - destruct (request_auth_endpoint n
                  (mkRequest "delete" "/auth/tokens/revoke-session" None NoBody false)
                  w eq_refl) as (k & Hk & Hk').
      rewrite Hk. cbn [step_bind step_catch step_finally run].
      destruct s as [|a' s']; [reflexivity|].
      rewrite Hk'. destruct (resolves (reply a')); reflexivity. }
  split; [exact (Hrun (a :: rest))|].
  split; [apply cleared_triple|].
  split; [unfold sent, w1, after_one_call; simpl; rewrite drop_app_length; reflexivity|].
  split; [reflexivity|]. split; [reflexivity|].
  eexists. split; [exact (Hrun [])|reflexivity].
Qed.

Lemma X13_enhancedLogout_always_clears_witness :
  run (authService.enhancedLogout 1 true demo_world)
      [mkNetAnswer 4 (Answer 500 (OtherData ""))]
  = Finished (Returned tt)
      (cleared (after_one_call
                  (mkRequest "delete" "/auth/tokens/revoke-all" None NoBody false)
                  4 demo_world)) [].
Proof.
  exact (proj1 (X13_enhancedLogout_always_clears 1 true demo_world
                  (mkNetAnswer 4 (Answer 500 (OtherData ""))) [] ltac:(lia))).
Defined.

(** X14.  [authService.refreshToken] never throws, and a token it returns
    is the access token it has just stored.  Against any script of
    answers: when it returns a token, that token is non-empty and is the
    stored access token; when it returns null, either the three fields
    are gone or nothing in storage has changed; and while it waits for the
    refresh endpoint nothing in storage has changed. *)
Theorem X14_refreshToken_returns_what_it_stored (fuel : nat) (w : World)
    (script : list NetAnswer) :
  (1 <= fuel)%nat ->
  match run (authService.refreshToken fuel w) script with
  | Finished (Returned (Some tok)) w' _ =>
      truthy (Some tok) = true
      /\ localStorage w' !! "accessToken" = Some tok
      /\ sent w w' = [refresh_request w]
  | Finished (Returned None) w' _ =>
      credential_triple w' = (None, None, None)
      \/ localStorage w' = localStorage w
  | Finished _ _ _ => False
  | Pending w' req =>
      req = refresh_request w /\ localStorage w' = localStorage w
  end.
Proof.
  intro Hfuel. destruct fuel as [|n]; [lia|].
  destruct (truthy (localStorage w !! "refreshToken")) eqn:Htok.
  - destruct (authService_refreshToken_begin n w Htok) as (k & Hk & Hk').
    rewrite Hk. destruct script as [|a rest]; cbn [run]; [split; reflexivity|].
    rewrite Hk'. destruct (resolves (reply a)); cbn [run].
    + destruct (data_accessToken (reply_data (reply a))) as [tok|] eqn:Hacc.
      * destruct (truthy (Some tok)) eqn:Ht; cbn [run]; [|right; reflexivity].
        split; [exact Ht|]. split.
        -- unfold stored_data. rewrite Hacc.
           match goal with |- localStorage (stored ?x ?y ?z ?w0) !! _ = _ =>
             exact (f_equal (fun p => fst (fst p)) (stored_triple x y z w0))
           end.
        -- unfold sent. simpl. rewrite drop_app_length. reflexivity.
      * cbn [truthy run]. right; reflexivity.
    + left. apply cleared_triple.
  - unfold authService.refreshToken. proc. rewrite Htok. simpl.
    left. apply (cleared_triple w).
Qed.

Lemma X14_refreshToken_returns_what_it_stored_witness :
  match run (authService.refreshToken 1 demo_world)
          [mkNetAnswer 1 (Answer 200 demo_tokens)] with
  | Finished (Returned (Some tok)) w' _ =>
      truthy (Some tok) = true
      /\ localStorage w' !! "accessToken" = Some tok
      /\ sent demo_world w' = [refresh_request demo_world]
  | Finished (Returned None) w' _ =>
      credential_triple w' = (None, None, None)
      \/ localStorage w' = localStorage demo_world
  | Finished _ _ _ => False
  | Pending w' req =>
      req = refresh_request demo_world /\ localStorage w' = localStorage demo_world
  end.
Proof.
  apply (X14_refreshToken_returns_what_it_stored 1 demo_world
           [mkNetAnswer 1 (Answer 200 demo_tokens)]).
  lia.
Defined.

(** ** authStore *)

(** A [set] of the auth store leaves the three credential fields, and so
    the bearer token of a request, as they were. *)
Lemma set_triple (f : AuthState -> AuthState) (w : World) :
  credential_triple (exec (authStore.set f) w) = credential_triple w.
Proof.
  unfold credential_triple, exec, authStore.set. proc.
  rewrite !lookup_insert_ne by done. reflexivity.
Qed.

Lemma attach_token_set (f : AuthState -> AuthState) (w : World) (cfg : Request) :
  attach_token (exec (authStore.set f) w) cfg = attach_token w cfg.
Proof.
  unfold attach_token, exec, authStore.set. proc.
  rewrite !lookup_insert_ne by done. reflexivity.
Qed.

(** The auth store's [login] while the request is on the wire, and how it
    finishes. *)
Lemma authStore_login_begin (n : nat) (email password : string) (w : World) :
  let cfg := mkRequest "post" "/auth/login" None (LoginBody email password) false in
  let loading :=
    exec (authStore.set
            (fun s => {| user := user s; token := token s;
                         isAuthenticated := isAuthenticated s;
                         loadingState := LOADING; error := None |})) w in
  exists k,
    authStore.login (S n) email password w
    = Await (with_net_log (net_log w ++ [attach_token w cfg]) loading)
            (attach_token w cfg) k
    /\ forall rep w',
         k rep w'
         = if resolves rep then
             match reply_data rep with
             | LoginData u (Some t) =>
                 Done (Returned tt)
                   (exec (authStore.set
                            (fun _ => {| user := Some u;
                                         token := Some (Tokens.accessToken t);
                                         isAuthenticated := true;
                                         loadingState := SUCCESS; error := None |}))
                      (stored (Tokens.accessToken t) (Tokens.refreshToken t)
                              (Int (Tokens.expiresIn t)) w'))
             | _ =>
                 Done (Thrown (PlainErr "Cannot read properties of undefined"))
                   (exec (authStore.set
                            (fun _ => {| user := None; token := None;
                                         isAuthenticated := false;
                                         loadingState := ERROR;
                                         error := Some "Cannot read properties of undefined" |}))
                      w')
             end
           else
             let msg := authService.login_error_message
                          (AxiosErr (rejection (attach_token w cfg) rep)) in
             Done (Thrown (PlainErr msg))
               (exec (authStore.set
                        (fun _ => {| user := None; token := None;
                                     isAuthenticated := false;
                                     loadingState := ERROR; error := Some msg |}))
                  w').
Proof.
  intros cfg loading.
  pose proof (attach_token_set
                (fun s => {| user := user s; token := token s;
                             isAuthenticated := isAuthenticated s;
                             loadingState := LOADING; error := None |}) w cfg) as Hat.
  fold loading in Hat.
  destruct (request_auth_endpoint n cfg loading eq_refl) as (k & Hk & Hk').
  rewrite Hat in Hk, Hk'.
  assert (Hlogin : authStore.login (S n) email password w
                   = step_catch
                       (step_bind (authService.login (S n) email password loading)
                          (fun response : Data =>
                             match response with
                             | LoginData apiUser (Some tokens) =>
                                 authStore.set
                                   (fun _ => {| user := Some apiUser;
                                                token := Some (Tokens.accessToken tokens);
                                                isAuthenticated := true;
                                                loadingState := SUCCESS;
                                                error := None |})
                             | _ => throw (PlainErr "Cannot read properties of undefined")
                             end))
                       (fun error =>
                          bind (authStore.set
                                  (fun _ => {| user := None; token := None;
                                               isAuthenticated := false;
                                               loadingState := ERROR;
                                               error := Some (error_message error) |}))
                               (fun _ => throw error)))
    by reflexivity.
  rewrite Hlogin.
  assert (Hsvc : authService.login (S n) email password loading
                 = step_catch
                     (step_bind (httpClient.request (S n) cfg loading)
                        (fun response : Response =>
                           match data_tokens (response_data response) with
                           | Some tokens =>
                               fun w0 =>
                                 Done (Returned (response_data response))
                                   (stored (Tokens.accessToken tokens)
                                      (Tokens.refreshToken tokens)
                                      (Int (Tokens.expiresIn tokens)) w0)
                           | None => fun w0 => Done (Returned (response_data response)) w0
                           end))
                     (fun error =>
                        throw (PlainErr (authService.login_error_message error)))).
  { reflexivity. }
  rewrite Hsvc, Hk. cbn [step_bind step_catch].
  eexists. split; [reflexivity|].
  intros rep w'. cbn beta. rewrite Hk'.
  destruct (resolves rep).
  - cbn [step_bind step_catch].
    destruct (reply_data rep) as [t|u [t|]|p]; reflexivity.
  - cbn [step_bind step_catch throw]. rewrite login_error_message_mark_retry.
    reflexivity.
Qed.

(** X15.  Signing in and out through the auth store.  While the login
    request is on the wire the store is LOADING, with the error cleared
    and the authentication flag as it was.  When the server accepts the
    login with a user and tokens, the store is authenticated, its token is
    the access token now in storage, and ProtectedRoute renders its
    children.  A logout after that leaves the store in its initial state
    and no credential in storage, and ProtectedRoute redirects to the
    login page. *)
Theorem X15_store_login_then_logout (fuel : nat) (email password : string)
    (w : World) (a : NetAnswer) (st : Z) (u : string) (t : Tokens.t)
    (rest : list NetAnswer) (location : string) :
  (1 <= fuel)%nat ->
  reply a = Answer st (LoginData u (Some t)) -> is_2xx st = true ->
  (exists w0 req,
     run (authStore.login fuel email password w) [] = Pending w0 req
     /\ loadingState (store w0) = LOADING
     /\ error (store w0) = None
     /\ isAuthenticated (store w0) = isAuthenticated (store w)
     /\ credential_triple w0 = credential_triple w)
  /\ exists w1,
       run (authStore.login fuel email password w) (a :: rest)
       = Finished (Returned tt) w1 rest
       /\ store w1 = {| user := Some u; token := Some (Tokens.accessToken t);
                        isAuthenticated := true; loadingState := SUCCESS;
                        error := None |}
       /\ localStorage w1 !! "accessToken" = token (store w1)
       /\ localStorage w1 !! "refreshToken" = Some (Tokens.refreshToken t)
       /\ ProtectedRoute.render None location w1 = Done (Returned ProtectedRoute.Children) w1
       /\ store (logged_out w1) = authStore.logged_out
       /\ credential_triple (logged_out w1) = (None, None, None)
       /\ ProtectedRoute.render None location (logged_out w1)
          = Done (Returned (ProtectedRoute.Navigate "/login" location true))
                 (logged_out w1).
Proof.
  intros Hfuel Ha Hst. destruct fuel as [|n]; [lia|].
  destruct (authStore_login_begin n email password w) as (k & Hk & Hk').
  rewrite Hk. split.
  - cbn [run]. eexists _, _. split; [reflexivity|].
    split; [reflexivity|]. split; [reflexivity|]. split; [reflexivity|].
    etransitivity; [|apply set_triple]. reflexivity.
  - cbn [run]. rewrite Hk', Ha. simpl resolves. rewrite Hst. simpl reply_data.
    cbn [run]. eexists. split; [reflexivity|].
    split; [reflexivity|].
    match goal with |- context [exec (authStore.set ?f) (stored ?x ?y ?z ?w0)] =>
      pose proof (stored_triple x y z w0) as Htr;
      pose proof (set_triple f (stored x y z w0)) as Hset
    end.
    rewrite <- Hset in Htr.
    split; [exact (f_equal (fun p => fst (fst p)) Htr)|].
    split; [exact (f_equal (fun p => snd (fst p)) Htr)|].
    split; [reflexivity|].
    split; [reflexivity|].
    split; [apply logged_out_triple|reflexivity].
Qed.

Lemma X15_store_login_then_logout_witness :
  exists w1,
    run (authStore.login 1 "admin@example.com" "secret" demo_world_no_refresh_token)
        [mkNetAnswer 7 (Answer 200 (LoginData "admin" (Some (Tokens.mk "a1" "r1" 3600))))]
    = Finished (Returned tt) w1 []
    /\ store w1 = {| user := Some "admin"; token := Some "a1";
                     isAuthenticated := true; loadingState := SUCCESS;
                     error := None |}
    /\ localStorage w1 !! "accessToken" = token (store w1)
    /\ localStorage w1 !! "refreshToken" = Some "r1"
    /\ ProtectedRoute.render None "/users" w1
       = Done (Returned ProtectedRoute.Children) w1
    /\ store (logged_out w1) = authStore.logged_out
    /\ credential_triple (logged_out w1) = (None, None, None)
    /\ ProtectedRoute.render None "/users" (logged_out w1)
       = Done (Returned (ProtectedRoute.Navigate "/login" "/users" true))
              (logged_out w1).
Proof.
  exact (proj2 (X15_store_login_then_logout 1 "admin@example.com" "secret"
                  demo_world_no_refresh_token
                  (mkNetAnswer 7 (Answer 200 (LoginData "admin"
                                                (Some (Tokens.mk "a1" "r1" 3600)))))
                  200 "admin" (Tokens.mk "a1" "r1" 3600) [] "/users"
                  ltac:(lia) eq_refl eq_refl)).
Defined.

(** X16.  When the login request fails, or is answered 2xx with a body
    that carries no tokens, the auth store's [login] throws and leaves the
    store signed out, in the ERROR state, with the thrown error's message
    as its error - for a request that failed, the message
    [authService.login] chose.  It does not remove credentials: what was
    in storage before the attempt is still there.  (A body with tokens is
    another matter: [authService.login] stores them before the store looks
    at the user.) *)
Theorem X16_store_login_failure (fuel : nat) (email password : string)
    (w : World) (a : NetAnswer) (rest : list NetAnswer) :
  (1 <= fuel)%nat ->
  resolves (reply a) = false \/ data_tokens (reply_data (reply a)) = None ->
  let cfg := mkRequest "post" "/auth/login" None (LoginBody email password) false in
  exists msg w1,
    run (authStore.login fuel email password w) (a :: rest)
    = Finished (Thrown (PlainErr msg)) w1 rest
    /\ store w1 = {| user := None; token := None; isAuthenticated := false;
                     loadingState := ERROR; error := Some msg |}
    /\ (resolves (reply a) = false ->
        msg = authService.login_error_message
                (AxiosErr (rejection (attach_token w cfg) (reply a))))
    /\ credential_triple w1 = credential_triple w
    /\ sent w w1 = [attach_token w cfg].
Proof.
  intros Hfuel Hno cfg. destruct fuel as [|n]; [lia|].
  destruct (authStore_login_begin n email password w) as (k & Hk & Hk').
  rewrite Hk. cbn [run]. rewrite Hk'.
  set (w0 := tick (elapsed a)
               (with_net_log (net_log w ++ [attach_token w cfg])
                  (exec (authStore.set
                           (fun s => {| user := user s; token := token s;
                                        isAuthenticated := isAuthenticated s;
                                        loadingState := LOADING; error := None |}))
                     w))).
  assert (Hend : forall f,
            credential_triple (exec (authStore.set f) w0) = credential_triple w
            /\ sent w (exec (authStore.set f) w0) = [attach_token w cfg]).
  { intro f. split.
    - rewrite set_triple. apply (set_triple _ w).
    - unfold sent. simpl. rewrite drop_app_length. reflexivity. }
  destruct (resolves (reply a)) eqn:Hres.
  - destruct Hno as [Hno|Hno]; [discriminate Hno|].
    destruct (reply_data (reply a)) as [t|u [t|]|p] eqn:Hd;
      try discriminate Hno;
      (eexists _, _; split; [reflexivity|];
       split; [reflexivity|]; split; [discriminate|]; apply Hend).
  - eexists _, _. split; [reflexivity|].
    split; [reflexivity|]. split; [reflexivity|]. apply Hend.
Qed.

Lemma X16_store_login_failure_witness :
  exists msg w1,
    run (authStore.login 1 "admin@example.com" "wrong" demo_world)
        [mkNetAnswer 2 (Answer 401 (OtherData ""))]
    = Finished (Thrown (PlainErr msg)) w1 []
    /\ store w1 = {| user := None; token := None; isAuthenticated := false;
                     loadingState := ERROR; error := Some msg |}
    /\ (resolves (Answer 401 (OtherData "")) = false ->
        msg = authService.login_error_message
                (AxiosErr (rejection
                             (attach_token demo_world
                                (mkRequest "post" "/auth/login" None
                                   (LoginBody "admin@example.com" "wrong") false))
                             (Answer 401 (OtherData "")))))
    /\ credential_triple w1 = credential_triple demo_world
    /\ sent demo_world w1
       = [attach_token demo_world
            (mkRequest "post" "/auth/login" None
               (LoginBody "admin@example.com" "wrong") false)].
Proof.
  apply (X16_store_login_failure 1 "admin@example.com" "wrong" demo_world
           (mkNetAnswer 2 (Answer 401 (OtherData ""))) []).
  - lia.
  - left. reflexivity.
Defined.


(** ** useTokenManager: the timers *)

Section Always.

Variable P : World -> Prop.
Hypothesis P_view : forall w w', timer_view w' = timer_view w -> P w -> P w'.

Lemma always_bind {A B : Type} (s : Step A) (f : A -> Proc B) :
  always P s ->
  (forall a w, P w -> always P (f a w)) ->
  always P (step_bind s f).
Proof.
  intros Hs Hf. induction s as [r w | w req k IH]; simpl in *.
  - destruct r; [apply Hf; exact Hs | exact Hs | exact Hs].
  - destruct Hs as [Hw Hk]. split; [exact Hw|].
    intros rep w' Hl. apply IH, Hk, Hl.
Qed.

Lemma always_catch {A : Type} (s : Step A) (h : JsError -> Proc A) :
  always P s ->
  (forall e w, P w -> always P (h e w)) ->
  always P (step_catch s h).
Proof.
  intros Hs Hh. induction s as [r w | w req k IH]; simpl in *.
  - destruct r; [exact Hs | apply Hh; exact Hs | exact Hs].
  - destruct Hs as [Hw Hk]. split; [exact Hw|].
    intros rep w' Hl. apply IH, Hk, Hl.
Qed.

Lemma always_finally {A : Type} (s : Step A) (f : World -> World) :
  always P s ->
  (forall w, P w -> P (f w)) ->
  always P (step_finally s f).
Proof.
  intros Hs Hf. induction s as [r w | w req k IH]; simpl in *.
  - apply Hf, Hs.
  - destruct Hs as [Hw Hk]. split; [exact Hw|].
    intros rep w' Hl. apply IH, Hk, Hl.
Qed.

Lemma always_run {A : Type} (s : Step A) (script : list NetAnswer) :
  (forall dt w, P w -> P (tick dt w)) ->
  always P s -> P (final_world (run s script)).
Proof.
  intros Ht Hs. revert script.
  induction s as [r w0 | w0 req k IH]; intro script; simpl in *.
  - exact Hs.
  - destruct Hs as [Hw Hk]. destruct script as [|a rest]; [exact Hw|].
    apply IH, Hk, Ht, Hw.
Qed.

Lemma interceptor_always (client : Request -> Proc Response) (e : AxiosError)
    (w : World) :
  (forall cfg w0, P w0 -> always P (client cfg w0)) ->
  P w ->
  always P (httpClient.response_error_interceptor client e w).
Proof.
  intros Hc Hw. unfold httpClient.response_error_interceptor.
  destruct (_ && _); [|exact Hw].
  destruct (includes _ _); [exact Hw|].
  proc. apply always_bind.
  - apply always_catch.
    + destruct (truthy (localStorage w !! "refreshToken")); simpl; [|exact Hw].
      apply always_bind; [apply Hc, Hw|].
      intros resp w1 H1.
      destruct (truthy (data_accessToken (response_data resp))); simpl; [|exact H1].
      apply (P_view w1); [reflexivity|exact H1].
    + intros err w1 H1. simpl. apply (P_view w1); [reflexivity|exact H1].
  - intros [cfg|] w1 H1; [apply Hc, H1|exact H1].
Qed.

Lemma request_always (fuel : nat) (cfg : Request) (w : World) :
  P w -> always P (httpClient.request fuel cfg w).
Proof.
  revert cfg w. induction fuel as [|n IH]; intros cfg w Hw; [exact Hw|].
  destruct (request_begin n cfg w) as (k & Hk & Hk'). rewrite Hk.
  split; [apply (P_view w); [reflexivity|exact Hw]|].
  intros rep w' Hw'. rewrite Hk'.
  destruct (resolves rep); [exact Hw'|].
  apply interceptor_always; [exact IH|exact Hw'].
Qed.

Lemma performTokenRefresh_always (fuel : nat) (w : World) :
  P w -> always P (useTokenManager.performTokenRefresh fuel w).
Proof.
  intro Hw.
  unfold useTokenManager.performTokenRefresh, tokenService.refreshAccessToken,
    httpClient.post.
  proc. destruct (isRefreshingRef (refs w)); simpl; [exact Hw|].
  apply always_finally.
  - apply always_catch.
    + destruct (truthy (localStorage w !! "refreshToken")); simpl;
        [|apply (P_view w); [reflexivity|exact Hw]].
      apply always_bind.
      * apply always_bind.
        -- apply request_always. apply (P_view w); [reflexivity|exact Hw].
        -- intros resp w1 H1. exact H1.
      * intros d w1 H1. apply (P_view w1); [reflexivity|exact H1].
    + intros err w1 H1.
      destruct (status_is err 401 || status_is err 403); simpl; [|exact H1].
      apply (P_view w1); [reflexivity|exact H1].
  - intros w1 H1. apply (P_view w1); [reflexivity|exact H1].
Qed.

End Always.

Lemma timers_tracked_view (w w' : World) :
  timer_view w' = timer_view w -> timers_tracked w -> timers_tracked w'.
Proof.
  unfold timer_view, timers_tracked. intros Hv Ht id tm H.
  injection Hv as Hti Hn Hr Hi. rewrite Hti in H. rewrite Hn, Hr, Hi.
  apply Ht, H.
Qed.

Lemma getTimeUntilExpiry_reads (w : World) :
  exists d, forall w0,
    localStorage w0 = localStorage w -> Date_now w0 = Date_now w ->
    tokenService.getTimeUntilExpiry w0 = Done (Returned d) w0.
Proof.
  destruct (truthy (localStorage w !! "tokenExpiry")) eqn:He.
  - eexists. intros w0 Hl Hn. unfold tokenService.getTimeUntilExpiry. proc.
    rewrite Hl, He. simpl. rewrite Hn. reflexivity.
  - eexists. intros w0 Hl Hn. unfold tokenService.getTimeUntilExpiry. proc.
    rewrite Hl, He. reflexivity.
Qed.

Lemma isTokenExpired_reads (w : World) :
  exists b, tokenService.isTokenExpired w = Done (Returned b) w.
Proof.
  unfold tokenService.isTokenExpired. proc.
  destruct (truthy (localStorage w !! "tokenExpiry")); eexists; reflexivity.
Qed.

(** Cancelling the timer a ref points to keeps the timers tracked. *)
Lemma tracked_clear_if_set (ref : option positive) (w : World) :
  timers_tracked w -> timers_tracked (exec (useTokenManager.clear_if_set ref) w).
Proof.
  intros Ht. destruct ref as [old|]; [|exact Ht].
  intros id tm H. simpl in H.
  destruct (decide (id = old)) as [->|Hne];
    [rewrite lookup_delete_eq in H; discriminate|].
  rewrite lookup_delete_ne in H by congruence. exact (Ht id tm H).
Qed.

Lemma tracked_active (w : World) : timers_tracked w -> timers_tracked (active w).
Proof.
  intros Ht id tm H.
  unfold active, exec, useTokenManager.updateActivity in *. revert H. proc.
  unfold setTimeout. rewrite clear_if_set_eq. proc.
  destruct (inactivityTimeoutRef (refs w)) as [old|] eqn:Hold; simpl; intro H.
  - destruct (decide (id = next_timer w)) as [->|Hne].
    + rewrite lookup_insert_eq in H. injection H as <-.
      split; [apply Pos.lt_succ_diag_r|reflexivity].
    + rewrite lookup_insert_ne in H by congruence.
      destruct (decide (id = old)) as [->|Hne'];
        [rewrite lookup_delete_eq in H; discriminate|].
      rewrite lookup_delete_ne in H by congruence.
      destruct (Ht id tm H) as [Hlt Hk].
      split; [apply Pos.lt_lt_succ, Hlt|].
      destruct (callback tm); [exact Hk|congruence].
  - destruct (decide (id = next_timer w)) as [->|Hne].
    + rewrite lookup_insert_eq in H. injection H as <-.
      split; [apply Pos.lt_succ_diag_r|reflexivity].
    + rewrite lookup_insert_ne in H by congruence.
      destruct (Ht id tm H) as [Hlt Hk].
      split; [apply Pos.lt_lt_succ, Hlt|].
      destruct (callback tm); [exact Hk|congruence].
Qed.

Lemma tracked_armed (captured : bool) (d : number) (w : World) :
  timers_tracked w -> timers_tracked (armed captured d w).
Proof.
  intros Ht id tm H. unfold armed in *.
  destruct (refreshTimeoutRef (refs w)) as [old|] eqn:Hold; simpl in *.
  - destruct (decide (id = next_timer w)) as [->|Hne].
    + rewrite lookup_insert_eq in H. injection H as <-.
      split; [apply Pos.lt_succ_diag_r|reflexivity].
    + rewrite lookup_insert_ne in H by congruence.
      destruct (decide (id = old)) as [->|Hne'];
        [rewrite lookup_delete_eq in H; discriminate|].
      rewrite lookup_delete_ne in H by congruence.
      destruct (Ht id tm H) as [Hlt Hk].
      split; [apply Pos.lt_lt_succ, Hlt|].
      destruct (callback tm); [congruence|exact Hk].
  - destruct (decide (id = next_timer w)) as [->|Hne].
    + rewrite lookup_insert_eq in H. injection H as <-.
      split; [apply Pos.lt_succ_diag_r|reflexivity].
    + rewrite lookup_insert_ne in H by congruence.
      destruct (Ht id tm H) as [Hlt Hk].
      split; [apply Pos.lt_lt_succ, Hlt|].
      destruct (callback tm); [congruence|exact Hk].
Qed.

Lemma scheduleTokenRefresh_false (w : World) :
  useTokenManager.scheduleTokenRefresh false w
  = Done (Returned tt)
         (exec (useTokenManager.clear_if_set (refreshTimeoutRef (refs w))) w).
Proof.
  unfold useTokenManager.scheduleTokenRefresh. proc.
  rewrite clear_if_set_eq. reflexivity.
Qed.

Lemma tracked_schedule (b : bool) (w : World) :
  timers_tracked w ->
  exists w',
    useTokenManager.scheduleTokenRefresh b w = Done (Returned tt) w'
    /\ timers_tracked w'.
Proof.
  intro Ht. destruct b.
  - destruct (getTimeUntilExpiry_reads w) as (d & Hd).
    rewrite (scheduleTokenRefresh_arms w d Hd).
    eexists. split; [reflexivity|]. apply tracked_armed, Ht.
  - rewrite scheduleTokenRefresh_false.
    eexists. split; [reflexivity|]. apply tracked_clear_if_set, Ht.
Qed.

Lemma effect_cleanup_eq (w : World) :
  useTokenManager.effect_cleanup w
  = Done (Returned tt)
      (exec (useTokenManager.clear_if_set (inactivityTimeoutRef (refs w)))
         (exec (useTokenManager.clear_if_set (refreshTimeoutRef (refs w))) w)).
Proof.
  unfold useTokenManager.effect_cleanup. proc.
  rewrite clear_if_set_eq. proc.
  destruct (refreshTimeoutRef (refs w)); simpl; rewrite clear_if_set_eq; reflexivity.
Qed.

Lemma updateActivity_eq (w : World) :
  useTokenManager.updateActivity w = Done (Returned tt) (active w).
Proof.
  unfold active, exec, useTokenManager.updateActivity. proc.
  destruct (inactivityTimeoutRef (refs w)); reflexivity.
Qed.

Lemma handleActivity_false (fuel : nat) (w : World) :
  useTokenManager.handleActivity fuel false w = Done (Returned tt) (active w).
Proof.
  unfold useTokenManager.handleActivity.
  unfold mbind at 1, Proc_bind at 1, bind at 1.
  rewrite updateActivity_eq. reflexivity.
Qed.

Lemma handleActivity_true (fuel : nat) (w : World) :
  useTokenManager.handleActivity fuel true w
  = step_bind (tokenService.isTokenExpired (active w))
      (fun expired : bool =>
         if expired then
           fun w1 =>
             step_bind (useTokenManager.performTokenRefresh fuel w1)
               (fun refreshed : bool =>
                  if refreshed then useTokenManager.scheduleTokenRefresh true
                  else fun w2 => Done (Returned tt) w2)
         else fun w1 => Done (Returned tt) w1).
Proof.
  unfold useTokenManager.handleActivity.
  unfold mbind at 1, Proc_bind at 1, bind at 1.
  rewrite updateActivity_eq. reflexivity.
Qed.

Lemma effect_true (w : World) :
  useTokenManager.effect true w
  = useTokenManager.scheduleTokenRefresh true (active w).
Proof.
  transitivity (step_bind (useTokenManager.updateActivity w)
                  (fun _ => useTokenManager.scheduleTokenRefresh true));
    [reflexivity|].
  rewrite updateActivity_eq. reflexivity.
Qed.

(** X17.  The hook's timers never pile up.  Call the timers tracked when
    every pending timer is the one the ref of its kind points to.  Then at
    most one refresh timer and at most one inactivity timer are pending,
    and every operation of the hook keeps it so: [updateActivity],
    [scheduleTokenRefresh] and the effect at once; [handleActivity] and
    the firing of a timer, which wait for the refresh endpoint, at every
    point where they pause and where they finish, for any answer and
    whatever else runs in between that keeps the timers tracked. *)
Theorem X17_timers_stay_tracked (fuel : nat) (b : bool) (w : World) :
  timers_tracked w ->
  (forall id1 id2 tm1 tm2,
     timers w !! id1 = Some tm1 -> timers w !! id2 = Some tm2 ->
     match callback tm1, callback tm2 with
     | RefreshCallback _, RefreshCallback _ => id1 = id2
     | InactivityCallback, InactivityCallback => id1 = id2
     | _, _ => True
     end)
  /\ timers_tracked (active w)
  /\ (exists w',
        useTokenManager.scheduleTokenRefresh b w = Done (Returned tt) w'
        /\ timers_tracked w')
  /\ (exists w',
        useTokenManager.effect b w = Done (Returned tt) w' /\ timers_tracked w')
  /\ always timers_tracked (useTokenManager.handleActivity fuel b w)
  /\ forall id, always timers_tracked (fire_timer fuel id w).
Proof.
  intro Ht. split; [|split; [|split; [|split; [|split]]]].
  - intros id1 id2 tm1 tm2 H1 H2.
    destruct (Ht id1 tm1 H1) as [_ K1]. destruct (Ht id2 tm2 H2) as [_ K2].
    destruct (callback tm1), (callback tm2); try exact I; congruence.
  - apply tracked_active, Ht.
  - apply tracked_schedule, Ht.
  - destruct b.
    + destruct (tracked_schedule true (active w) (tracked_active w Ht))
        as (w' & Hw' & Ht').
      exists w'. split; [|exact Ht'].
      rewrite effect_true. exact Hw'.
    + change (useTokenManager.effect false w) with (useTokenManager.effect_cleanup w).
      rewrite effect_cleanup_eq. eexists. split; [reflexivity|].
      apply tracked_clear_if_set, tracked_clear_if_set, Ht.
  - destruct b; [|rewrite handleActivity_false; apply tracked_active, Ht].
    rewrite handleActivity_true.
    destruct (isTokenExpired_reads (active w)) as (e & He).
    rewrite He. cbn [step_bind].
    destruct e; [|apply tracked_active, Ht].
    apply (always_bind timers_tracked).
    + apply (performTokenRefresh_always timers_tracked timers_tracked_view).
      apply tracked_active, Ht.
    + intros r w2 H2. destruct r; [|exact H2].
      destruct (tracked_schedule true w2 H2) as (w' & Hw' & Ht').
      rewrite Hw'. exact Ht'.
  - intro id. unfold fire_timer. proc.
    destruct (timers w !! id) as [tm|] eqn:Hid; simpl; [|exact Ht].
    assert (Hdel : timers_tracked
                     (with_timers (delete id (timers w)) (next_timer w) w)).
    { intros id' tm' H'. simpl in H'.
      destruct (decide (id' = id)) as [->|Hne];
        [rewrite lookup_delete_eq in H'; discriminate|].
      rewrite lookup_delete_ne in H' by congruence. exact (Ht id' tm' H'). }
    destruct (callback tm) as [captured|]; [|exact Hdel].
    unfold useTokenManager.refresh_timer_fired.
    apply (always_bind timers_tracked);
      [apply (performTokenRefresh_always timers_tracked timers_tracked_view), Hdel|].
    intros r w2 H2.
    destruct (tracked_schedule captured w2 H2) as (w' & Hw' & Ht').
    rewrite Hw'. exact Ht'.
Qed.

Lemma X17_timers_stay_tracked_witness :
  timers_tracked (active demo_world)
  /\ always timers_tracked (useTokenManager.handleActivity 2 true demo_world).
Proof.
  assert (H : timers_tracked demo_world)
    by (intros id tm H; vm_compute in H; discriminate H).
  split.
  - exact (proj1 (proj2 (X17_timers_stay_tracked 2 true demo_world H))).
  - exact (proj1 (proj2 (proj2 (proj2 (proj2
             (X17_timers_stay_tracked 2 true demo_world H)))))).
Defined.

(** X18.  With the timers tracked, the clean-up of the hook's effect, and
    the effect of a render that is not authenticated, leave no timer
    pending at all; they touch nothing but the timers. *)
Theorem X18_cleanup_cancels_every_timer (w : World) :
  timers_tracked w ->
  exists w',
    useTokenManager.effect_cleanup w = Done (Returned tt) w'
    /\ useTokenManager.effect false w = Done (Returned tt) w'
    /\ timers w' = ∅
    /\ localStorage w' = localStorage w
    /\ store w' = store w
    /\ net_log w' = net_log w
    /\ refs w' = refs w.
Proof.
  intro Ht. eexists. split; [apply effect_cleanup_eq|].
  split; [apply effect_cleanup_eq|].
  split.
  - apply map_eq. intro id. rewrite lookup_empty.
    destruct (refreshTimeoutRef (refs w)) as [r|] eqn:Hr;
      destruct (inactivityTimeoutRef (refs w)) as [i|] eqn:Hi;
      unfold exec; proc; rewrite ?Hi; proc.
    + destruct (decide (id = i)) as [->|Hni]; [apply lookup_delete_eq|].
      rewrite lookup_delete_ne by congruence.
      destruct (decide (id = r)) as [->|Hnr]; [apply lookup_delete_eq|].
      rewrite lookup_delete_ne by congruence.
      destruct (timers w !! id) as [tm|] eqn:Hid; [|reflexivity].
      destruct (Ht id tm Hid) as [_ K]. destruct (callback tm); congruence.
    + destruct (decide (id = r)) as [->|Hnr]; [apply lookup_delete_eq|].
      rewrite lookup_delete_ne by congruence.
      destruct (timers w !! id) as [tm|] eqn:Hid; [|reflexivity].
      destruct (Ht id tm Hid) as [_ K]. destruct (callback tm); congruence.
    + destruct (decide (id = i)) as [->|Hni]; [apply lookup_delete_eq|].
      rewrite lookup_delete_ne by congruence.
      destruct (timers w !! id) as [tm|] eqn:Hid; [|reflexivity].
      destruct (Ht id tm Hid) as [_ K]. destruct (callback tm); congruence.
    + destruct (timers w !! id) as [tm|] eqn:Hid; [|reflexivity].
      destruct (Ht id tm Hid) as [_ K]. destruct (callback tm); congruence.
  - destruct (refreshTimeoutRef (refs w)), (inactivityTimeoutRef (refs w));
      repeat split.
Qed.

Lemma X18_cleanup_cancels_every_timer_witness :
  exists w',
    useTokenManager.effect_cleanup (exec (useTokenManager.effect true) demo_world)
    = Done (Returned tt) w'
    /\ timers w' = ∅.
Proof.
  assert (H : timers_tracked (exec (useTokenManager.effect true) demo_world)).
  { intros id tm H.
    destruct (decide (id = 1%positive)) as [->|H1];
      [vm_compute in H; injection H as <-; split; reflexivity|].
    destruct (decide (id = 2%positive)) as [->|H2];
      [vm_compute in H; injection H as <-; split; reflexivity|].
    exfalso. revert H.
    change (timers (exec (useTokenManager.effect true) demo_world))
      with (<[2%positive := mkTimer (RefreshCallback true) (Int 0)]>
              (<[1%positive := mkTimer InactivityCallback
                                 (Int useTokenManager.INACTIVITY_TIMEOUT)]>
                 (∅ : gmap positive Timer))).
    rewrite lookup_insert_ne by congruence.
    rewrite lookup_insert_ne by congruence.
    rewrite lookup_empty. discriminate. }
  destruct (X18_cleanup_cancels_every_timer _ H) as (w' & H1 & _ & H3 & _).
  exists w'. split; [exact H1|exact H3].
Defined.

Lemma active_frame (w : World) :
  localStorage (active w) = localStorage w
  /\ storage_log (active w) = storage_log w
  /\ Date_now (active w) = Date_now w
  /\ net_log (active w) = net_log w
  /\ store (active w) = store w
  /\ toasts (active w) = toasts w
  /\ window_events (active w) = window_events w
  /\ isRefreshingRef (refs (active w)) = isRefreshingRef (refs w)
  /\ refreshTimeoutRef (refs (active w)) = refreshTimeoutRef (refs w)
  /\ next_timer (active w) = Pos.succ (next_timer w).
Proof.
  unfold active, exec, useTokenManager.updateActivity. proc.
  destruct (inactivityTimeoutRef (refs w)); repeat split.
Qed.

Lemma isTokenExpired_same (w w0 : World) (b : bool) :
  localStorage w0 = localStorage w -> Date_now w0 = Date_now w ->
  tokenService.isTokenExpired w = Done (Returned b) w ->
  tokenService.isTokenExpired w0 = Done (Returned b) w0.
Proof.
  intros Hl Hn. unfold tokenService.isTokenExpired. proc. rewrite Hl.
  destruct (truthy (localStorage w !! "tokenExpiry")); simpl.
  - rewrite Hn. intro H. injection H as <-. reflexivity.
  - intro H. injection H as <-. reflexivity.
Qed.

(** X19.  [updateActivity] stamps the time of the interaction, cancels the
    inactivity timer it had armed before and arms a new one, of 15
    minutes.  When that timer fires nothing happens: it leaves the table,
    and no request is sent, nothing is removed from storage and nobody is
    signed out - inactivity alone ends no session. *)
Theorem X19_inactivity_timer_does_nothing (fuel : nat) (w : World) :
  let id := next_timer w in
  lastActivityRef (refs (active w)) = Date_now w
  /\ inactivityTimeoutRef (refs (active w)) = Some id
  /\ timers (active w) !! id = Some (mkTimer InactivityCallback (Int 900000))
  /\ (forall old,
        inactivityTimeoutRef (refs w) = Some old -> old <> id ->
        timers (active w) !! old = None)
  /\ exists w2,
       fire_timer fuel id (active w) = Done (Returned tt) w2
       /\ timers w2 !! id = None
       /\ localStorage w2 = localStorage w
       /\ storage_log w2 = storage_log w
       /\ store w2 = store w
       /\ net_log w2 = net_log w
       /\ toasts w2 = toasts w
       /\ window_events w2 = window_events w.
Proof.
  intro id.
  assert (Htimer : timers (active w) !! id
                   = Some (mkTimer InactivityCallback (Int 900000))).
  { unfold active, exec, useTokenManager.updateActivity. proc.
    destruct (inactivityTimeoutRef (refs w)); simpl; apply lookup_insert_eq. }
  split; [|split; [|split; [exact Htimer|split]]].
  - unfold active, exec, useTokenManager.updateActivity. proc.
    destruct (inactivityTimeoutRef (refs w)); reflexivity.
  - unfold active, exec, useTokenManager.updateActivity. proc.
    destruct (inactivityTimeoutRef (refs w)); reflexivity.
  - intros old Hold Hne. unfold id in Hne.
    unfold active, exec, useTokenManager.updateActivity. proc.
    rewrite Hold. simpl.
    rewrite lookup_insert_ne by congruence. apply lookup_delete_eq.
  - unfold fire_timer. proc. rewrite Htimer. simpl.
    eexists. split; [reflexivity|].
    split; [simpl; apply lookup_delete_eq|].
    destruct (active_frame w) as (H1 & H2 & _ & H4 & H5 & H6 & H7 & _).
    repeat split; assumption.
Qed.

Lemma handleActivity_quiet (fuel : nat) (b : bool) (w : World) :
  b = false \/ tokenService.isTokenExpired w = Done (Returned false) w ->
  useTokenManager.handleActivity fuel b w = Done (Returned tt) (active w).
Proof.
  intro H. destruct (active_frame w) as (H1 & _ & H3 & _).
  destruct b; [|apply handleActivity_false].
  destruct H as [H|H]; [discriminate|].
  rewrite handleActivity_true.
  rewrite (isTokenExpired_same w (active w) false H1 H3 H). reflexivity.
Qed.

Lemma isTokenExpired_NaN (w : World) :
  localStorage w !! "tokenExpiry" = Some "NaN" ->
  tokenService.isTokenExpired w = Done (Returned false) w.
Proof.
  intro H. unfold tokenService.isTokenExpired. proc. rewrite H. reflexivity.
Qed.

(** X20.  An interaction costs no request unless the session is
    authenticated and the token has expired: [handleActivity] then only
    records the activity. *)
Theorem X20_activity_is_quiet_unless_expired (fuel : nat) (b : bool) (w : World) :
  b = false \/ tokenService.isTokenExpired w = Done (Returned false) w ->
  useTokenManager.handleActivity fuel b w = Done (Returned tt) (active w)
  /\ net_log (active w) = net_log w
  /\ localStorage (active w) = localStorage w
  /\ storage_log (active w) = storage_log w
  /\ store (active w) = store w
  /\ refreshTimeoutRef (refs (active w)) = refreshTimeoutRef (refs w).
Proof.
  intro H.
  destruct (active_frame w) as (H1 & H2 & H3 & H4 & H5 & _ & _ & _ & H9 & _).
  split; [|repeat split; assumption].
  apply handleActivity_quiet, H.
Qed.

Lemma X20_activity_is_quiet_unless_expired_witness :
  useTokenManager.handleActivity 2 true demo_world
  = Done (Returned tt) (active demo_world).
Proof.
  refine (proj1 (X20_activity_is_quiet_unless_expired 2 true demo_world _)).
  right. vm_compute. reflexivity.
Defined.

(** X21.  An interaction in an authenticated session whose token has
    expired sends one refresh request.  When it resolves, the response is
    stored and the refresh timer is armed anew; when it does not, the
    refresh timer is left as it was - the activity path never re-arms
    after a failure - and the session is signed out, with one toast, only
    if the refresh was refused with 401 or 403: any other failure leaves
    storage and the auth store alone.  Either way the in-flight guard is
    released. *)
Theorem X21_activity_refreshes_an_expired_token (fuel : nat) (w : World)
    (a : NetAnswer) (rest : list NetAnswer) :
  (1 <= fuel)%nat ->
  isRefreshingRef (refs w) = false ->
  truthy (localStorage w !! "refreshToken") = true ->
  tokenService.isTokenExpired w = Done (Returned true) w ->
  exists w',
    run (useTokenManager.handleActivity fuel true w) (a :: rest)
    = Finished (Returned tt) w' rest
    /\ sent w w' = [refresh_request w]
    /\ isRefreshingRef (refs w') = false
    /\ if resolves (reply a) then
         credential_triple w'
         = (Some (js_String (data_accessToken (reply_data (reply a)))),
            Some (js_String (data_refreshToken (reply_data (reply a)))),
            Some (toString
                    (number_add (Int (Date_now w + Z.of_N (elapsed a)))
                       (number_mul (data_expiresIn (reply_data (reply a)))
                          (Int 1000)))))
         /\ refreshTimeoutRef (refs w') = Some (Pos.succ (next_timer w))
         /\ exists dl,
              timers w' !! Pos.succ (next_timer w)
              = Some (mkTimer (RefreshCallback true) dl)
       else
         refreshTimeoutRef (refs w') = refreshTimeoutRef (refs w)
         /\ timers w' = timers (active w)
         /\ if refused (reply a) then
              store w' = authStore.logged_out
              /\ credential_triple w' = (None, None, None)
              /\ toasts w' = (toasts w ++ ["Session Expired"])%list
            else
              store w' = store w
              /\ localStorage w' = localStorage w
              /\ toasts w' = toasts w.
Proof.
  intros Hfuel Href Htok Hexp. destruct fuel as [|n]; [lia|].
  destruct (active_frame w)
    as (Hl & Hlog & Hnow & Hnet & Hstore & Htoast & Hev & Hbusy & Hrt & Hnext).
  assert (Hreq : refresh_request (active w) = refresh_request w)
    by (unfold refresh_request, attach_token; rewrite Hl; reflexivity).
  destruct (performTokenRefresh_begin n (active w)) as (k & Hk & Hk').
  { rewrite Hbusy. exact Href. }
  { rewrite Hl. exact Htok. }
  rewrite handleActivity_true.
  rewrite (isTokenExpired_same w (active w) true Hl Hnow Hexp).
  cbn [step_bind]. rewrite Hk. cbn [step_bind run]. rewrite Hk'.
  unfold refresh_resolution.
  set (w1 := tick (elapsed a)
               (with_net_log (net_log (active w) ++ [refresh_request (active w)])
                  (useTokenManager.set_isRefreshingRef true (active w)))).
  assert (Hsent : forall w', net_log w' = net_log w1 -> sent w w' = [refresh_request w]).
  { intros w' Hw'. unfold sent. rewrite Hw'. unfold w1. simpl.
    rewrite Hnet, Hreq. rewrite drop_app_length. reflexivity. }
  destruct (resolves (reply a)).
  - cbn [step_bind].
    set (w2 := useTokenManager.set_isRefreshingRef false
                 (stored_data (reply_data (reply a)) w1)).
    destruct (getTimeUntilExpiry_reads w2) as (d & Hd).
    rewrite (scheduleTokenRefresh_arms w2 d Hd). cbn [run].
    destruct (armed_frame true d w2) as (Hl2 & _ & _ & Hnet2).
    eexists. split; [reflexivity|].
    split; [apply Hsent; etransitivity; [exact Hnet2|reflexivity]|].
    split; [unfold armed; destruct (refreshTimeoutRef (refs w2)); reflexivity|].
    destruct (armed_timer true d w2) as [Ht Hr].
    assert (Hn2 : next_timer w2 = Pos.succ (next_timer w)) by exact Hnext.
    split; [|split].
    + unfold credential_triple. rewrite Hl2.
      etransitivity; [apply (stored_triple _ _ _ w1)|].
      unfold w1. simpl. rewrite Hnow. reflexivity.
    + rewrite <- Hn2. exact Hr.
    + rewrite <- Hn2. eexists. exact Ht.
  - destruct (refused (reply a)); cbn [step_bind run].
    + eexists. split; [reflexivity|].
      split; [apply Hsent; reflexivity|].
      split; [reflexivity|].
      split; [exact Hrt|]. split; [reflexivity|].
      split; [reflexivity|].
      split; [apply (logged_out_triple (exec (toast "Session Expired") w1))|].
      simpl. rewrite Htoast. reflexivity.
    + eexists. split; [reflexivity|].
      split; [apply Hsent; reflexivity|].
      split; [reflexivity|].
      split; [exact Hrt|]. split; [reflexivity|].
      split; [exact Hstore|]. split; [exact Hl|exact Htoast].
Qed.

Lemma X21_activity_refreshes_an_expired_token_witness :
  exists w',
    run (useTokenManager.handleActivity 1 true (with_Date_now 10000 demo_world))
        [mkNetAnswer 5 (Answer 500 (OtherData ""))]
    = Finished (Returned tt) w' []
    /\ sent (with_Date_now 10000 demo_world) w'
       = [refresh_request (with_Date_now 10000 demo_world)]
    /\ isRefreshingRef (refs w') = false
    /\ refreshTimeoutRef (refs w') = None
    /\ timers w' = timers (active (with_Date_now 10000 demo_world))
    /\ store w' = store demo_world
    /\ localStorage w' = localStorage demo_world
    /\ toasts w' = toasts demo_world.
Proof.
  destruct (X21_activity_refreshes_an_expired_token 1
              (with_Date_now 10000 demo_world)
              (mkNetAnswer 5 (Answer 500 (OtherData ""))) [])
    as (w' & H1 & H2 & H3 & H4 & H5 & H6 & H7 & H8).
  - lia.
  - reflexivity.
  - reflexivity.
  - vm_compute. reflexivity.
  - exists w'. repeat split; assumption.
Defined.

(** X22.  The hook stores the refresh response without looking at it.
    When the refresh endpoint answers 2xx with a body that is not null and
    has none of the three token fields, [performTokenRefresh] still
    returns true and stores the text of the missing fields: ["undefined"]
    as access and refresh token and ["NaN"] as expiry.  From then on
    requests carry [Bearer undefined], and the token never counts as
    expired, so no interaction triggers another refresh.  (The
    interceptor and [authService.refreshToken] check the access token
    first: X8, X14.) *)
Theorem X22_hook_stores_an_unchecked_response (fuel : nat) (w : World)
    (a : NetAnswer) (rest : list NetAnswer) :
  (1 <= fuel)%nat ->
  isRefreshingRef (refs w) = false ->
  truthy (localStorage w !! "refreshToken") = true ->
  resolves (reply a) = true ->
  data_accessToken (reply_data (reply a)) = None ->
  data_refreshToken (reply_data (reply a)) = None ->
  data_expiresIn (reply_data (reply a)) = NaN ->
  exists w',
    run (useTokenManager.performTokenRefresh fuel w) (a :: rest)
    = Finished (Returned true) w' rest
    /\ credential_triple w' = (Some "undefined", Some "undefined", Some "NaN")
    /\ (forall cfg, Authorization (attach_token w' cfg) = Some "Bearer undefined")
    /\ (forall t, tokenService.isTokenExpired (with_Date_now t w')
                  = Done (Returned false) (with_Date_now t w'))
    /\ forall t n, useTokenManager.handleActivity n true (with_Date_now t w')
                   = Done (Returned tt) (active (with_Date_now t w')).
Proof.
  intros Hfuel Href Htok Hres Hacc Hrefr Hexp0. destruct fuel as [|n]; [lia|].
  destruct (performTokenRefresh_begin n w Href Htok) as (k & Hk & Hk').
  rewrite Hk. cbn [run]. rewrite Hk'. unfold refresh_resolution. rewrite Hres.
  cbn [run]. eexists. split; [reflexivity|].
  set (w1 := tick (elapsed a) (with_net_log (net_log w ++ [refresh_request w])
                                 (useTokenManager.set_isRefreshingRef true w))).
  assert (Htriple : credential_triple
                      (useTokenManager.set_isRefreshingRef false
                         (stored_data (reply_data (reply a)) w1))
                    = (Some "undefined", Some "undefined", Some "NaN")).
  { etransitivity; [apply (stored_triple _ _ _ w1)|].
    rewrite Hacc, Hrefr, Hexp0. reflexivity. }
  assert (Hexp : forall t,
            tokenService.isTokenExpired
              (with_Date_now t (useTokenManager.set_isRefreshingRef false
                                  (stored_data (reply_data (reply a)) w1)))
            = Done (Returned false)
                (with_Date_now t (useTokenManager.set_isRefreshingRef false
                                    (stored_data (reply_data (reply a)) w1)))).
  { intro t. apply isTokenExpired_NaN. exact (f_equal snd Htriple). }
  split; [exact Htriple|]. split; [|split; [exact Hexp|]].
  - intro cfg. unfold attach_token.
    replace (localStorage
               (useTokenManager.set_isRefreshingRef false
                  (stored_data (reply_data (reply a)) w1)) !! "accessToken")
      with (Some "undefined")
      by (symmetry; exact (f_equal (fun p => fst (fst p)) Htriple)).
    reflexivity.
  - intros t m. apply handleActivity_quiet. right. apply Hexp.
Qed.

Lemma X22_hook_stores_an_unchecked_response_witness :
  exists w',
    run (useTokenManager.performTokenRefresh 1 demo_world)
        [mkNetAnswer 1 (Answer 200 (OtherData "{}"))]
    = Finished (Returned true) w' []
    /\ credential_triple w' = (Some "undefined", Some "undefined", Some "NaN").
Proof.
  destruct (X22_hook_stores_an_unchecked_response 1 demo_world
              (mkNetAnswer 1 (Answer 200 (OtherData "{}"))) [])
    as (w' & H1 & H2 & _); try reflexivity; try lia.
  exists w'. split; assumption.
Defined.


(** ** ApprovalService: the queries *)

Lemma In_append_if (c : bool) (k v k' v' : string) (q : URLSearchParams.t) :
  In (k, v) (ApprovalService.append_if c k' v' q)
  <-> In (k, v) q \/ (c = true /\ k = k' /\ v = v').
Proof.
  unfold ApprovalService.append_if, URLSearchParams.append.
  destruct c.
  - rewrite in_app_iff. simpl. split.
    + intros [H|[H|[]]]; [left; exact H|right]. injection H as <- <-. auto.
    + intros [H|(_ & -> & ->)]; [left; exact H|right; left; reflexivity].
  - split; [intro H; left; exact H|].
    intros [H|(H & _)]; [exact H|discriminate H].
Qed.

Lemma keys_append_if (c : bool) (k v : string) (q : URLSearchParams.t) :
  keys (ApprovalService.append_if c k v q)
  = (keys q ++ (if c then [k] else []))%list.
Proof.
  unfold keys, ApprovalService.append_if, URLSearchParams.append.
  destruct c; [apply map_app|symmetry; apply app_nil_r].
Qed.

Lemma truthy_nonempty (s : option string) :
  truthy s = true -> js_String s <> "".
Proof. destruct s as [[|c s]|]; simpl; congruence. Qed.

Lemma number_truthy_toString (n : option number) :
  ApprovalService.number_truthy n = true ->
  ApprovalService.number_toString n <> ""
  /\ exists z, n = Some (Int z) /\ z <> 0.
Proof.
  destruct n as [[|z]|]; simpl; try discriminate. intro H. split.
  - pose proof (toString_truthy (Int z)) as Ht.
    destruct (toString (Int z)); [discriminate Ht|congruence].
  - exists z. split; [reflexivity|].
    intros ->. discriminate H.
Qed.

Lemma trim_empty_truthy (s : option string) :
  ApprovalService.nonblank s = true ->
  exists v, s = Some v /\ v <> "" /\ trim v <> "".
Proof.
  unfold ApprovalService.nonblank. intro H.
  apply andb_true_iff in H as [H1 H2].
  destruct s as [v|]; [|discriminate H1]. exists v.
  split; [reflexivity|]. split.
  - destruct v; [discriminate H1|congruence].
  - simpl in H2. destruct (trim v); [discriminate H2|congruence].
Qed.

Lemma nonblank_truthy (s : option string) :
  ApprovalService.nonblank s = true -> truthy s = true.
Proof.
  unfold ApprovalService.nonblank. intro H.
  apply andb_true_iff in H as [H1 _]. exact H1.
Qed.

(** X23.  The query of [getPendingApprovals], whatever the filters: no
    parameter is sent with an empty value and none is sent twice; page and
    limit are sent only when they are numbers other than 0; [isActive] is
    sent whenever it is given, [false] included; and the
    [nzbnApprovalStatus] filter is never sent, so that the result does not
    depend on it.  Without filters the URL is the bare path. *)
Theorem X23_pending_query (p : ApprovalService.ApprovalParams) :
  (forall k v, In (k, v) (ApprovalService.pendingQuery p) -> v <> "")
  /\ NoDup (keys (ApprovalService.pendingQuery p))
  /\ (In "page" (keys (ApprovalService.pendingQuery p))
      <-> exists z, ApprovalService.page p = Some (Int z) /\ z <> 0)
  /\ (forall v, In ("isActive", v) (ApprovalService.pendingQuery p)
                <-> (ApprovalService.isActive p = Some true /\ v = "true")
                    \/ (ApprovalService.isActive p = Some false /\ v = "false"))
  /\ ~ In "nzbnApprovalStatus" (keys (ApprovalService.pendingQuery p))
  /\ (forall s,
        ApprovalService.pendingUrl
          (ApprovalService.mkApprovalParams
             (ApprovalService.page p) (ApprovalService.limit p)
             (ApprovalService.role p) (ApprovalService.onboardingStatus p)
             (ApprovalService.isActive p) (ApprovalService.search p)
             (ApprovalService.region p) s)
        = ApprovalService.pendingUrl p)
  /\ ApprovalService.pendingUrl no_params = "/admin/users/nzbn-approvals/pending".
Proof.
  split; [|split; [|split; [|split; [|split; [|split]]]]].
  - intros k v. unfold ApprovalService.pendingQuery.
    rewrite !In_append_if. simpl.
    intros [[[[[[[[]|H]|H]|H]|H]|H]|H]|H]; destruct H as (Hc & _ & ->).
    + apply number_truthy_toString, Hc.
    + apply number_truthy_toString, Hc.
    + apply truthy_nonempty, Hc.
    + apply truthy_nonempty, Hc.
    + destruct (ApprovalService.isActive p) as [[]|]; simpl; congruence.
    + apply truthy_nonempty, Hc.
    + apply truthy_nonempty, Hc.
  - unfold ApprovalService.pendingQuery. rewrite !keys_append_if.
    destruct (ApprovalService.number_truthy (ApprovalService.page p)),
      (ApprovalService.number_truthy (ApprovalService.limit p)),
      (truthy (ApprovalService.role p)),
      (truthy (ApprovalService.onboardingStatus p)),
      (ApprovalService.defined (ApprovalService.isActive p)),
      (truthy (ApprovalService.search p)),
      (truthy (ApprovalService.region p));
      refine (bool_decide_unpack _ _); vm_compute; exact I.
  - unfold ApprovalService.pendingQuery. rewrite !keys_append_if.
    rewrite !in_app_iff. split.
    + intros [[[[[[[[]|H]|H]|H]|H]|H]|H]|H];
        match type of H with
        | In _ (if ?c then _ else _) => destruct c eqn:Hc; simpl in H
        end;
        try (exfalso; exact H);
        try (destruct H as [H|[]]; try discriminate H);
        apply number_truthy_toString, Hc.
    + intros (z & Hz & Hnz). do 6 left. right.
      rewrite Hz. simpl. destruct (Z.eqb_spec z 0); [contradiction|].
      left; reflexivity.
  - intro v. unfold ApprovalService.pendingQuery.
    rewrite !In_append_if. simpl. split.
    + intros [[[[[[[[]|H]|H]|H]|H]|H]|H]|H]; destruct H as (Hc & Hk & ->);
        try discriminate Hk.
      destruct (ApprovalService.isActive p) as [[]|];
        [left|right|discriminate Hc]; split; reflexivity.
    + intros [[H ->]|[H ->]]; do 2 left; right; rewrite H; repeat split.
  - unfold ApprovalService.pendingQuery. rewrite !keys_append_if.
    rewrite !in_app_iff.
    intros [[[[[[[[]|H]|H]|H]|H]|H]|H]|H];
      match type of H with
      | In _ (if ?c then _ else _) => destruct c; simpl in H
      end;
      try (exfalso; exact H);
      destruct H as [H|[]]; discriminate H.
  - intro s. reflexivity.
  - vm_compute. reflexivity.
Qed.

Lemma historyQuery_In (p : ApprovalService.ApprovalParams) (k v : string) :
  In (k, v) (ApprovalService.historyQuery p)
  <-> (ApprovalService.number_truthy (ApprovalService.page p) = true
       /\ k = "page" /\ v = ApprovalService.number_toString (ApprovalService.page p))
      \/ (ApprovalService.number_truthy (ApprovalService.limit p) = true
          /\ k = "limit"
          /\ v = ApprovalService.number_toString (ApprovalService.limit p))
      \/ (ApprovalService.nonblank (ApprovalService.role p) = true
          /\ k = "role" /\ v = js_String (ApprovalService.role p))
      \/ (ApprovalService.nonblank (ApprovalService.onboardingStatus p) = true
          /\ k = "onboardingStatus"
          /\ v = js_String (ApprovalService.onboardingStatus p))
      \/ (ApprovalService.defined (ApprovalService.isActive p) = true
          /\ k = "isActive"
          /\ v = ApprovalService.bool_toString (ApprovalService.isActive p))
      \/ (ApprovalService.nonblank (ApprovalService.search p) = true
          /\ k = "search" /\ v = js_String (ApprovalService.search p))
      \/ (ApprovalService.nonblank (ApprovalService.region p) = true
          /\ k = "region" /\ v = js_String (ApprovalService.region p))
      \/ (ApprovalService.nonblank (ApprovalService.nzbnApprovalStatus p) = true
          /\ k = "nzbnApprovalStatus"
          /\ v = js_String (ApprovalService.nzbnApprovalStatus p)).
Proof.
  unfold ApprovalService.historyQuery. rewrite !In_append_if. simpl. tauto.
Qed.

Lemma pendingQuery_In (p : ApprovalService.ApprovalParams) (k v : string) :
  In (k, v) (ApprovalService.pendingQuery p)
  <-> (ApprovalService.number_truthy (ApprovalService.page p) = true
       /\ k = "page" /\ v = ApprovalService.number_toString (ApprovalService.page p))
      \/ (ApprovalService.number_truthy (ApprovalService.limit p) = true
          /\ k = "limit"
          /\ v = ApprovalService.number_toString (ApprovalService.limit p))
      \/ (truthy (ApprovalService.role p) = true
          /\ k = "role" /\ v = js_String (ApprovalService.role p))
      \/ (truthy (ApprovalService.onboardingStatus p) = true
          /\ k = "onboardingStatus"
          /\ v = js_String (ApprovalService.onboardingStatus p))
      \/ (ApprovalService.defined (ApprovalService.isActive p) = true
          /\ k = "isActive"
          /\ v = ApprovalService.bool_toString (ApprovalService.isActive p))
      \/ (truthy (ApprovalService.search p) = true
          /\ k = "search" /\ v = js_String (ApprovalService.search p))
      \/ (truthy (ApprovalService.region p) = true
          /\ k = "region" /\ v = js_String (ApprovalService.region p)).
Proof.
  unfold ApprovalService.pendingQuery. rewrite !In_append_if. simpl. tauto.
Qed.

(** X24.  The query of [getApprovalHistory] against the query of
    [getPendingApprovals].  Apart from the status filter, every parameter
    the history query sends the pending query sends too, with the same
    value.  The history query is the stricter one: it leaves out a text
    filter that is blank (white space only), which the pending query
    sends; and it sends the status filter, which the pending query never
    does.  A text filter it sends is sent as given, not trimmed. *)
Theorem X24_history_query (p : ApprovalService.ApprovalParams) :
  (forall k v,
     In (k, v) (ApprovalService.historyQuery p) -> k <> "nzbnApprovalStatus" ->
     In (k, v) (ApprovalService.pendingQuery p))
  /\ (forall v,
        In ("search", v) (ApprovalService.historyQuery p)
        <-> ApprovalService.search p = Some v /\ trim v <> "")
  /\ (forall v,
        In ("nzbnApprovalStatus", v) (ApprovalService.historyQuery p)
        <-> ApprovalService.nzbnApprovalStatus p = Some v /\ trim v <> "")
  /\ (forall v,
        ApprovalService.search p = Some v -> v <> "" -> trim v = "" ->
        In ("search", v) (ApprovalService.pendingQuery p)
        /\ ~ In "search" (keys (ApprovalService.historyQuery p)))
  /\ NoDup (keys (ApprovalService.historyQuery p)).
Proof.
  split; [|split; [|split; [|split]]].
  - intros k v H Hk. apply historyQuery_In in H. apply pendingQuery_In.
    destruct H as [H|[H|[H|[H|[H|[H|[H|H]]]]]]].
    + tauto.
    + tauto.
    + destruct H as (Hn & H). apply nonblank_truthy in Hn. tauto.
    + destruct H as (Hn & H). apply nonblank_truthy in Hn. tauto.
    + tauto.
    + destruct H as (Hn & H). apply nonblank_truthy in Hn. tauto.
    + destruct H as (Hn & H). apply nonblank_truthy in Hn. tauto.
    + destruct H as (_ & H & _). contradiction.
  - intro v. rewrite historyQuery_In. split.
    + intros [H|[H|[H|[H|[H|[H|[H|H]]]]]]]; destruct H as (Hc & Hk & ->);
        try discriminate Hk.
      destruct (trim_empty_truthy _ Hc) as (v & -> & _ & Ht). split; [reflexivity|exact Ht].
    + intros [Hs Ht]. do 5 right. left.
      rewrite Hs. repeat split.
      unfold ApprovalService.nonblank. simpl.
      destruct v; [exfalso; apply Ht; reflexivity|].
      destruct (trim (String a v)); [exfalso; apply Ht; reflexivity|reflexivity].
  - intro v. rewrite historyQuery_In. split.
    + intros [H|[H|[H|[H|[H|[H|[H|H]]]]]]]; destruct H as (Hc & Hk & ->);
        try discriminate Hk.
      destruct (trim_empty_truthy _ Hc) as (v & -> & _ & Ht). split; [reflexivity|exact Ht].
    + intros [Hs Ht]. do 7 right.
      rewrite Hs. repeat split.
      unfold ApprovalService.nonblank. simpl.
      destruct v; [exfalso; apply Ht; reflexivity|].
      destruct (trim (String a v)); [exfalso; apply Ht; reflexivity|reflexivity].
  - intros v Hs Hv Ht. split.
    + apply pendingQuery_In. do 5 right. left. rewrite Hs.
      repeat split. destruct v; [contradiction|reflexivity].
    + intro Hin. unfold keys in Hin. apply in_map_iff in Hin.
      destruct Hin as ([k v'] & Hk & Hin). simpl in Hk. subst k.
      apply historyQuery_In in Hin.
      destruct Hin as [H|[H|[H|[H|[H|[H|[H|H]]]]]]]; destruct H as (Hc & Hk & ->);
        try discriminate Hk.
      destruct (trim_empty_truthy _ Hc) as (v0 & Hv0 & _ & Ht0).
      rewrite Hs in Hv0. injection Hv0 as <-. contradiction.
  - unfold ApprovalService.historyQuery. rewrite !keys_append_if.
    destruct (ApprovalService.number_truthy (ApprovalService.page p)),
      (ApprovalService.number_truthy (ApprovalService.limit p)),
      (ApprovalService.nonblank (ApprovalService.role p)),
      (ApprovalService.nonblank (ApprovalService.onboardingStatus p)),
      (ApprovalService.defined (ApprovalService.isActive p)),
      (ApprovalService.nonblank (ApprovalService.search p)),
      (ApprovalService.nonblank (ApprovalService.region p)),
      (ApprovalService.nonblank (ApprovalService.nzbnApprovalStatus p));
      refine (bool_decide_unpack _ _); vm_compute; exact I.
Qed.

(** ** ApprovalService: the URLs *)

Lemma append_cons (c : ascii) (s t : string) :
  String c s +:+ t = String c (s +:+ t).
Proof. reflexivity. Qed.

Lemma append_nil (t : string) : "" +:+ t = t.
Proof. reflexivity. Qed.

Lemma count_char_app (c : ascii) (s t : string) :
  count_char c (s +:+ t) = (count_char c s + count_char c t)%nat.
Proof.
  induction s as [|a s IH]; [reflexivity|].
  rewrite append_cons. cbn [count_char]. rewrite IH. lia.
Qed.

(** The percent-encoding leaves none of the characters that structure a
    URL. *)
Lemma encode_byte_clean (a : ascii) :
  count_char "&" (URLSearchParams.encode_byte a) = O
  /\ count_char "=" (URLSearchParams.encode_byte a) = O
  /\ count_char "?" (URLSearchParams.encode_byte a) = O
  /\ count_char "/" (URLSearchParams.encode_byte a) = O.
Proof.
  destruct a as [[] [] [] [] [] [] [] []]; vm_compute; repeat split.
Qed.

Lemma encode_clean (s : string) :
  count_char "&" (URLSearchParams.encode s) = O
  /\ count_char "=" (URLSearchParams.encode s) = O
  /\ count_char "?" (URLSearchParams.encode s) = O
  /\ count_char "/" (URLSearchParams.encode s) = O.
Proof.
  induction s as [|a s (H1 & H2 & H3 & H4)]; [repeat split|].
  cbn [URLSearchParams.encode]. rewrite !count_char_app.
  destruct (encode_byte_clean a) as (E1 & E2 & E3 & E4).
  rewrite E1, E2, E3, E4, H1, H2, H3, H4. repeat split.
Qed.

Lemma serialize_pair_count (p : string * string) :
  count_char "&" (URLSearchParams.serialize_pair p) = O
  /\ count_char "=" (URLSearchParams.serialize_pair p) = 1%nat
  /\ count_char "?" (URLSearchParams.serialize_pair p) = O
  /\ count_char "/" (URLSearchParams.serialize_pair p) = O.
Proof.
  unfold URLSearchParams.serialize_pair. rewrite !count_char_app.
  destruct (encode_clean (fst p)) as (E1 & E2 & E3 & E4).
  destruct (encode_clean (snd p)) as (F1 & F2 & F3 & F4).
  rewrite E1, E2, E3, E4, F1, F2, F3, F4. repeat split.
Qed.

Lemma toString_count (q : URLSearchParams.t) :
  count_char "&" (URLSearchParams.toString q) = pred (length q)
  /\ count_char "=" (URLSearchParams.toString q) = length q
  /\ count_char "?" (URLSearchParams.toString q) = O
  /\ count_char "/" (URLSearchParams.toString q) = O.
Proof.
  induction q as [|p q (H1 & H2 & H3 & H4)]; [repeat split|].
  destruct (serialize_pair_count p) as (E1 & E2 & E3 & E4).
  destruct q as [|p' q].
  - cbn [URLSearchParams.toString length pred]. rewrite E1, E2, E3, E4. repeat split.
  - change (URLSearchParams.toString (p :: p' :: q))
      with (URLSearchParams.serialize_pair p +:+ "&"
            +:+ URLSearchParams.toString (p' :: q)).
    rewrite !count_char_app, E1, E2, E3, E4, H1, H2, H3, H4.
    cbn [length pred]. repeat split.
Qed.

Lemma toString_nonempty (q : URLSearchParams.t) :
  truthy (Some (URLSearchParams.toString q)) = negb (bool_decide (q = [])).
Proof.
  destruct q as [|p q]; [reflexivity|].
  assert (H : count_char "=" (URLSearchParams.toString (p :: q)) = length (p :: q))
    by apply toString_count.
  destruct (URLSearchParams.toString (p :: q)); [discriminate H|reflexivity].
Qed.

(** A string without [/] contains no [/auth/], and appending one to a
    path does not create one. *)
Lemma prefix_no_char (c : ascii) (r q : string) :
  (0 < count_char c r)%nat -> count_char c q = O -> String.prefix r q = false.
Proof.
  revert q. induction r as [|a r IH]; intros q Hr Hq; [simpl in Hr; lia|].
  destruct q as [|b q]; [reflexivity|].
  cbn [String.prefix]. destruct (ascii_dec a b) as [->|Hne]; [|reflexivity].
  cbn [count_char] in Hr, Hq.
  destruct (Ascii.eqb c b); [lia|].
  apply IH; [exact Hr|exact Hq].
Qed.

Lemma ends_with_count (c : ascii) (s : string) :
  s <> "" -> ends_with c s = true -> (0 < count_char c s)%nat.
Proof.
  induction s as [|a s IH]; [congruence|]. intros _ H.
  destruct s as [|b s].
  - cbn [ends_with] in H. cbn [count_char].
    rewrite Ascii.eqb_sym, H. lia.
  - change (ends_with c (String a (String b s)))
      with (ends_with c (String b s)) in H.
    assert (H0 : (0 < count_char c (String b s))%nat)
      by (apply IH; [congruence|exact H]).
    change (count_char c (String a (String b s)))
      with ((if Ascii.eqb c a then 1 else 0) + count_char c (String b s))%nat.
    lia.
Qed.

Lemma prefix_app_clean (c : ascii) (sub p q : string) :
  ends_with c sub = true -> count_char c q = O ->
  String.prefix sub (p +:+ q) = String.prefix sub p.
Proof.
  revert p. induction sub as [|a sub IH]; intros p Hs Hq.
  - destruct p, q; reflexivity.
  - destruct p as [|b p].
    + rewrite append_nil.
      rewrite (prefix_no_char c (String a sub) q);
        [reflexivity|apply ends_with_count; [congruence|exact Hs]|exact Hq].
    + rewrite append_cons. cbn [String.prefix].
      destruct (ascii_dec a b); [|reflexivity].
      apply IH; [|exact Hq].
      destruct sub; [reflexivity|exact Hs].
Qed.

Lemma includes_cons (b : ascii) (q sub : string) :
  includes (String b q) sub = String.prefix sub (String b q) || includes q sub.
Proof. reflexivity. Qed.

Lemma includes_nil (sub : string) :
  sub <> "" -> includes "" sub = false.
Proof. destruct sub; [congruence|reflexivity]. Qed.

Lemma includes_clean (c : ascii) (sub q : string) :
  sub <> "" -> ends_with c sub = true -> count_char c q = O ->
  includes q sub = false.
Proof.
  intros Hne Hs Hq. induction q as [|b q IH].
  - apply includes_nil, Hne.
  - rewrite includes_cons.
    rewrite (prefix_no_char c sub (String b q));
      [|apply ends_with_count; assumption|exact Hq].
    cbn [count_char] in Hq. apply IH. lia.
Qed.

Lemma includes_app_clean (c : ascii) (sub p q : string) :
  sub <> "" -> ends_with c sub = true -> count_char c q = O ->
  includes (p +:+ q) sub = includes p sub.
Proof.
  intros Hne Hs Hq. induction p as [|b p IH].
  - rewrite append_nil. rewrite (includes_clean c sub q Hne Hs Hq).
    symmetry. apply includes_nil, Hne.
  - rewrite append_cons, !includes_cons, IH.
    rewrite <- append_cons. rewrite (prefix_app_clean c sub _ q Hs Hq).
    reflexivity.
Qed.

Lemma with_query_shape (path : string) (q : URLSearchParams.t) :
  count_char "?" path = O -> count_char "&" path = O -> count_char "=" path = O ->
  includes (path +:+ "?") "/auth/" = false ->
  count_char "?" (ApprovalService.with_query path q)
  = (if bool_decide (q = []) then 0 else 1)%nat
  /\ count_char "&" (ApprovalService.with_query path q) = pred (length q)
  /\ count_char "=" (ApprovalService.with_query path q) = length q
  /\ includes (ApprovalService.with_query path q) "/auth/" = false.
Proof.
  intros H1 H2 H3 H4. unfold ApprovalService.with_query.
  rewrite toString_nonempty.
  destruct (toString_count q) as (T1 & T2 & T3 & T4).
  destruct q as [|p q].
  - simpl. rewrite H1, H2, H3. repeat split.
    destruct (includes path "/auth/") eqn:Hi; [|reflexivity].
    rewrite <- H4.
    rewrite (includes_app_clean "/" "/auth/" path "?"); [symmetry; exact Hi| | |];
      [discriminate|reflexivity|reflexivity].
  - rewrite bool_decide_eq_false_2 by discriminate. simpl negb. cbv iota.
    rewrite !count_char_app, H1, H2, H3, T1, T2, T3.
    repeat split.
    replace (path +:+ "?" +:+ URLSearchParams.toString (p :: q))
      with ((path +:+ "?") +:+ URLSearchParams.toString (p :: q)).
    + rewrite (includes_app_clean "/" "/auth/" _ _); [exact H4| | |exact T4];
        [discriminate|reflexivity].
    + clear. induction path as [|a path IH]; [reflexivity|].
      rewrite !append_cons, IH. reflexivity.
Qed.

(** X25.  The URLs of the approval lists are well formed whatever the
    filters contain: one [?] exactly when a parameter is sent, one [=] per
    parameter and one [&] between two parameters, so that a filter value
    cannot add or cut a parameter; and the URL never contains [/auth/], so
    that the response interceptor never takes it for an auth endpoint and
    a 401 on it is answered by a token refresh. *)
Theorem X25_approval_urls_are_well_formed (p : ApprovalService.ApprovalParams) :
  (count_char "?" (ApprovalService.pendingUrl p)
   = (if bool_decide (ApprovalService.pendingQuery p = []) then 0 else 1)%nat
   /\ count_char "&" (ApprovalService.pendingUrl p)
      = pred (length (ApprovalService.pendingQuery p))
   /\ count_char "=" (ApprovalService.pendingUrl p)
      = length (ApprovalService.pendingQuery p)
   /\ includes (ApprovalService.pendingUrl p) "/auth/" = false)
  /\ (count_char "?" (ApprovalService.historyUrl p)
      = (if bool_decide (ApprovalService.historyQuery p = []) then 0 else 1)%nat
      /\ count_char "&" (ApprovalService.historyUrl p)
         = pred (length (ApprovalService.historyQuery p))
      /\ count_char "=" (ApprovalService.historyUrl p)
         = length (ApprovalService.historyQuery p)
      /\ includes (ApprovalService.historyUrl p) "/auth/" = false).
Proof.
  split; apply with_query_shape; vm_compute; reflexivity.
Qed.


Lemma run_bind_returned {A B : Type} (s0 : Step A) (f : A -> B)
    (script : list NetAnswer) (r : A) (w' : World) (rest' : list NetAnswer) :
  run s0 script = Finished (Returned r) w' rest' ->
  run (step_bind s0 (fun x w'' => Done (Returned (f x)) w'')) script
  = Finished (Returned (f r)) w' rest'.
Proof.
  revert script. induction s0 as [o w0|w0 req k IH]; intros script H.
  - simpl in H. injection H as -> -> ->. reflexivity.
  - destruct script as [|a s]; [discriminate H|].
    cbn [step_bind run] in *. apply IH, H.
Qed.

Lemma approval_urls_outside_auth (p : ApprovalService.ApprovalParams) :
  includes (ApprovalService.pendingUrl p) "/auth/" = false
  /\ includes (ApprovalService.historyUrl p) "/auth/" = false.
Proof.
  split; apply with_query_shape; vm_compute; reflexivity.
Qed.

(** X26.  Listing approvals survives an expired access token.  Whatever
    the filters, when the list request is answered 401 or 403, a refresh
    token is stored and the refresh succeeds, the request is replayed with
    the new token and [getPendingApprovals] and [getApprovalHistory]
    return the body of the replay's response; the refreshed triple is in
    storage and no session-expired event is dispatched. *)
Theorem X26_approval_lists_refresh_and_replay (fuel : nat)
    (p : ApprovalService.ApprovalParams) (w : World)
    (a0 a1 a2 : NetAnswer) (st0 st1 : Z) (d0 : Data) (t : Tokens.t)
    (rest : list NetAnswer) :
  (2 <= fuel)%nat ->
  reply a0 = Answer st0 d0 -> is_401_403 st0 = true ->
  truthy (localStorage w !! "refreshToken") = true ->
  reply a1 = Answer st1 (TokenData t) -> is_2xx st1 = true ->
  truthy (Some (Tokens.accessToken t)) = true ->
  resolves (reply a2) = true ->
  let get u := mkRequest "get" u None NoBody false in
  let arrival := Date_now w + Z.of_N (elapsed a0) + Z.of_N (elapsed a1) in
  let refreshed :=
    (Some (Tokens.accessToken t), Some (Tokens.refreshToken t),
     Some (toString (Int (arrival + Tokens.expiresIn t * 1000)))) in
  (exists w3,
     run (ApprovalService.getPendingApprovals fuel p w) (a0 :: a1 :: a2 :: rest)
     = Finished (Returned (reply_data (reply a2))) w3 rest
     /\ credential_triple w3 = refreshed
     /\ sent w w3
        = [attach_token w (get (ApprovalService.pendingUrl p));
           refresh_request w;
           replay_of (attach_token w (get (ApprovalService.pendingUrl p)))
             (Tokens.accessToken t)]
     /\ window_events w3 = window_events w)
  /\ (exists w3,
        run (ApprovalService.getApprovalHistory fuel p w) (a0 :: a1 :: a2 :: rest)
        = Finished (Returned (reply_data (reply a2))) w3 rest
        /\ credential_triple w3 = refreshed
        /\ sent w w3
           = [attach_token w (get (ApprovalService.historyUrl p));
              refresh_request w;
              replay_of (attach_token w (get (ApprovalService.historyUrl p)))
                (Tokens.accessToken t)]
        /\ window_events w3 = window_events w).
Proof.
  intros Hfuel Ha0 Hst0 Htok Ha1 Hst1 Hacc Hres2 get arrival refreshed.
  assert (Hstep : forall u,
            includes u "/auth/" = false ->
            exists w3,
              run (step_bind (httpClient.get fuel u w)
                     (fun response w' => Done (Returned (response_data response)) w'))
                  (a0 :: a1 :: a2 :: rest)
              = Finished (Returned (reply_data (reply a2))) w3 rest
              /\ credential_triple w3 = refreshed
              /\ sent w w3
                 = [attach_token w (get u); refresh_request w;
                    replay_of (attach_token w (get u)) (Tokens.accessToken t)]
              /\ window_events w3 = window_events w).
  { intros u Hu.
    destruct (request_refreshed_run fuel (get u) w a0 a1 a2 st0 st1 d0 t rest
                Hfuel eq_refl Hu Ha0 Hst0 Htok Ha1 Hst1 Hacc)
      as (w3 & Hrun & Htr & Hsent & Hev & _).
    rewrite Hres2 in Hrun.
    exists w3. split; [|split; [exact Htr|split; [exact Hsent|exact Hev]]].
    exact (run_bind_returned _ response_data _ _ _ _ Hrun). }
  destruct (approval_urls_outside_auth p) as [Hp Hh].
  split; [apply (Hstep _ Hp)|apply (Hstep _ Hh)].
Qed.

Lemma X26_approval_lists_refresh_and_replay_witness :
  exists w3,
    run (ApprovalService.getPendingApprovals 2 no_params demo_world)
        [mkNetAnswer 1 (Answer 401 (OtherData ""));
         mkNetAnswer 1 (Answer 200 demo_tokens);
         mkNetAnswer 1 (Answer 200 (OtherData "[]"))]
    = Finished (Returned (OtherData "[]")) w3 []
    /\ credential_triple w3 = (Some "a1", Some "r1", Some "3601002").
Proof.
  destruct (X26_approval_lists_refresh_and_replay 2 no_params demo_world
              (mkNetAnswer 1 (Answer 401 (OtherData "")))
              (mkNetAnswer 1 (Answer 200 demo_tokens))
              (mkNetAnswer 1 (Answer 200 (OtherData "[]")))
              401 200 (OtherData "") (Tokens.mk "a1" "r1" 3600) [])
    as [(w3 & H1 & H2 & _) _]; try reflexivity; try lia.
  exists w3. split; [exact H1|exact H2].
Defined.

(** X27.  Approving and rejecting.  Each call sends one PUT to
    [/admin/users/<id>/nzbn-approval] whose body carries the status and,
    only when it is not empty, the reason: a reason is never sent as the
    empty string.  [approveUser] falls back on its default reason only
    when the argument is omitted - given the empty string it sends no
    reason - and [rejectUser] accepts an empty reason and then sends none.
    The serialisation of the body is any function [stringify]. *)
Theorem X27_approval_requests (stringify : ApprovalService.ApprovalBody -> string)
    (fuel : nat) (userId : string) (w : World) :
  (1 <= fuel)%nat ->
  let put body :=
    attach_token w
      (mkRequest "put" ("/admin/users/" +:+ userId +:+ "/nzbn-approval") None
         (OtherBody (stringify body)) false) in
  (forall reason,
     exists w1,
       run (ApprovalService.approveUser stringify fuel userId reason w) []
       = Pending w1
           (put (ApprovalService.mkApprovalBody "approved"
                   (match reason with
                    | None => Some "NZBN verified successfully"
                    | Some "" => None
                    | Some r => Some r
                    end)))
       /\ sent w w1 = [put (ApprovalService.approvalBody "approved"
                              (Some (match reason with
                                     | Some r => r
                                     | None => "NZBN verified successfully"
                                     end)))])
  /\ (forall reason,
        exists w1,
          run (ApprovalService.rejectUser stringify fuel userId reason w) []
          = Pending w1
              (put (ApprovalService.mkApprovalBody "rejected"
                      (if String.eqb reason "" then None else Some reason))))
  /\ (forall status reason,
        ApprovalService.body_status (ApprovalService.approvalBody status reason) = status
        /\ ApprovalService.body_reason (ApprovalService.approvalBody status reason)
           <> Some "")
  /\ forall status reason (a : NetAnswer) rest,
       resolves (reply a) = true ->
       exists w2,
         run (ApprovalService.updateNzbnApproval stringify fuel userId status reason w)
             (a :: rest)
         = Finished (Returned (reply_data (reply a))) w2 rest.
Proof.
  intros Hfuel put. destruct fuel as [|n]; [lia|].
  assert (Hbegin : forall status reason,
            exists k,
              ApprovalService.updateNzbnApproval stringify (S n) userId status reason w
              = Await (with_net_log
                         (net_log w ++ [put (ApprovalService.approvalBody status reason)]) w)
                      (put (ApprovalService.approvalBody status reason)) k
              /\ forall rep w',
                   resolves rep = true ->
                   k rep w' = Done (Returned (reply_data rep)) w').
  { intros status reason.
    unfold ApprovalService.updateNzbnApproval, httpClient.put.
    destruct (request_begin n
                (mkRequest "put" ("/admin/users/" +:+ userId +:+ "/nzbn-approval") None
                   (OtherBody (stringify (ApprovalService.approvalBody status reason)))
                   false) w) as (k & Hk & Hk').
    unfold mbind, Proc_bind, bind. rewrite Hk. cbn [step_bind].
    eexists. split; [reflexivity|].
    intros rep w' Hres. cbn beta. rewrite Hk', Hres. reflexivity. }
  split; [|split; [|split]].
  - intro reason. unfold ApprovalService.approveUser.
    destruct (Hbegin "approved"
                (Some (match reason with
                       | Some r => r
                       | None => "NZBN verified successfully"
                       end))) as (k & Hk & _).
    rewrite Hk. cbn [run].
    destruct reason as [[|c r]|];
      (eexists; split;
       [reflexivity|unfold sent; simpl; rewrite drop_app_length; reflexivity]).
  - intro reason. unfold ApprovalService.rejectUser.
    destruct (Hbegin "rejected" (Some reason)) as (k & Hk & _).
    rewrite Hk. cbn [run].
    destruct reason as [|c r]; eexists; reflexivity.
  - intros status reason. unfold ApprovalService.approvalBody.
    destruct reason as [[|c r]|]; simpl; split; try reflexivity; discriminate.
  - intros status reason a rest Hres.
    destruct (Hbegin status reason) as (k & Hk & Hk').
    rewrite Hk. cbn [run]. rewrite (Hk' _ _ Hres). cbn [run].
    eexists. reflexivity.
Qed.

Lemma X27_approval_requests_witness :
  exists w1,
    run (ApprovalService.rejectUser (fun b => ApprovalService.body_status b) 1 "42" ""
           demo_world) []
    = Pending w1
        (attach_token demo_world
           (mkRequest "put" "/admin/users/42/nzbn-approval" None
              (OtherBody "rejected") false)).
Proof.
  exact (proj1 (proj2 (X27_approval_requests
                         (fun b => ApprovalService.body_status b) 1 "42" demo_world
                         ltac:(lia))) EmptyString).
Defined.
